(** * Bond market simulator: a shallow embedding of [src/simulation/market_model.py]

    The simulator compares a "traditional" and a "tokenized" bond market.
    The embedding follows the Python class [BondMarketSimulator] method by
    method.

    Modelling choices.
    - Python floats are exact rationals ([Q]); Python ints are [Z], and
      the one product of two [int64] values wraps around.  Where the source
      branches on a float64 value or casts it to an integer, the statements
      are made up to the rounding error of the float64 operations
      ([float_margin]).
    - A pandas DataFrame is a list of labelled rows: the row label (the
      pandas index) is kept next to the row, because the source reads rows
      both by position ([.iloc]) and by label ([.at]).
    - The source draws all its randomness from numpy's process-wide
      generator.  The generator is a tape of raw draws ([nat -> Q]) read at a
      moving position; every numpy sampler maps the raw draw onto the support
      of its distribution.  Probabilities are not modelled, only which
      outcomes are possible.
    - Exceptions of Python are the [Raise] results of the monad [M]. *)

From Stdlib Require Import ZArith QArith Qround Qminmax Qabs.
From Stdlib Require Import List Bool Lia Lqa PrimFloat.
Import ListNotations.

Set Warnings "-inexact-float".

Open Scope Z_scope.

(** ** Exceptions and the sampling monad *)

Inductive PyError : Type :=
| KeyError
| ValueError
| IndexError
| AttributeError
| ZeroDivisionError.

Inductive Result (A : Type) : Type :=
| Ok (a : A)
| Raise (e : PyError).

Arguments Ok {A} a.
Arguments Raise {A} e.

(** The tape of raw draws of the process-wide generator. *)
Definition Tape : Type := nat -> Q.

(** A computation reads the tape at a position and returns the next one. *)
Definition M (A : Type) : Type := Tape -> nat -> Result (A * nat).

Definition ret {A} (a : A) : M A := fun _ p => Ok (a, p).

Definition bind {A B} (m : M A) (f : A -> M B) : M B :=
  fun t p =>
    match m t p with
    | Ok (a, p') => f a t p'
    | Raise e => Raise e
    end.

Definition raise {A} (e : PyError) : M A := fun _ _ => Raise e.

Definition raw_draw : M Q := fun t p => Ok (t p, S p).

Declare Scope sim_scope.
Delimit Scope sim_scope with sim.
Notation "x <- c1 ;; c2" := (bind c1 (fun x => c2))
  (at level 61, c1 at next level, right associativity) : sim_scope.
Notation "' pat <- c1 ;; c2" :=
  (bind c1 (fun x => match x with pat => c2 end))
  (at level 61, pat pattern, c1 at next level, right associativity) : sim_scope.
Open Scope sim_scope.

Definition of_option {A} (e : PyError) (o : option A) : M A :=
  match o with
  | Some a => ret a
  | None => raise e
  end.

Fixpoint raw_draws (n : nat) : M (list Q) :=
  match n with
  | O => ret []
  | S k => x <- raw_draw ;; xs <- raw_draws k ;; ret (x :: xs)
  end.

(** Monadic loop over a list, threading an accumulator (a Python [for]). *)
Fixpoint for_each {A S} (xs : list A) (body : A -> S -> M S) (s : S) : M S :=
  match xs with
  | [] => ret s
  | x :: xs' => s' <- body x s ;; for_each xs' body s'
  end.

(** ** The numpy samplers, by support *)

(** The fractional part: a value of the half-open unit interval. *)
Definition unit_of_raw (r : Q) : Q := (r - inject_Z (Qfloor r))%Q.

(** A non-negative value. *)
Definition nonneg_of_raw (r : Q) : Q := Qabs r.

(** A positive value: [r] itself from 1 on, and [1/(2-r)] below 1. *)
Definition positive_of_raw (r : Q) : Q :=
  if Qle_bool 1 r then r else (1 / (2 - r))%Q.

(** A non-negative integer. *)
Definition count_of_raw (r : Q) : Z := Z.abs (Qfloor r).

(** A size argument of numpy: a negative size is a [ValueError]. *)
Definition np_size (n : Z) : M nat :=
  if n <? 0 then raise ValueError else ret (Z.to_nat n).

(** [np.random.normal(loc, scale)]: location-scale of a standard draw. *)
Definition np_normal (loc scale : Q) : M Q :=
  z <- raw_draw ;; ret (loc + scale * z)%Q.

Definition np_normal_n (loc scale : Q) (n : Z) : M (list Q) :=
  k <- np_size n ;; zs <- raw_draws k ;;
  ret (map (fun z => loc + scale * z)%Q zs).

(** [np.random.uniform(low, high, n)]. *)
Definition np_uniform_n (low high : Q) (n : Z) : M (list Q) :=
  k <- np_size n ;; us <- raw_draws k ;;
  ret (map (fun u => low + (high - low) * unit_of_raw u)%Q us).

(** [np.random.random()]. *)
Definition np_random : M Q :=
  u <- raw_draw ;; ret (unit_of_raw u).

(** [np.random.exponential(scale)]. *)
Definition np_exponential (scale : Q) : M Q :=
  e <- raw_draw ;; ret (scale * nonneg_of_raw e)%Q.

(** [np.random.poisson(lam, n)]: a non-negative integer per draw. *)
Definition np_poisson_n (lam : Q) (n : Z) : M (list Z) :=
  k <- np_size n ;; rs <- raw_draws k ;; ret (map count_of_raw rs).

(** [np.random.lognormal(mean, sigma, n)]: a positive value per draw. *)
Definition np_lognormal_n (mean sigma : Q) (n : Z) : M (list Q) :=
  k <- np_size n ;; rs <- raw_draws k ;; ret (map positive_of_raw rs).

(** [np.random.beta(a, b, n)]: a value of the unit interval per draw. *)
Definition np_beta_n (a b : Q) (n : Z) : M (list Q) :=
  k <- np_size n ;; rs <- raw_draws k ;; ret (map unit_of_raw rs).

(** [np.random.randint(low, high)]: an integer of [low, high); an empty
    range is a [ValueError]. *)
Definition np_randint (low high : Z) : M Z :=
  if high <=? low then raise ValueError
  else r <- raw_draw ;; ret (low + Qfloor r mod (high - low)).

(** The element a raw draw selects in a non-empty list. *)
Definition pick {A} (x0 : A) (xs : list A) (r : Q) : A :=
  nth (Z.to_nat (Qfloor r mod Z.of_nat (length (x0 :: xs)))) (x0 :: xs) x0.

(** [np.random.choice(a, n, p=...)]: [n] elements of [a]; the weights [p]
    only shape the distribution. *)
Definition np_choice {A} (a : list A) (n : Z) : M (list A) :=
  k <- np_size n ;;
  match a with
  | [] => raise ValueError
  | x0 :: xs => rs <- raw_draws k ;; ret (map (pick x0 xs) rs)
  end.

(** [np.clip(x, lo, hi)]. *)
Definition np_clip (x lo hi : Q) : Q := Qmin (Qmax x lo) hi.

(** [int(x)] and [.astype(int)]: truncation toward zero. *)
Definition py_int (x : Q) : Z :=
  if Qle_bool 0 x then Qfloor x else Qceiling x.

(** The product of two [int64] values: numpy wraps around. *)
Definition int64_wrap (z : Z) : Z := (z + 2 ^ 63) mod 2 ^ 64 - 2 ^ 63.

(** [range(n)]. *)
Definition py_range (n : Z) : list Z :=
  map Z.of_nat (seq 0 (Z.to_nat n)).

(** ** Data frames *)

(** A frame is the list of its rows, each with its index label. *)
Definition Frame (R : Type) : Type := list (Z * R).

Definition labels {R} (f : Frame R) : list Z := map fst f.
Definition rows {R} (f : Frame R) : list R := map snd f.

(** [len(df)]. *)
Definition len {R} (f : Frame R) : Z := Z.of_nat (length f).

(** [pd.DataFrame({...})] and [ignore_index=True]: labels 0, 1, 2, ... *)
Fixpoint reindex_from {R} (k : Z) (rs : list R) : Frame R :=
  match rs with
  | [] => []
  | r :: rs' => (k, r) :: reindex_from (k + 1) rs'
  end.

Definition new_frame {R} (rs : list R) : Frame R := reindex_from 0 rs.

(** [df.iloc[i]]: the row at position [i] (a negative [i] counts from the
    end); out of bounds is an [IndexError]. *)
Definition iloc {R} (f : Frame R) (i : Z) : M R :=
  let n := len f in
  if (i <? - n) || (n <=? i) then raise IndexError
  else of_option IndexError
         (nth_error (rows f) (Z.to_nat (if i <? 0 then i + n else i))).

(** [df.at[label, col]] read: the row labelled [label]; a label that is
    not in the index is a [KeyError].  Labels are unique in every frame the
    simulator builds. *)
Fixpoint at_lookup {R} (f : Frame R) (label : Z) : option R :=
  match f with
  | [] => None
  | (l, r) :: f' => if l =? label then Some r else at_lookup f' label
  end.

Definition at_get {R C} (f : Frame R) (label : Z) (col : R -> C) : M C :=
  r <- of_option KeyError (at_lookup f label) ;; ret (col r).

(** [df.at[label, col] = v] on a label of the index. *)
Definition at_set {R} (f : Frame R) (label : Z) (upd : R -> R) : Frame R :=
  map (fun lr => if fst lr =? label then (fst lr, upd (snd lr)) else lr) f.

(** [df[mask]]: the rows that satisfy the mask, with their labels. *)
Definition select {R} (mask : R -> bool) (f : Frame R) : Frame R :=
  filter (fun lr => mask (snd lr)) f.

(** [df[col].mean()] and [df[col].sum()]. *)
Definition col_sum {R} (col : R -> Q) (f : Frame R) : Q :=
  fold_left Qplus (map col (rows f)) 0%Q.

Definition col_mean {R} (col : R -> Q) (f : Frame R) : Q :=
  (col_sum col f / inject_Z (len f))%Q.

(** ** The data model *)

(** A date, kept as the offset from 2024-01-01, the only date the source
    starts from: [pd.DateOffset(years=...)] and [pd.DateOffset(days=...)]
    add to the two components. *)
Record Timestamp : Type := mkTimestamp { plus_years : Z; plus_days : Z }.

Definition ts_2024_01_01 : Timestamp := mkTimestamp 0 0.

Definition offset_years (d : Timestamp) (y : Z) : Timestamp :=
  mkTimestamp (plus_years d + y) (plus_days d).

Definition offset_days (d : Timestamp) (n : Z) : Timestamp :=
  mkTimestamp (plus_years d) (plus_days d + n).

Inductive Rating : Type := AAA | AA | A | BBB | BB | B.

Inductive InvestorType : Type := Retail | Institutional | Corporate.

Inductive TxType : Type := buy | sell.

Record Bond : Type := mkBond {
  bond_id : Z;
  face_value : Z;
  coupon_rate : Q;
  maturity_years : Z;
  credit_rating : Rating;
  issue_date : Timestamp;
  is_tokenized : bool;
  maturity_date : Timestamp
}.

Record Investor : Type := mkInvestor {
  investor_id : Z;
  investor_type : InvestorType;
  assets : Q;
  blockchain_preference : Q;
  risk_aversion : Q;
  investment_horizon : Z
}.

(** A row of a market table: the bond's columns and the four market
    columns [initialize_markets] adds. *)
Record MarketRow : Type := mkMarketRow {
  bond : Bond;
  price : Q;
  daily_volume : Q;
  bid_ask_spread : Q;
  market_depth : Z
}.

Definition set_price (p : Q) (r : MarketRow) : MarketRow :=
  mkMarketRow (bond r) p (daily_volume r) (bid_ask_spread r) (market_depth r).

Definition set_daily_volume (v : Q) (r : MarketRow) : MarketRow :=
  mkMarketRow (bond r) (price r) v (bid_ask_spread r) (market_depth r).

Record MarketConditions : Type := mkMarketConditions {
  reference_rate : Q;
  market_sentiment : Q;
  volatility : Q;
  event_impact : Q
}.

(** The dict of a recorded transaction; the keys carry the prefix [tx_]. *)
Record Transaction : Type := mkTransaction {
  tx_date : Timestamp;
  tx_bond_id : Z;
  tx_investor_id : Z;
  tx_price : Q;
  tx_amount : Q;
  tx_type : TxType;
  tx_is_tokenized : bool
}.

(** The dict of a day's metrics; [dm_date] and [dm_market_depth] are the
    keys ['date'] and ['market_depth']. *)
Record DailyMetrics : Type := mkDailyMetrics {
  dm_date : Timestamp;
  avg_price : Q;
  total_volume : Q;
  avg_spread : Q;
  num_transactions : Z;
  dm_market_depth : Q
}.

(** The arguments of [BondMarketSimulator.__init__] (and of the module's
    [run_simulation]). *)
Record Config : Type := mkConfig {
  num_bonds : Z;
  num_investors : Z;
  simulation_days : Z;
  traditional_min_amount : Q;
  tokenized_min_amount : Q
}.

(** ** Population generator *)

Definition face_value_choices : list Z := [1000; 5000; 10000; 50000; 100000].
Definition maturity_choices : list Z := [1; 2; 3; 5; 7; 10; 15; 20; 30].
Definition rating_choices : list Rating := [AAA; AA; A; BBB; BB; B].

(** The rows of the first [pd.DataFrame] of [generate_bonds], with the
    [maturity_date] column the source adds right after. *)
Fixpoint bond_rows (id : Z) (fvs : list Z) (crs : list Q) (ms : list Z)
    (rs : list Rating) : list Bond :=
  match fvs, crs, ms, rs with
  | fv :: fvs', cr :: crs', m :: ms', r :: rs' =>
      mkBond id fv cr m r ts_2024_01_01 false (offset_years ts_2024_01_01 m)
        :: bond_rows (id + 1) fvs' crs' ms' rs'
  | _, _, _, _ => []
  end.

(** The tokenized duplicate of a traditional bond. *)
Definition tokenize (n : Z) (b : Bond) : Bond :=
  mkBond (bond_id b + n) (face_value b) (coupon_rate b) (maturity_years b)
    (credit_rating b) (issue_date b) true (maturity_date b).

(** [generate_bonds].  On a frame without rows [self.bonds.apply(...,
    axis=1)] returns an empty frame, and assigning it to the column
    ['maturity_date'] raises [ValueError]. *)
Definition generate_bonds (cfg : Config) : M (Frame Bond) :=
  face_values <- np_choice face_value_choices (num_bonds cfg) ;;
  coupon_rates <- np_uniform_n 0.01 0.08 (num_bonds cfg) ;;
  maturities <- np_choice maturity_choices (num_bonds cfg) ;;
  credit_ratings <- np_choice rating_choices (num_bonds cfg) ;;
  bonds <-
    match bond_rows 1 face_values coupon_rates maturities credit_ratings with
    | [] => raise ValueError
    | b :: bs => ret (new_frame (b :: bs))
    end ;;
  let tokenized_bonds :=
    map (fun lb => (fst lb, tokenize (num_bonds cfg) (snd lb))) bonds in
  ret (new_frame (rows bonds ++ rows tokenized_bonds)).

Definition investor_type_choices : list InvestorType :=
  [Retail; Institutional; Corporate].
Definition horizon_choices : list Z := [1; 2; 3; 5; 7; 10; 15].

Fixpoint investor_rows (id : Z) (tys : list InvestorType) (ass bps ras : list Q)
    (hs : list Z) : list Investor :=
  match tys, ass, bps, ras, hs with
  | ty :: tys', a :: ass', bp :: bps', ra :: ras', h :: hs' =>
      mkInvestor id ty a bp ra h :: investor_rows (id + 1) tys' ass' bps' ras' hs'
  | _, _, _, _, _ => []
  end.

Definition generate_investors (cfg : Config) : M (Frame Investor) :=
  investor_types <- np_choice investor_type_choices (num_investors cfg) ;;
  assets0 <- np_lognormal_n 10 2 (num_investors cfg) ;;
  let assets := map (fun a => a * 10000)%Q assets0 in
  blockchain_preference <- np_beta_n 2 5 (num_investors cfg) ;;
  risk_aversion0 <- np_normal_n 0.5 0.15 (num_investors cfg) ;;
  let risk_aversion := map (fun x => np_clip x 0.1 0.9) risk_aversion0 in
  investment_horizons <- np_choice horizon_choices (num_investors cfg) ;;
  ret (new_frame (investor_rows 1 investor_types assets blockchain_preference
                    risk_aversion investment_horizons)).

(** ** Market initializer *)

(** [market.iloc[0]['is_tokenized']]. *)
Definition first_is_tokenized {R} (flag : R -> bool) (market : Frame R) : M bool :=
  r <- iloc market 0 ;; ret (flag r).

Definition initial_price (b : Bond) : Q :=
  let reference_rate := 0.03%Q in
  (inject_Z (face_value b)
   * (1 + (coupon_rate b - reference_rate) * inject_Z (maturity_years b)))%Q.

(** [market['face_value'] * 0.01]. *)
Definition base_volume (b : Bond) : Q := (inject_Z (face_value b) * 0.01)%Q.

Definition initialize_market (market : Frame Bond) : M (Frame MarketRow) :=
  tok_v <- first_is_tokenized is_tokenized market ;;
  let volume (b : Bond) : Q :=
    if tok_v then (base_volume b * 5)%Q else base_volume b in
  tok_s <- first_is_tokenized is_tokenized market ;;
  let spread (b : Bond) : Q :=
    if tok_s then (0.001 + 0.001 * inject_Z (maturity_years b))%Q
    else (0.005 + 0.002 * inject_Z (maturity_years b))%Q in
  tok_d <- first_is_tokenized is_tokenized market ;;
  depths <- (if tok_d
             then ps <- np_poisson_n 50 (len market) ;; ret (map (Z.add 50) ps)
             else ps <- np_poisson_n 10 (len market) ;; ret (map (Z.add 10) ps)) ;;
  ret (map (fun lbd =>
              let b := snd (fst lbd) in
              (fst (fst lbd),
               mkMarketRow b (initial_price b) (volume b) (spread b) (snd lbd)))
           (combine market depths)).

(** [initialize_markets]: the traditional table, then the tokenized one.
    On a table without rows the source raises at [market.iloc[0]] at the
    latest; the model raises there. *)
Definition initialize_markets (bonds : Frame Bond)
    : M (Frame MarketRow * Frame MarketRow) :=
  let traditional_market := select (fun b => negb (is_tokenized b)) bonds in
  let tokenized_market := select is_tokenized bonds in
  traditional_market' <- initialize_market traditional_market ;;
  tokenized_market' <- initialize_market tokenized_market ;;
  ret (traditional_market', tokenized_market').

(** ** Market-condition process *)

(** [_update_market_conditions(day)].  [sentiment] is the attribute
    [self.market_sentiment] before the call ([None]: not yet set); the new
    value of the attribute is the [market_sentiment] of the result.  The
    quotient [day / self.simulation_days] of two Python ints raises
    [ZeroDivisionError] for a day count of 0. *)
Definition _update_market_conditions (cfg : Config) (day : Z)
    (sentiment : option Q) : M MarketConditions :=
  let base_rate := 0.03%Q in
  rate_trend <-
    (if simulation_days cfg =? 0 then raise ZeroDivisionError
     else ret (inject_Z day / inject_Z (simulation_days cfg) * 0.01)%Q) ;;
  daily_noise <- np_normal 0 0.0005 ;;
  let reference_rate := (base_rate + rate_trend + daily_noise)%Q in
  sentiment' <-
    (if day =? 0 then ret 0%Q
     else
       s <- of_option AttributeError sentiment ;;
       sentiment_change <- np_normal 0 0.1 ;;
       ret (np_clip (0.8 * s + 0.2 * sentiment_change) (-1) 1)%Q) ;;
  let base_volatility := 0.01%Q in
  let volatility := (base_volatility * (1 + 0.5 * Qabs sentiment'))%Q in
  let event_probability := 0.01%Q in
  u <- np_random ;;
  event_impact <-
    (if Qlt_le_dec u event_probability then np_normal 0 0.03 else ret 0%Q) ;;
  ret (mkMarketConditions reference_rate sentiment' volatility event_impact).

(** ** State carry-forward *)

(** The rows of the market for the next day, from the rows before the day,
    the rows the day updated, and the two adjustment arrays.  The two tables
    have the same index, so the columns line up by position.  The depth is
    the truncation of the exact product; the source truncates the float64
    product, which next to an integer can fall on its other side. *)
Fixpoint carry_rows (tokenized : bool) (original updated : Frame MarketRow)
    (spread_adjustment depth_adjustment : list Q) : Frame MarketRow :=
  match original, updated, spread_adjustment, depth_adjustment with
  | (l, o) :: original', (_, u) :: updated', sa :: sas, da :: das =>
      let base := base_volume (bond o) in
      (l, mkMarketRow (bond o)
            (price u)
            (if tokenized
             then (base * 5 * 0.2 + daily_volume u * 0.8)%Q
             else (base * 0.2 + daily_volume u * 0.8)%Q)
            (bid_ask_spread u * sa)%Q
            (py_int (inject_Z (market_depth u) * da)%Q))
        :: carry_rows tokenized original' updated' sas das
  | _, _, _, _ => []
  end.

(** [_update_market_for_next_day(original_market, updated_market)]: the
    result is the new content of [original_market], which the source
    rewrites in place. *)
Definition _update_market_for_next_day (original_market updated_market : Frame MarketRow)
    : M (Frame MarketRow) :=
  tok <- first_is_tokenized (fun r => is_tokenized (bond r)) original_market ;;
  spread_adjustment <- np_normal_n 1 0.05 (len original_market) ;;
  depth_adjustment <- np_normal_n 1 0.1 (len original_market) ;;
  ret (carry_rows tok original_market updated_market
         spread_adjustment depth_adjustment).

(** ** Daily trading step *)

(** One pass of the price loop, for the row [(idx, bond)] that
    [iterrows] yields. *)
Definition reprice (mc : MarketConditions) (price_change_factor : Q)
    (row : Z * MarketRow) (updated_market : Frame MarketRow)
    : M (Frame MarketRow) :=
  let idx := fst row in
  let b := snd row in
  let rate_sensitivity := (inject_Z (maturity_years (bond b)) * 0.05)%Q in
  let price_impact := (- rate_sensitivity * (reference_rate mc - 0.03))%Q in
  let updated_market :=
    at_set updated_market idx
      (set_price (price b * (1 + price_impact) * price_change_factor)%Q) in
  specific_noise <- np_normal 0 (volatility mc) ;;
  p <- at_get updated_market idx price ;;
  ret (at_set updated_market idx (set_price (p * (1 + specific_noise))%Q)).

(** The bounds of a transaction amount: the venue's minimum and the cap.
    [bond['face_value']] is an [int64], so is its product by 5. *)
Definition amount_bounds (cfg : Config) (is_tokenized : bool)
    (b : MarketRow) (investor : Investor) : Q * Q :=
  if is_tokenized
  then (tokenized_min_amount cfg,
        Qmin (inject_Z (face_value (bond b))) (assets investor * 0.1)%Q)
  else (traditional_min_amount cfg,
        Qmin (inject_Z (int64_wrap (face_value (bond b) * 5)))
             (assets investor * 0.1)%Q).

(** One pass of the transaction loop. *)
Definition trade_once (cfg : Config) (investors : Frame Investor)
    (current_date : Timestamp) (is_tokenized : bool)
    (st : Frame MarketRow * list Transaction)
    : M (Frame MarketRow * list Transaction) :=
  let updated_market := fst st in
  let daily_transactions := snd st in
  bond_idx <- np_randint 0 (len updated_market) ;;
  b <- iloc updated_market bond_idx ;;
  investor_idx <- np_randint 0 (len investors) ;;
  investor <- iloc investors investor_idx ;;
  let min_amount := fst (amount_bounds cfg is_tokenized b investor) in
  let max_amount := snd (amount_bounds cfg is_tokenized b investor) in
  if Qlt_le_dec (assets investor * 0.1)%Q min_amount
  then ret st
  else
    e <- np_exponential 2 ;;
    let transaction_amount := (min_amount * (1 + e))%Q in
    let transaction_amount := Qmin transaction_amount max_amount in
    let spread := bid_ask_spread b in
    u <- np_random ;;
    let priced :=
      if Qlt_le_dec u 0.5
      then ((price b * (1 + spread / 2))%Q, buy)
      else ((price b * (1 - spread / 2))%Q, sell) in
    let transaction :=
      mkTransaction current_date (bond_id (bond b)) (investor_id investor)
        (fst priced) transaction_amount (snd priced) is_tokenized in
    v <- at_get updated_market bond_idx daily_volume ;;
    ret (at_set updated_market bond_idx
           (set_daily_volume (v + transaction_amount)%Q),
         daily_transactions ++ [transaction]).

(** The guard of an attempt, [min_amount > investor['assets'] * 0.1], as
    the source evaluates it on float64 operands.  [trade_once] decides it on
    the exact product; the two agree unless the exact product is within the
    rounding error of the minimum. *)
Definition minimum_unaffordable (min_amount assets : float) : bool :=
  (assets * 0.1 <? min_amount)%float.

(** The number of passes of the transaction loop: the truncation of the
    exact product, where the source truncates the float64 product. *)
Definition transaction_target (updated_market : Frame MarketRow)
    (mc : MarketConditions) (is_tokenized : bool) : Z :=
  let base_transactions := len updated_market * 2 in
  let num_transactions :=
    if is_tokenized
    then py_int (inject_Z base_transactions * (1.5 + market_sentiment mc))%Q
    else py_int (inject_Z base_transactions
                 * (0.5 + 0.5 * market_sentiment mc))%Q in
  Z.max 1 num_transactions.

(** The day's metrics, over the updated table and the day's transactions. *)
Definition daily_metrics_of (current_date : Timestamp)
    (updated_market : Frame MarketRow) (daily_transactions : list Transaction)
    : DailyMetrics :=
  mkDailyMetrics current_date
    (col_mean price updated_market)
    (col_sum daily_volume updated_market)
    (col_mean bid_ask_spread updated_market)
    (Z.of_nat (length daily_transactions))
    (col_mean (fun r => inject_Z (market_depth r)) updated_market).

(** [_simulate_daily_trading(market, current_date, market_conditions,
    is_tokenized)].  The third component of the result is the content of
    [market] after the call. *)
Definition _simulate_daily_trading (cfg : Config) (investors : Frame Investor)
    (market : Frame MarketRow) (current_date : Timestamp)
    (mc : MarketConditions) (is_tokenized : bool)
    : M (DailyMetrics * list Transaction * Frame MarketRow) :=
  let updated_market := market in
  let price_change_factor := (1 + event_impact mc)%Q in
  let price_change_factor :=
    (price_change_factor + market_sentiment mc * 0.01)%Q in
  updated_market <-
    for_each updated_market (reprice mc price_change_factor) updated_market ;;
  let num_transactions := transaction_target updated_market mc is_tokenized in
  st <- for_each (py_range num_transactions)
          (fun _ => trade_once cfg investors current_date is_tokenized)
          (updated_market, []) ;;
  let updated_market := fst st in
  let daily_transactions := snd st in
  let daily_metrics :=
    daily_metrics_of current_date updated_market daily_transactions in
  market' <- _update_market_for_next_day market updated_market ;;
  ret (daily_metrics, daily_transactions, market').

(** ** Simulation driver *)

(** What the day loop of [run_simulation] carries from day to day. *)
Record SimState : Type := mkSimState {
  traditional_market : Frame MarketRow;
  tokenized_market : Frame MarketRow;
  sentiment_attr : option Q;
  traditional_metrics : list DailyMetrics;
  tokenized_metrics : list DailyMetrics;
  traditional_transactions : list Transaction;
  tokenized_transactions : list Transaction
}.

(** The part of [run_simulation] before the day loop, on a simulator
    fresh from [__init__]: the populations and the two market tables. *)
Definition run_simulation_setup (cfg : Config) : M (Frame Investor * SimState) :=
  bonds <- generate_bonds cfg ;;
  investors <- generate_investors cfg ;;
  '(traditional, tokenized) <- initialize_markets bonds ;;
  ret (investors, mkSimState traditional tokenized None [] [] [] []).

(** One pass of the day loop. *)
Definition simulate_day (cfg : Config) (investors : Frame Investor)
    (day : Z) (s : SimState) : M SimState :=
  let start_date := ts_2024_01_01 in
  let current_date := offset_days start_date day in
  market_conditions <- _update_market_conditions cfg day (sentiment_attr s) ;;
  '(traditional_daily_metrics, traditional_daily_trades, traditional') <-
    _simulate_daily_trading cfg investors (traditional_market s)
      current_date market_conditions false ;;
  '(tokenized_daily_metrics, tokenized_daily_trades, tokenized') <-
    _simulate_daily_trading cfg investors (tokenized_market s)
      current_date market_conditions true ;;
  ret (mkSimState traditional' tokenized'
         (Some (market_sentiment market_conditions))
         (traditional_metrics s ++ [traditional_daily_metrics])
         (tokenized_metrics s ++ [tokenized_daily_metrics])
         (traditional_transactions s ++ traditional_daily_trades)
         (tokenized_transactions s ++ tokenized_daily_trades)).

(** The four tables a run leaves on the simulator. *)
Record Output : Type := mkOutput {
  traditional_metrics_df : list DailyMetrics;
  tokenized_metrics_df : list DailyMetrics;
  traditional_transactions_df : list Transaction;
  tokenized_transactions_df : list Transaction
}.

(** [BondMarketSimulator(...).run_simulation()], as the module's
    [run_simulation] calls it. *)
Definition run_simulation (cfg : Config) : M Output :=
  '(investors, s0) <- run_simulation_setup cfg ;;
  s <- for_each (py_range (simulation_days cfg)) (simulate_day cfg investors) s0 ;;
  ret (mkOutput (traditional_metrics s) (tokenized_metrics s)
         (traditional_transactions s) (tokenized_transactions s)).

(** * Auxiliary definitions

    The values and predicates the statements below are written with. *)

(** The [n] raw draws read from position [p]. *)
Definition tape_slice (t : Tape) (p n : nat) : list Q := map t (seq p n).

(** The traditional bonds [generate_bonds] builds from the draws at
    position [p]. *)
Definition drawn_bonds (cfg : Config) (t : Tape) (p : nat) : list Bond :=
  let n := Z.to_nat (num_bonds cfg) in
  bond_rows 1
    (map (pick 1000 [5000; 10000; 50000; 100000]) (tape_slice t p n))
    (map (fun u => 0.01 + (0.08 - 0.01) * unit_of_raw u)%Q
       (tape_slice t (p + n) n))
    (map (pick 1 [2; 3; 5; 7; 10; 15; 20; 30]) (tape_slice t (p + n + n) n))
    (map (pick AAA [AA; A; BBB; BB; B]) (tape_slice t (p + n + n + n) n)).

(** The market row [initialize_market] builds for a bond, in a table whose
    first row has the flag [tok], with depth [d]. *)
Definition initial_row (tok : bool) (b : Bond) (d : Z) : MarketRow :=
  mkMarketRow b (initial_price b)
    (if tok then (base_volume b * 5)%Q else base_volume b)
    (if tok then (0.001 + 0.001 * inject_Z (maturity_years b))%Q
     else (0.005 + 0.002 * inject_Z (maturity_years b))%Q)
    d.

Definition initial_depths (tok : bool) (t : Tape) (p n : nat) : list Z :=
  map (Z.add (if tok then 50 else 10)) (map count_of_raw (tape_slice t p n)).

Definition initial_market (tok : bool) (market : Frame Bond) (t : Tape)
    (p : nat) : Frame MarketRow :=
  map (fun lbd => (fst (fst lbd), initial_row tok (snd (fst lbd)) (snd lbd)))
    (combine market (initial_depths tok t p (length market))).

(** The bond table [generate_bonds] returns for the draws at [p], and the
    traditional and the tokenized table [initialize_markets] builds from it
    with the depth draws at [q]. *)
Definition generated_bonds (cfg : Config) (t : Tape) (p : nat) : Frame Bond :=
  new_frame (drawn_bonds cfg t p
             ++ map (tokenize (num_bonds cfg)) (drawn_bonds cfg t p)).

Definition initial_traditional (cfg : Config) (t : Tape) (p q : nat)
    : Frame MarketRow :=
  initial_market false (reindex_from 0 (drawn_bonds cfg t p)) t q.

Definition initial_tokenized (cfg : Config) (t : Tape) (p q : nat)
    : Frame MarketRow :=
  initial_market true
    (reindex_from (num_bonds cfg)
       (map (tokenize (num_bonds cfg)) (drawn_bonds cfg t p))) t
    (q + Z.to_nat (num_bonds cfg)).

(** The spec's [round]: the nearest integer. *)
Definition spec_round (x : Q) : Z := Qfloor (x + 0.5)%Q.

(** The row [_update_market_for_next_day] leaves at a position, from the
    row before the day [o], the updated row [u], the table's flag and the
    two adjustments. *)
Definition carried_row (tok : bool) (o u : MarketRow) (sa da : Q) : MarketRow :=
  mkMarketRow (bond o) (price u)
    (if tok then (base_volume (bond o) * 5 * 0.2 + daily_volume u * 0.8)%Q
     else (base_volume (bond o) * 0.2 + daily_volume u * 0.8)%Q)
    (bid_ask_spread u * sa)%Q
    (py_int (inject_Z (market_depth u) * da)%Q).

(** A tape that starts with the listed raw draws and goes on with [d]. *)
Definition tape_of (draws : list Q) (d : Q) : Tape := fun n => nth n draws d.

(** A one-bond traditional table: face value 1000, five years, depth 10. *)
Definition sample_bond : Bond :=
  mkBond 1 1000 0.05 5 AAA ts_2024_01_01 false (offset_years ts_2024_01_01 5).

Definition sample_row : MarketRow :=
  mkMarketRow sample_bond 1100 10 0.015 10.

Definition sample_market : Frame MarketRow := [(0, sample_row)].

(** Two tables with the same labels and the same rows up to the price. *)
Definition same_but_price (m m' : Frame MarketRow) : Prop :=
  map (fun lr => (fst lr, set_price 0 (snd lr))) m'
  = map (fun lr => (fst lr, set_price 0 (snd lr))) m.

(** The amount and the transaction of an attempt that is not skipped, from
    the selected row and investor and the two raw draws that follow. *)
Definition drawn_amount (cfg : Config) (tok : bool) (b : MarketRow)
    (inv : Investor) (z : Q) : Q :=
  Qmin (fst (amount_bounds cfg tok b inv) * (1 + 2 * nonneg_of_raw z))%Q
       (snd (amount_bounds cfg tok b inv)).

Definition drawn_transaction (cfg : Config) (date : Timestamp) (tok : bool)
    (b : MarketRow) (inv : Investor) (z u : Q) : Transaction :=
  let priced :=
    if Qlt_le_dec (unit_of_raw u) 0.5
    then ((price b * (1 + bid_ask_spread b / 2))%Q, buy)
    else ((price b * (1 - bid_ask_spread b / 2))%Q, sell) in
  mkTransaction date (bond_id (bond b)) (investor_id inv) (fst priced)
    (drawn_amount cfg tok b inv z) (snd priced) tok.

(** The minimum amount configured for a venue. *)
Definition venue_min_amount (cfg : Config) (tok : bool) : Q :=
  if tok then tokenized_min_amount cfg else traditional_min_amount cfg.

(** The cap of an amount on the face value: the face value on the
    tokenized venue, the [int64] product [face_value * 5] on the traditional
    one. *)
Definition venue_cap (tok : bool) (b : Bond) : Z :=
  if tok then face_value b else int64_wrap (face_value b * 5).

(** The source computes on float64 values; the embedding computes on exact
    rationals.  A float64 product of two operations is within a relative
    [float_margin] of the exact one, and within an absolute [float_floor]
    when it underflows.  [clearly_below x m]: the exact value [x] is below
    [m] by more than this error, so that the float64 comparison the source
    makes agrees with the exact one. *)
Definition float_margin : Q := 1 # (2 ^ 50).
Definition float_floor : Q := 1 # (2 ^ 1000).

Definition clearly_below (x m : Q) : Prop :=
  (x + Qabs x * float_margin + float_floor < m)%Q.

(** [at_most_rounded x y]: [x] is at most [y], up to the rounding error of
    the float64 value the source computes for [y]. *)
Definition at_most_rounded (x y : Q) : Prop :=
  (x <= y + Qabs y * float_margin + float_floor)%Q.

(** A poor investor: 10% of the assets is 50. *)
Definition poor_investor : Investor := mkInvestor 1 Retail 500 0.3 0.5 5.

(** A wealthy investor: 10% of the assets is 100000. *)
Definition wealthy_investor : Investor := mkInvestor 1 Institutional 1000000 0.3 0.5 5.

Definition calm_conditions : MarketConditions := mkMarketConditions 0.03 0 0.01 0.

(** The labels [num_bonds, ..., 2 * num_bonds - 1]. *)
Definition tokenized_labels (cfg : Config) : list Z :=
  map (fun i => num_bonds cfg + Z.of_nat i) (seq 0 (Z.to_nat (num_bonds cfg))).

(** The tape whose raw draws are 0, except the five asset draws of a
    five-investor population after two bonds, which are 30. *)
Definition wealthy_tape : Tape :=
  fun n => if (13 <=? n)%nat && (n <=? 17)%nat then 30%Q else 0%Q.

(** The tape of a run with one bond of maturity 30 and one investor who
    holds 500.  Draws 0-3 make the bond (face value, coupon, maturity,
    rating), 4-8 the investor, 9-10 the two depths, 11-12 the conditions of
    day 0; 13 is the traditional price noise, 14-15 the one traditional
    attempt, 16-17 the traditional spread and depth adjustments; 18 is the
    tokenized price noise, 19-24 the three tokenized attempts, 25-26 the
    tokenized adjustments; day 1 follows.  On day 0 the traditional spread
    adjustment is [1 + 0.05 * (-8)] and the tokenized one is
    [1 + 0.05 * 6]. *)
Definition diverging_spread_tape : Tape :=
  tape_of [0; 0; 8; 0;  0; -18; 0; 0; 0;  0; 0;  0; 0.5;
           0; 0; 0; -8; 0;  0; 0; 0; 0; 0; 0; 0; 6; 0;  0; 0.5; 0.5]%Q 0.5%Q.

(** The state the day loop starts from. *)
Definition initial_state (cfg : Config) (t : Tape) (p : nat) : SimState :=
  let q := (p + 4 * Z.to_nat (num_bonds cfg)
            + 5 * Z.to_nat (num_investors cfg))%nat in
  mkSimState (initial_traditional cfg t p q) (initial_tokenized cfg t p q)
    None [] [] [] [].

(** Two states of the generator that deliver the same draws from position
    [p] on. *)
Definition same_draws_from (p : nat) (t1 t2 : Tape) : Prop :=
  forall n, (p <= n)%nat -> t1 n = t2 n.

(** A computation that reads the generator forward: its result depends on
    the tape only through the draws from its start position on, and it
    leaves the generator at or after that position. *)
Definition reads_forward {A} (m : M A) : Prop :=
  forall t1 t2 p,
    same_draws_from p t1 t2 ->
    m t1 p = m t2 p
    /\ forall a p', m t1 p = Ok (a, p') -> (p <= p')%nat.

(** Two runs with the same configuration, one after the other in one
    process: the module's [run_simulation] called twice.  The generator is
    the process's, so the second run goes on where the first one stopped. *)
Definition two_runs (cfg : Config) : M (Output * Output) :=
  out1 <- run_simulation cfg ;;
  out2 <- run_simulation cfg ;;
  ret (out1, out2).

(** The tape of a run with one bond and one investor who holds 500. *)
Definition first_run_tape : Tape :=
  tape_of [0; 0; 0; 0;  0; -18; 0; 0; 0;  0; 0;  0; 0.5;  0]%Q 0.5%Q.

(** The draws of a generator that was seeded once, for two runs with one
    bond, one investor and one day.  The first run reads the draws 0-26, the
    second one the draws 27-53: the same draws again, except for draw 40,
    the price noise of the traditional bond on day 0. *)
Definition seeded_stream : Tape :=
  tape_of ([0; 0; 0; 0;  0; -18; 0; 0; 0;  0; 0;  0; 0.5;  0;
            0.5; 0.5; 0.5; 0.5; 0.5; 0.5; 0.5; 0.5; 0.5; 0.5; 0.5; 0.5; 0.5]
           ++ [0; 0; 0; 0;  0; -18; 0; 0; 0;  0; 0;  0; 0.5;  1])%Q 0.5%Q.

(** What the tokenized side of the loop state looks like on every day. *)
Definition tokenized_idle (cfg : Config) (s : SimState) : Prop :=
  labels (tokenized_market s) = tokenized_labels cfg
  /\ tokenized_transactions s = []
  /\ Forall (fun dm => num_transactions dm = 0) (tokenized_metrics s).

(** Every position of the table is also one of its labels, as in a table
    indexed 0, 1, 2, ... *)
Definition positions_labelled (m : Frame MarketRow) : Prop :=
  forall i, 0 <= i < len m -> In i (labels m).

(** The investors [generate_investors] builds from the draws at position
    [p]. *)
Definition drawn_investors (cfg : Config) (t : Tape) (p : nat) : list Investor :=
  let n := Z.to_nat (num_investors cfg) in
  investor_rows 1
    (map (pick Retail [Institutional; Corporate]) (tape_slice t p n))
    (map (fun a => a * 10000)%Q (map positive_of_raw (tape_slice t (p + n) n)))
    (map unit_of_raw (tape_slice t (p + n + n) n))
    (map (fun x => np_clip x 0.1 0.9)
       (map (fun z => 0.5 + 0.15 * z)%Q (tape_slice t (p + n + n + n) n)))
    (map (pick 1 [2; 3; 5; 7; 10; 15]) (tape_slice t (p + n + n + n + n) n)).

(** Two tables with the same labels and the same rows up to the daily
    volume. *)
Definition same_but_volume (m m' : Frame MarketRow) : Prop :=
  map (fun lr => (fst lr, set_daily_volume 0 (snd lr))) m'
  = map (fun lr => (fst lr, set_daily_volume 0 (snd lr))) m.

(** A transaction as the transaction loop records it on the venue [tok]
    at [date], for some row of the table [um] and some investor: the day and
    the venue, the identifiers, the execution price on the side of the
    trade, and an amount within the two terms of the cap, the float64 values
    of the cap on the face value and of 10% of the investor's assets. *)
Definition recorded_on (investors : Frame Investor)
    (date : Timestamp) (tok : bool) (um : Frame MarketRow)
    (tx : Transaction) : Prop :=
  exists b inv,
    In b (rows um) /\ In inv (rows investors) /\
    tx_date tx = date /\
    tx_is_tokenized tx = tok /\
    tx_bond_id tx = bond_id (bond b) /\
    tx_investor_id tx = investor_id inv /\
    at_most_rounded (tx_amount tx) (inject_Z (venue_cap tok (bond b))) /\
    at_most_rounded (tx_amount tx) (assets inv * 0.1) /\
    ((tx_type tx = buy
      /\ tx_price tx = (price b * (1 + bid_ask_spread b / 2))%Q)
     \/ (tx_type tx = sell
         /\ tx_price tx = (price b * (1 - bid_ask_spread b / 2))%Q)).

(** The sum of the amounts of a list of transactions. *)
Definition total_amount (txs : list Transaction) : Q :=
  fold_left Qplus (map tx_amount txs) 0%Q.

(** [metrics_df['num_transactions'].sum()], the [transactions_total] of
    [_generate_summary_statistics]. *)
Definition transactions_total (metrics : list DailyMetrics) : Z :=
  fold_left Z.add (map num_transactions metrics) 0.

(** A configuration with one bond and one investor and a traditional
    minimum of 500, for days on [sample_market]. *)
Definition small_config : Config := mkConfig 1 1 1 500 100.

(** What the day loop has appended after the days [days]: one metrics row
    per day and venue, dated with the day, whose transaction counts add up
    to the lengths of the transaction lists, each list flagged with its
    venue. *)
Definition loop_tables (days : list Z) (s : SimState) : Prop :=
  map dm_date (traditional_metrics s) = map (offset_days ts_2024_01_01) days /\
  map dm_date (tokenized_metrics s) = map (offset_days ts_2024_01_01) days /\
  transactions_total (traditional_metrics s)
  = Z.of_nat (length (traditional_transactions s)) /\
  transactions_total (tokenized_metrics s)
  = Z.of_nat (length (tokenized_transactions s)) /\
  Forall (fun tx => tx_is_tokenized tx = false) (traditional_transactions s) /\
  Forall (fun tx => tx_is_tokenized tx = true) (tokenized_transactions s).

(** Every row has a positive daily volume and a bond of positive face
    value, at most the largest denomination. *)
Definition volumes_positive (m : Frame MarketRow) : Prop :=
  Forall (fun r => (0 < daily_volume r)%Q /\ 0 < face_value (bond r) <= 100000) (rows m).

(** Both tables of the loop state have positive volumes and every metrics
    row so far reports a positive total volume. *)
Definition volumes_kept_positive (s : SimState) : Prop :=
  volumes_positive (traditional_market s) /\
  volumes_positive (tokenized_market s) /\
  Forall (fun dm => (0 < total_volume dm)%Q) (traditional_metrics s) /\
  Forall (fun dm => (0 < total_volume dm)%Q) (tokenized_metrics s).

(** What the day loop keeps about the two tables: the traditional table is
    indexed by position and has a row, the tokenized table has the tokenized
    labels. *)
Definition tables_labelled (cfg : Config) (s : SimState) : Prop :=
  positions_labelled (traditional_market s) /\
  traditional_market s <> [] /\
  labels (tokenized_market s) = tokenized_labels cfg.

(** The row the price loop leaves for the row [r], with the row's
    standard normal draw [z]. *)
Definition repriced_row (mc : MarketConditions) (factor : Q) (r : MarketRow)
    (z : Q) : MarketRow :=
  let rate_sensitivity := (inject_Z (maturity_years (bond r)) * 0.05)%Q in
  let price_impact := (- rate_sensitivity * (reference_rate mc - 0.03))%Q in
  let specific_noise := (0 + volatility mc * z)%Q in
  set_price (price r * (1 + price_impact) * factor * (1 + specific_noise))%Q r.

(** The rows of a table repriced in order with the draws from position
    [p]. *)
Fixpoint repriced_from (mc : MarketConditions) (factor : Q) (t : Tape)
    (p : nat) (f : Frame MarketRow) : Frame MarketRow :=
  match f with
  | [] => []
  | (l, r) :: f' =>
      (l, repriced_row mc factor r (t p)) :: repriced_from mc factor t (S p) f'
  end.

(** * Properties *)

(** ** The monad and the samplers *)

Lemma bind_Ok {A B} (m : M A) (f : A -> M B) t p b q :
  bind m f t p = Ok (b, q) ->
  exists a p', m t p = Ok (a, p') /\ f a t p' = Ok (b, q).
Proof.
  unfold bind. destruct (m t p) as [[a p'] | e]; [ | discriminate ].
  intros H. exists a, p'. split; [ reflexivity | exact H ].
Qed.

Lemma bind_eq {A B} (m : M A) (f : A -> M B) t p a p' :
  m t p = Ok (a, p') -> bind m f t p = f a t p'.
Proof. intros H. unfold bind. rewrite H. reflexivity. Qed.

Lemma bind_raise {A B} (m : M A) (f : A -> M B) t p e :
  m t p = Raise e -> bind m f t p = Raise e.
Proof. intros H. unfold bind. rewrite H. reflexivity. Qed.

Lemma tape_slice_length t p n : length (tape_slice t p n) = n.
Proof. unfold tape_slice. rewrite length_map, length_seq. reflexivity. Qed.

Lemma raw_draws_eq n : forall t p,
  raw_draws n t p = Ok (tape_slice t p n, (p + n)%nat).
Proof.
  induction n as [ | n IH ]; intros t p; simpl.
  - unfold ret, tape_slice. simpl. f_equal. f_equal. lia.
  - unfold bind at 1. unfold raw_draw at 1.
    unfold bind at 1. rewrite IH. unfold ret, tape_slice. simpl.
    f_equal. f_equal. lia.
Qed.

Lemma np_size_eq n t p : 0 <= n -> np_size n t p = Ok (Z.to_nat n, p).
Proof.
  intros H. unfold np_size.
  destruct (Z.ltb_spec n 0); [ lia | reflexivity ].
Qed.

Lemma np_size_neg {A} n (k : nat -> M A) t p :
  n < 0 -> bind (np_size n) k t p = Raise ValueError.
Proof.
  intros H. apply bind_raise. unfold np_size.
  destruct (Z.ltb_spec n 0); [ reflexivity | lia ].
Qed.

Lemma np_choice_eq {A} (x0 : A) xs n t p :
  0 <= n ->
  np_choice (x0 :: xs) n t p
  = Ok (map (pick x0 xs) (tape_slice t p (Z.to_nat n)), (p + Z.to_nat n)%nat).
Proof.
  intros H. unfold np_choice.
  rewrite (bind_eq _ _ _ _ _ _ (np_size_eq n t p H)).
  rewrite (bind_eq _ _ _ _ _ _ (raw_draws_eq _ t p)). reflexivity.
Qed.

Lemma np_sampler_eq {A} (g : Q -> A) n t p :
  0 <= n ->
  (k <- np_size n ;; rs <- raw_draws k ;; ret (map g rs)) t p
  = Ok (map g (tape_slice t p (Z.to_nat n)), (p + Z.to_nat n)%nat).
Proof.
  intros H.
  rewrite (bind_eq _ _ _ _ _ _ (np_size_eq n t p H)).
  rewrite (bind_eq _ _ _ _ _ _ (raw_draws_eq _ t p)). reflexivity.
Qed.

Lemma pick_In {A} (x0 : A) xs r : In (pick x0 xs r) (x0 :: xs).
Proof.
  unfold pick. apply nth_In.
  assert (Hpos : 0 < Z.of_nat (length (x0 :: xs))) by (simpl; lia).
  pose proof (Z.mod_pos_bound (Qfloor r) _ Hpos). lia.
Qed.

(** ** Frames *)

Lemma rows_reindex_from {R} (rs : list R) : forall k,
  rows (reindex_from k rs) = rs.
Proof.
  induction rs as [ | r rs IH ]; intros k; simpl; [ | rewrite IH ]; reflexivity.
Qed.

Lemma labels_reindex_from {R} (rs : list R) : forall k,
  labels (reindex_from k rs)
  = map (fun i => k + Z.of_nat i) (seq 0 (length rs)).
Proof.
  induction rs as [ | r rs IH ]; intros k; simpl; [ reflexivity | ].
  rewrite IH. f_equal; [ lia | ].
  rewrite <- seq_shift, map_map. apply map_ext. intros i. lia.
Qed.

Lemma reindex_from_app {R} (xs ys : list R) : forall k,
  reindex_from k (xs ++ ys)
  = reindex_from k xs ++ reindex_from (k + Z.of_nat (length xs)) ys.
Proof.
  induction xs as [ | x xs IH ]; intros k; simpl.
  - f_equal. lia.
  - rewrite IH. do 3 f_equal. lia.
Qed.

Lemma select_all {R} (mask : R -> bool) (f : Frame R) :
  Forall (fun r => mask r = true) (rows f) -> select mask f = f.
Proof.
  induction f as [ | [l r] f IH ]; simpl; intros H; [ reflexivity | ].
  inversion H as [ | ? ? Hr Hf ]; subst. simpl in Hr. rewrite Hr.
  f_equal. apply IH. exact Hf.
Qed.

Lemma select_none {R} (mask : R -> bool) (f : Frame R) :
  Forall (fun r => mask r = false) (rows f) -> select mask f = [].
Proof.
  induction f as [ | [l r] f IH ]; simpl; intros H; [ reflexivity | ].
  inversion H as [ | ? ? Hr Hf ]; subst. simpl in Hr. rewrite Hr.
  apply IH. exact Hf.
Qed.

Lemma select_app {R} (mask : R -> bool) (f g : Frame R) :
  select mask (f ++ g) = select mask f ++ select mask g.
Proof. unfold select. apply filter_app. Qed.

Lemma rows_map_snd {R} (g : R -> R) (f : Frame R) :
  rows (map (fun lr => (fst lr, g (snd lr))) f) = map g (rows f).
Proof. unfold rows. rewrite !map_map. reflexivity. Qed.

Lemma length_rows {R} (f : Frame R) : length (rows f) = length f.
Proof. unfold rows. apply length_map. Qed.

Lemma length_labels {R} (f : Frame R) : length (labels f) = length f.
Proof. unfold labels. apply length_map. Qed.

(** ** Population generator *)

Lemma bond_rows_length fvs : forall crs ms rs id,
  length crs = length fvs -> length ms = length fvs ->
  length rs = length fvs ->
  length (bond_rows id fvs crs ms rs) = length fvs.
Proof.
  induction fvs as [ | fv fvs IH ]; intros crs ms rs id Hc Hm Hr;
    [ reflexivity | ].
  destruct crs as [ | cr crs ]; [ discriminate | ].
  destruct ms as [ | m ms ]; [ discriminate | ].
  destruct rs as [ | r rs ]; [ discriminate | ].
  simpl in *. f_equal. apply IH; lia.
Qed.

Lemma bond_rows_traditional fvs : forall crs ms rs id,
  Forall (fun b => is_tokenized b = false) (bond_rows id fvs crs ms rs).
Proof.
  induction fvs as [ | fv fvs IH ]; intros crs ms rs id; simpl;
    [ constructor | ].
  destruct crs; [ constructor | ]. destruct ms; [ constructor | ].
  destruct rs; [ constructor | ]. constructor; [ reflexivity | apply IH ].
Qed.

Lemma bond_rows_maturity fvs : forall crs ms rs id,
  Forall (fun b => In (maturity_years b) ms) (bond_rows id fvs crs ms rs).
Proof.
  induction fvs as [ | fv fvs IH ]; intros crs ms rs id; simpl;
    [ constructor | ].
  destruct crs; [ constructor | ]. destruct ms as [ | m ms ]; [ constructor | ].
  destruct rs; [ constructor | ]. constructor; [ left; reflexivity | ].
  eapply Forall_impl; [ | apply IH ]. intros b Hb. right. exact Hb.
Qed.

Lemma drawn_bonds_length cfg t p :
  length (drawn_bonds cfg t p) = Z.to_nat (num_bonds cfg).
Proof.
  unfold drawn_bonds. rewrite bond_rows_length;
    rewrite ?length_map, ?tape_slice_length; reflexivity.
Qed.

(** The rows the source's first [pd.DataFrame] is built from, before the
    check of the [maturity_date] column. *)
Lemma generate_bonds_rows cfg t p :
  0 <= num_bonds cfg ->
  generate_bonds cfg t p
  = (bonds <-
       match drawn_bonds cfg t p with
       | [] => raise ValueError
       | b :: bs => ret (new_frame (b :: bs))
       end ;;
     ret (new_frame
            (rows bonds
             ++ rows (map (fun lb => (fst lb, tokenize (num_bonds cfg) (snd lb)))
                        bonds)))) t
      (p + Z.to_nat (num_bonds cfg) + Z.to_nat (num_bonds cfg)
       + Z.to_nat (num_bonds cfg) + Z.to_nat (num_bonds cfg))%nat.
Proof.
  intros H. unfold generate_bonds, face_value_choices, maturity_choices,
    rating_choices, np_uniform_n.
  rewrite (bind_eq _ _ _ _ _ _ (np_choice_eq _ _ _ t p H)).
  rewrite (bind_eq _ _ _ _ _ _ (np_sampler_eq _ _ t _ H)).
  rewrite (bind_eq _ _ _ _ _ _ (np_choice_eq _ _ _ t _ H)).
  rewrite (bind_eq _ _ _ _ _ _ (np_choice_eq _ _ _ t _ H)).
  reflexivity.
Qed.

Lemma generate_bonds_eq cfg t p :
  0 < num_bonds cfg ->
  generate_bonds cfg t p
  = Ok (new_frame (drawn_bonds cfg t p
                   ++ map (tokenize (num_bonds cfg)) (drawn_bonds cfg t p)),
        (p + Z.to_nat (num_bonds cfg) + Z.to_nat (num_bonds cfg)
         + Z.to_nat (num_bonds cfg) + Z.to_nat (num_bonds cfg))%nat).
Proof.
  intros H. rewrite generate_bonds_rows by lia.
  pose proof (drawn_bonds_length cfg t p) as Hlen.
  destruct (drawn_bonds cfg t p) as [ | b bs ];
    [ simpl in Hlen; lia | ].
  unfold bind, ret, new_frame. rewrite rows_map_snd, rows_reindex_from.
  reflexivity.
Qed.

(** Without a bond the [maturity_date] column cannot be set. *)
Lemma generate_bonds_empty cfg t p :
  num_bonds cfg = 0 -> generate_bonds cfg t p = Raise ValueError.
Proof.
  intros H. rewrite generate_bonds_rows by lia.
  pose proof (drawn_bonds_length cfg t p) as Hlen. rewrite H in Hlen.
  destruct (drawn_bonds cfg t p) as [ | b bs ]; [ reflexivity | discriminate ].
Qed.

Lemma drawn_bonds_traditional cfg t p :
  Forall (fun b => is_tokenized b = false) (drawn_bonds cfg t p).
Proof. apply bond_rows_traditional. Qed.

Lemma drawn_bonds_maturity cfg t p :
  Forall (fun b => 1 <= maturity_years b) (drawn_bonds cfg t p).
Proof.
  unfold drawn_bonds. eapply Forall_impl; [ | apply bond_rows_maturity ].
  intros b Hb. cbv beta in Hb. apply in_map_iff in Hb.
  destruct Hb as [r [Hr _]]. rewrite <- Hr.
  pose proof (pick_In 1 [2; 3; 5; 7; 10; 15; 20; 30] r) as Hin.
  simpl in Hin. intuition lia.
Qed.

Lemma tokenize_tokenized n (bs : list Bond) :
  Forall (fun b => is_tokenized b = true) (map (tokenize n) bs).
Proof. induction bs; simpl; constructor; [ reflexivity | assumption ]. Qed.

(** The two venues' bond tables, as [initialize_markets] selects them. *)
Lemma select_traditional bs n :
  Forall (fun b => is_tokenized b = false) bs ->
  select (fun b => negb (is_tokenized b)) (new_frame (bs ++ map (tokenize n) bs))
  = reindex_from 0 bs.
Proof.
  intros H. unfold new_frame. rewrite reindex_from_app, select_app.
  rewrite select_all, select_none.
  - apply app_nil_r.
  - rewrite rows_reindex_from. eapply Forall_impl; [ | apply tokenize_tokenized ].
    intros b Hb. cbv beta. rewrite Hb. reflexivity.
  - rewrite rows_reindex_from. eapply Forall_impl; [ | exact H ].
    intros b Hb. cbv beta in *. rewrite Hb. reflexivity.
Qed.

Lemma select_tokenized bs n :
  Forall (fun b => is_tokenized b = false) bs ->
  select is_tokenized (new_frame (bs ++ map (tokenize n) bs))
  = reindex_from (Z.of_nat (length bs)) (map (tokenize n) bs).
Proof.
  intros H. unfold new_frame. rewrite reindex_from_app, select_app.
  rewrite select_none, select_all.
  - reflexivity.
  - rewrite rows_reindex_from. apply tokenize_tokenized.
  - rewrite rows_reindex_from. exact H.
Qed.

(** C10.  For a positive bond count [B] the population generator returns
    a bond table with exactly [B] traditional and [B] tokenized bonds, and
    the [i]-th tokenized bond has the face value, coupon rate, maturity,
    credit rating, issue date and maturity date of the [i]-th traditional
    bond; the two differ in the tokenized flag and in the identifier, which
    is shifted by [B]. *)
Theorem generate_bonds_mirrored (cfg : Config) (t : Tape) (p : nat) :
  0 < num_bonds cfg ->
  exists bonds p',
    generate_bonds cfg t p = Ok (bonds, p') /\
    let traditional := rows (select (fun b => negb (is_tokenized b)) bonds) in
    let tokenized := rows (select is_tokenized bonds) in
    len bonds = 2 * num_bonds cfg /\
    Z.of_nat (length traditional) = num_bonds cfg /\
    Z.of_nat (length tokenized) = num_bonds cfg /\
    forall i, (i < Z.to_nat (num_bonds cfg))%nat ->
      exists b b',
        nth_error traditional i = Some b /\
        nth_error tokenized i = Some b' /\
        face_value b' = face_value b /\
        coupon_rate b' = coupon_rate b /\
        maturity_years b' = maturity_years b /\
        credit_rating b' = credit_rating b /\
        issue_date b' = issue_date b /\
        maturity_date b' = maturity_date b /\
        is_tokenized b = false /\
        is_tokenized b' = true /\
        bond_id b' = bond_id b + num_bonds cfg /\
        bond_id b' <> bond_id b.
Proof.
  intros HB.
  eexists. eexists. split; [ apply generate_bonds_eq; lia | ].
  pose proof (drawn_bonds_traditional cfg t p) as Htrad.
  pose proof (drawn_bonds_length cfg t p) as Hlen.
  cbv zeta.
  rewrite (select_traditional _ _ Htrad), (select_tokenized _ _ Htrad).
  rewrite !rows_reindex_from.
  repeat split.
  - unfold len, new_frame. rewrite <- length_rows, rows_reindex_from.
    rewrite length_app, length_map, Hlen. lia.
  - rewrite Hlen. lia.
  - rewrite length_map, Hlen. lia.
  - intros i Hi. rewrite <- Hlen in Hi.
    destruct (nth_error (drawn_bonds cfg t p) i) as [b | ] eqn:Hb;
      [ | apply nth_error_None in Hb; lia ].
    exists b, (tokenize (num_bonds cfg) b).
    split; [ reflexivity | ].
    split; [ rewrite nth_error_map, Hb; reflexivity | ].
    pose proof (proj1 (Forall_forall _ _) Htrad b (nth_error_In _ _ Hb)) as Hf.
    simpl. repeat split; try assumption. lia.
Qed.

(** The generator at the default counts of the driver script, on the tape
    whose every raw draw is 1. *)
Lemma generate_bonds_mirrored_witness :
  0 < num_bonds (mkConfig 100 1000 365 10000 100) /\
  exists bonds p',
    generate_bonds (mkConfig 100 1000 365 10000 100) (fun _ => 1%Q) 0%nat
    = Ok (bonds, p') /\
    len bonds = 200.
Proof.
  split; [ reflexivity | ].
  destruct (generate_bonds_mirrored (mkConfig 100 1000 365 10000 100)
              (fun _ => 1%Q) 0%nat eq_refl)
    as [bonds [p' [Hrun [Hlen _]]]].
  exists bonds, p'. split; [ exact Hrun | exact Hlen ].
Defined.

(** ** Market initializer *)

Lemma first_is_tokenized_cons {R} (flag : R -> bool) l0 r0 (f : Frame R) t p :
  first_is_tokenized flag ((l0, r0) :: f) t p = Ok (flag r0, p).
Proof.
  unfold first_is_tokenized, iloc, len.
  replace ((0 <? - Z.of_nat (length ((l0, r0) :: f)))
           || (Z.of_nat (length ((l0, r0) :: f)) <=? 0)) with false.
  - reflexivity.
  - symmetry. apply orb_false_iff. simpl length. split.
    + apply Z.ltb_ge. lia.
    + apply Z.leb_gt. lia.
Qed.

Lemma first_is_tokenized_nil {R} (flag : R -> bool) t p :
  first_is_tokenized flag (@nil (Z * R)) t p = Raise IndexError.
Proof. reflexivity. Qed.

Lemma initialize_market_eq l0 b0 (f : Frame Bond) t p :
  initialize_market ((l0, b0) :: f) t p
  = Ok (initial_market (is_tokenized b0) ((l0, b0) :: f) t p,
        (p + length ((l0, b0) :: f))%nat).
Proof.
  unfold initialize_market.
  rewrite !(bind_eq _ _ _ _ _ _ (first_is_tokenized_cons _ _ _ _ t p)).
  assert (Hn : 0 <= len ((l0, b0) :: f)) by (unfold len; lia).
  destruct (is_tokenized b0).
  - unfold np_poisson_n.
    rewrite (bind_eq _ _ _ _ _ _
               (bind_eq _ _ _ _ _ _ (np_sampler_eq count_of_raw _ t p Hn))).
    unfold ret, initial_market, initial_depths, len.
    rewrite Nat2Z.id. reflexivity.
  - unfold np_poisson_n.
    rewrite (bind_eq _ _ _ _ _ _
               (bind_eq _ _ _ _ _ _ (np_sampler_eq count_of_raw _ t p Hn))).
    unfold ret, initial_market, initial_depths, len.
    rewrite Nat2Z.id. reflexivity.
Qed.

Lemma initial_depths_length tok t p n : length (initial_depths tok t p n) = n.
Proof.
  unfold initial_depths. rewrite !length_map. apply tape_slice_length.
Qed.

Lemma labels_initial_market tok (market : Frame Bond) t p :
  labels (initial_market tok market t p) = labels market.
Proof.
  unfold initial_market.
  pose proof (initial_depths_length tok t p (length market)) as Hlen.
  revert Hlen. generalize (initial_depths tok t p (length market)).
  induction market as [ | [l b] market IH ]; intros ds Hlen.
  - reflexivity.
  - destruct ds as [ | d ds ]; [ discriminate | ].
    simpl. f_equal. apply IH. simpl in Hlen. lia.
Qed.

Lemma initial_market_In tok (market : Frame Bond) t p l r :
  In (l, r) (initial_market tok market t p) ->
  exists b d, r = initial_row tok b d /\ In (l, b) market.
Proof.
  unfold initial_market. intros H. apply in_map_iff in H.
  destruct H as [[[l' b] d] [Heq Hin]]. simpl in Heq.
  inversion Heq; subst. exists b, d. split; [ reflexivity | ].
  eapply in_combine_l. exact Hin.
Qed.

Lemma generate_bonds_generated cfg t p :
  0 < num_bonds cfg ->
  generate_bonds cfg t p
  = Ok (generated_bonds cfg t p, (p + 4 * Z.to_nat (num_bonds cfg))%nat).
Proof.
  intros H. rewrite generate_bonds_eq by exact H.
  unfold generated_bonds. f_equal. f_equal. lia.
Qed.

Lemma initialize_markets_eq cfg t p q :
  0 < num_bonds cfg ->
  initialize_markets (generated_bonds cfg t p) t q
  = Ok ((initial_traditional cfg t p q, initial_tokenized cfg t p q),
        (q + 2 * Z.to_nat (num_bonds cfg))%nat).
Proof.
  intros HB.
  pose proof (drawn_bonds_traditional cfg t p) as Htrad.
  pose proof (drawn_bonds_length cfg t p) as Hlen.
  unfold initialize_markets, generated_bonds.
  rewrite (select_traditional _ _ Htrad), (select_tokenized _ _ Htrad).
  rewrite Hlen, Z2Nat.id by lia.
  unfold initial_traditional, initial_tokenized.
  destruct (drawn_bonds cfg t p) as [ | b0 bs ] eqn:Hd;
    [ simpl in Hlen; lia | ].
  pose proof (proj1 (Forall_forall _ _) Htrad b0 (or_introl eq_refl)) as Hb0.
  cbv beta in Hb0. simpl reindex_from. simpl map.
  rewrite (bind_eq _ _ _ _ _ _ (initialize_market_eq _ _ _ t _)).
  rewrite (bind_eq _ _ _ _ _ _ (initialize_market_eq _ _ _ t _)).
  rewrite Hb0. simpl is_tokenized. unfold ret.
  assert (Hl1 : length ((0, b0) :: reindex_from (0 + 1) bs)
                = Z.to_nat (num_bonds cfg)).
  { rewrite <- Hlen. change ((0, b0) :: reindex_from (0 + 1) bs)
      with (reindex_from 0 (b0 :: bs)).
    rewrite <- length_rows, rows_reindex_from. reflexivity. }
  assert (Hl2 : length ((num_bonds cfg, tokenize (num_bonds cfg) b0)
                        :: reindex_from (num_bonds cfg + 1)
                             (map (tokenize (num_bonds cfg)) bs))
                = Z.to_nat (num_bonds cfg)).
  { rewrite <- Hlen. simpl. f_equal.
    rewrite <- length_rows, rows_reindex_from. apply length_map. }
  change (0 + 1) with 1 in Hl1.
  rewrite Hl1, Hl2. f_equal. f_equal. lia.
Qed.

Lemma rows_In {R} (f : Frame R) r :
  In r (rows f) -> exists l, In (l, r) f.
Proof.
  unfold rows. intros H. apply in_map_iff in H.
  destruct H as [[l r'] [Heq Hin]]. simpl in Heq. subst.
  exists l. exact Hin.
Qed.

Lemma reindex_from_In {R} (rs : list R) l r : forall k,
  In (l, r) (reindex_from k rs) -> In r rs.
Proof.
  intros k H. rewrite <- (rows_reindex_from rs k).
  unfold rows. apply in_map_iff. exists (l, r). split; [ reflexivity | exact H ].
Qed.

Lemma initial_traditional_row cfg t p q r :
  In r (rows (initial_traditional cfg t p q)) ->
  exists b d, r = initial_row false b d /\ In b (drawn_bonds cfg t p).
Proof.
  intros H. apply rows_In in H. destruct H as [l H].
  apply initial_market_In in H. destruct H as [b [d [Hr Hin]]].
  exists b, d. split; [ exact Hr | ].
  eapply reindex_from_In. exact Hin.
Qed.

Lemma initial_tokenized_row cfg t p q r :
  In r (rows (initial_tokenized cfg t p q)) ->
  exists b d, r = initial_row true (tokenize (num_bonds cfg) b) d
              /\ In b (drawn_bonds cfg t p).
Proof.
  intros H. apply rows_In in H. destruct H as [l H].
  apply initial_market_In in H. destruct H as [b [d [Hr Hin]]].
  apply reindex_from_In in Hin. apply in_map_iff in Hin.
  destruct Hin as [b' [Hb' Hin]]. subst b.
  exists b', d. split; [ exact Hr | exact Hin ].
Qed.

(** The spreads of the tables [initialize_markets] builds, wherever on the
    tape its depth draws start. *)
Lemma initial_spreads (cfg : Config) (t : Tape) (p : nat) :
  0 < num_bonds cfg ->
  exists bonds p1,
    generate_bonds cfg t p = Ok (bonds, p1) /\
    forall p_init, exists traditional tokenized p2,
    initialize_markets bonds t p_init = Ok ((traditional, tokenized), p2) /\
    (forall r, In r (rows traditional) ->
       bid_ask_spread r
       = (0.005 + 0.002 * inject_Z (maturity_years (bond r)))%Q) /\
    (forall r, In r (rows tokenized) ->
       bid_ask_spread r
       = (0.001 + 0.001 * inject_Z (maturity_years (bond r)))%Q) /\
    (forall rt rk,
       In rt (rows traditional) -> In rk (rows tokenized) ->
       maturity_years (bond rk) = maturity_years (bond rt) ->
       (bid_ask_spread rk <= bid_ask_spread rt)%Q).
Proof.
  intros HB.
  exists (generated_bonds cfg t p). eexists.
  split; [ apply generate_bonds_generated; lia | ].
  intros p_init. do 3 eexists.
  split; [ apply initialize_markets_eq; exact HB | ].
  split; [ | split ].
  - intros r Hr. apply initial_traditional_row in Hr.
    destruct Hr as [b [d [Hr _]]]. subst r. reflexivity.
  - intros r Hr. apply initial_tokenized_row in Hr.
    destruct Hr as [b [d [Hr _]]]. subst r. reflexivity.
  - intros rt rk Ht Hk Hm.
    apply initial_traditional_row in Ht. destruct Ht as [bt [dt [Ht Hbt]]].
    apply initial_tokenized_row in Hk. destruct Hk as [bk [dk [Hk _]]].
    subst rt rk. simpl in *. rewrite Hm.
    pose proof (proj1 (Forall_forall _ _) (drawn_bonds_maturity cfg t p) bt Hbt)
      as H1. cbv beta in H1.
    assert (Hq : (0 <= inject_Z (maturity_years bt))%Q).
    { change 0%Q with (inject_Z 0). rewrite <- Zle_Qle. lia. }
    lra.
Qed.

(** ** Market-condition process *)

Lemma np_clip_bounds x lo hi :
  (lo <= hi)%Q -> (lo <= np_clip x lo hi <= hi)%Q.
Proof.
  intros H. unfold np_clip. split.
  - apply Q.min_glb; [ apply Q.le_max_r | exact H ].
  - apply Q.le_min_r.
Qed.

(** The last step of [_update_market_conditions]: the event draw. *)
Lemma event_draw_total (k : Q -> MarketConditions) u t p :
  exists ev p',
    bind (if Qlt_le_dec u 0.01 then np_normal 0 0.03 else ret 0%Q)
      (fun event_impact => ret (k event_impact)) t p
    = Ok (k ev, p').
Proof.
  destruct (Qlt_le_dec u 0.01).
  - exists (0 + 0.03 * t p)%Q, (S p). reflexivity.
  - exists 0%Q, p. reflexivity.
Qed.

(** The three values [np.clip] takes. *)
Lemma np_clip_cases x lo hi :
  (lo <= hi)%Q ->
  ((x <= lo)%Q -> (np_clip x lo hi == lo)%Q) /\
  ((lo <= x <= hi)%Q -> (np_clip x lo hi == x)%Q) /\
  ((hi <= x)%Q -> (np_clip x lo hi == hi)%Q).
Proof.
  intros H. unfold np_clip.
  destruct (Q.max_spec x lo) as [[H1 E1] | [H1 E1]];
    destruct (Q.min_spec (Qmax x lo) hi) as [[H2 E2] | [H2 E2]];
    rewrite E2; rewrite ?E1 in *; repeat split; intros; lra.
Qed.

(** A day count of 0 makes the quotient [day / self.simulation_days]
    raise. *)
Lemma conditions_no_days cfg day sent t p :
  simulation_days cfg = 0 ->
  _update_market_conditions cfg day sent t p = Raise ZeroDivisionError.
Proof.
  intros H. unfold _update_market_conditions. rewrite H. reflexivity.
Qed.

Lemma conditions_day0 cfg sent t p :
  simulation_days cfg <> 0 ->
  exists mc p',
    _update_market_conditions cfg 0 sent t p = Ok (mc, p')
    /\ market_sentiment mc = 0%Q.
Proof.
  intros Hdays. unfold _update_market_conditions.
  destruct (Z.eqb_spec (simulation_days cfg) 0) as [ H0 | _ ];
    [ contradiction | ].
  unfold bind at 1. unfold ret at 1.
  unfold bind at 1. unfold np_normal at 1. unfold bind at 1.
  unfold raw_draw at 1. unfold ret at 1.
  change (0 =? 0) with true. cbv iota.
  unfold bind at 1. unfold ret at 1.
  unfold bind at 1. unfold np_random at 1. unfold bind at 1.
  unfold raw_draw at 1. unfold ret at 1.
  match goal with
  | |- context [ bind _ (fun ev => ret (@?k ev)) t ?q ] =>
      destruct (event_draw_total k (unit_of_raw (t (S p))) t q)
        as [ev [p' Hev]]
  end.
  eexists. exists p'. split; [ exact Hev | reflexivity ].
Qed.

Lemma conditions_later cfg day s t p :
  simulation_days cfg <> 0 ->
  day <> 0 ->
  exists mc p' delta q,
    _update_market_conditions cfg day (Some s) t p = Ok (mc, p')
    /\ np_normal 0 0.1 t (S p) = Ok (delta, q)
    /\ market_sentiment mc = np_clip (0.8 * s + 0.2 * delta)%Q (-1) 1.
Proof.
  intros Hdays Hday. unfold _update_market_conditions.
  destruct (Z.eqb_spec (simulation_days cfg) 0) as [ H0' | _ ];
    [ contradiction | ].
  unfold bind at 1. unfold ret at 1.
  unfold bind at 1. unfold np_normal at 1. unfold bind at 1.
  unfold raw_draw at 1. unfold ret at 1.
  destruct (Z.eqb_spec day 0) as [ H0 | _ ]; [ contradiction | ].
  unfold bind at 1. unfold bind at 1. simpl of_option. unfold ret at 1.
  unfold bind at 1. unfold np_normal at 1. unfold bind at 1.
  unfold raw_draw at 1. unfold ret at 1. unfold ret at 1.
  unfold bind at 1. unfold np_random at 1. unfold bind at 1.
  unfold raw_draw at 1. unfold ret at 1.
  match goal with
  | |- context [ bind _ (fun ev => ret (@?k ev)) t ?q ] =>
      destruct (event_draw_total k (unit_of_raw (t (S (S p)))) t q)
        as [ev [p' Hev]]
  end.
  eexists. exists p'. eexists. eexists.
  split; [ exact Hev | ]. split; reflexivity.
Qed.

Lemma simulate_day0_sentiment cfg investors s0 t p s1 p1 :
  simulate_day cfg investors 0 s0 t p = Ok (s1, p1) ->
  sentiment_attr s1 = Some 0%Q.
Proof.
  unfold simulate_day. intros H.
  apply bind_Ok in H. destruct H as [mc [q [Hmc H]]].
  assert (Hdays : simulation_days cfg <> 0).
  { intros H0. rewrite (conditions_no_days _ _ _ _ _ H0) in Hmc. discriminate. }
  destruct (conditions_day0 cfg (sentiment_attr s0) t p Hdays)
    as [mc' [q' [Hmc' Hs]]].
  rewrite Hmc in Hmc'. inversion Hmc'; subst mc' q'.
  apply bind_Ok in H. destruct H as [[[dm1 tx1] m1] [q1 [_ H]]].
  apply bind_Ok in H. destruct H as [[[dm2 tx2] m2] [q2 [_ H]]].
  unfold ret in H. inversion H; subst. simpl. rewrite Hs. reflexivity.
Qed.



(** ** State carry-forward *)

Lemma carry_rows_nth tok : forall original updated sas das i l o l' u sa da,
  nth_error original i = Some (l, o) ->
  nth_error updated i = Some (l', u) ->
  nth_error sas i = Some sa ->
  nth_error das i = Some da ->
  nth_error (carry_rows tok original updated sas das) i
  = Some (l, carried_row tok o u sa da).
Proof.
  induction original as [ | [l1 o1] original IH ];
    intros updated sas das i l o l' u sa da Ho Hu Hs Hd.
  - destruct i; discriminate.
  - destruct updated as [ | [l2 u2] updated ]; [ destruct i; discriminate | ].
    destruct sas as [ | s1 sas ]; [ destruct i; discriminate | ].
    destruct das as [ | d1 das ]; [ destruct i; discriminate | ].
    destruct i as [ | i ]; simpl in *.
    + inversion Ho; inversion Hu; inversion Hs; inversion Hd; subst.
      reflexivity.
    + eapply IH; eassumption.
Qed.

Lemma labels_carry_rows tok : forall original updated sas das,
  length updated = length original ->
  length sas = length original ->
  length das = length original ->
  labels (carry_rows tok original updated sas das) = labels original.
Proof.
  induction original as [ | [l1 o1] original IH ];
    intros updated sas das Hu Hs Hd; [ reflexivity | ].
  destruct updated as [ | [l2 u2] updated ]; [ discriminate | ].
  destruct sas as [ | s1 sas ]; [ discriminate | ].
  destruct das as [ | d1 das ]; [ discriminate | ].
  simpl in *. f_equal. apply IH; lia.
Qed.

Lemma tape_slice_nth (g : Q -> Q) t p n i :
  (i < n)%nat -> nth_error (map g (tape_slice t p n)) i = Some (g (t (p + i)%nat)).
Proof.
  intros Hi. unfold tape_slice. rewrite !nth_error_map.
  rewrite nth_error_seq.
  destruct (Nat.ltb_spec i n); [ reflexivity | lia ].
Qed.

Lemma update_market_for_next_day_eq l0 o0 (original updated : Frame MarketRow) t p :
  let n := length ((l0, o0) :: original) in
  _update_market_for_next_day ((l0, o0) :: original) updated t p
  = Ok (carry_rows (is_tokenized (bond o0)) ((l0, o0) :: original) updated
          (map (fun z => 1 + 0.05 * z)%Q (tape_slice t p n))
          (map (fun z => 1 + 0.1 * z)%Q (tape_slice t (p + n) n)),
        (p + n + n)%nat).
Proof.
  intros n. unfold _update_market_for_next_day.
  rewrite (bind_eq _ _ _ _ _ _ (first_is_tokenized_cons _ _ _ _ t p)).
  assert (Hn : 0 <= len ((l0, o0) :: original)) by (unfold len; lia).
  unfold np_normal_n.
  rewrite (bind_eq _ _ _ _ _ _ (np_sampler_eq _ _ t p Hn)).
  rewrite (bind_eq _ _ _ _ _ _ (np_sampler_eq _ _ t _ Hn)).
  unfold ret, len. rewrite Nat2Z.id. reflexivity.
Qed.

(** C5, as the code has it.  For two tables with the same index and the
    row at any position [i], the carry-forward keeps the label and the bond,
    takes the day's price unchanged, sets the volume to
    [floor_volume * 0.2 + updated_volume * 0.8] with the floor volume 1% of
    the face value, times 5 when the table is tokenized (the flag is read on
    the table's first row), multiplies the spread by [1 + 0.05 * z] and sets
    the depth to [updated_depth * (1 + 0.1 * z')] truncated toward zero,
    for the row's two standard normal draws [z] and [z'].  The product that
    is truncated is the float64 one: a value within the rounding error of
    the exact product, for a product that fits a 64-bit integer. *)
Theorem carry_forward_row (original updated : Frame MarketRow) (t : Tape)
    (p i : nat) (l0 l l' : Z) (o0 o u : MarketRow) :
  labels updated = labels original ->
  nth_error original 0 = Some (l0, o0) ->
  nth_error original i = Some (l, o) ->
  nth_error updated i = Some (l', u) ->
  exists next p' r,
    _update_market_for_next_day original updated t p = Ok (next, p') /\
    nth_error next i = Some (l, r) /\
    bond r = bond o /\
    price r = price u /\
    (let floor_volume :=
       if is_tokenized (bond o0) then (base_volume (bond o) * 5)%Q
       else base_volume (bond o) in
     daily_volume r = (floor_volume * 0.2 + daily_volume u * 0.8)%Q) /\
    (let noise := (1 + 0.05 * t (p + i)%nat)%Q in
     bid_ask_spread r = (bid_ask_spread u * noise)%Q) /\
    (let z' := t (p + length original + i)%nat in
     let product := (inject_Z (market_depth u) * (1 + 0.1 * z'))%Q in
     (Qabs product < inject_Z (2 ^ 62))%Q ->
     exists x : Q,
       (Qabs (x - product)
        <= Qabs (inject_Z (market_depth u)) * (1 + Qabs (0.1 * z'))
           * float_margin)%Q /\
       market_depth r = py_int x).
Proof.
  intros _ H0 Ho Hu.
  destruct original as [ | [l1 o1] original ]; [ discriminate | ].
  simpl in H0. inversion H0; subst l1 o1.
  assert (Hi : (i < length ((l0, o0) :: original))%nat).
  { apply nth_error_Some. rewrite Ho. discriminate. }
  eexists. eexists. exists (carried_row (is_tokenized (bond o0)) o u
                              (1 + 0.05 * t (p + i)%nat)%Q
                              (1 + 0.1 * t (p + length ((l0, o0) :: original) + i)%nat)%Q).
  split; [ apply update_market_for_next_day_eq | ].
  split.
  - eapply carry_rows_nth; try eassumption.
    + apply (tape_slice_nth (fun z => 1 + 0.05 * z)%Q). exact Hi.
    + apply (tape_slice_nth (fun z => 1 + 0.1 * z)%Q). exact Hi.
  - unfold carried_row. cbn [bond price daily_volume bid_ask_spread market_depth].
    split; [ reflexivity | ]. split; [ reflexivity | ].
    split; [ destruct (is_tokenized (bond o0)); reflexivity | ].
    split; [ reflexivity | ].
    cbv zeta. intros _.
    set (z' := t (p + length ((l0, o0) :: original) + i)%nat).
    exists (inject_Z (market_depth u) * (1 + 0.1 * z'))%Q.
    split; [ | reflexivity ].
    assert (E : (inject_Z (market_depth u) * (1 + 0.1 * z')
                 - inject_Z (market_depth u) * (1 + 0.1 * z') == 0)%Q) by ring.
    rewrite E. change (Qabs 0) with 0%Q.
    pose proof (Qabs_nonneg (inject_Z (market_depth u))) as Hd.
    pose proof (Qabs_nonneg (0.1 * z')) as Hz.
    apply Qmult_le_0_compat; [ | discriminate ].
    apply Qmult_le_0_compat; [ exact Hd | lra ].
Qed.

(** The carry-forward of [sample_market], with the depth adjustment
    1.07. *)
Lemma carry_forward_row_witness :
  labels sample_market = labels sample_market /\
  (Qabs (inject_Z (market_depth sample_row) * (1 + 0.1 * 0.7))
   < inject_Z (2 ^ 62))%Q /\
  exists next p' r,
    _update_market_for_next_day sample_market sample_market
      (tape_of [0; 0.7]%Q 0) 0%nat = Ok (next, p') /\
    nth_error next 0 = Some (0, r) /\
    price r = price sample_row /\
    exists x : Q,
      (Qabs (x - inject_Z (market_depth sample_row) * (1 + 0.1 * 0.7))
       <= Qabs (inject_Z (market_depth sample_row)) * (1 + Qabs (0.1 * 0.7))
          * float_margin)%Q /\
      market_depth r = py_int x.
Proof.
  assert (Hrange : (Qabs (inject_Z (market_depth sample_row) * (1 + 0.1 * 0.7))
                    < inject_Z (2 ^ 62))%Q) by reflexivity.
  split; [ reflexivity | ]. split; [ exact Hrange | ].
  destruct (carry_forward_row sample_market sample_market (tape_of [0; 0.7]%Q 0)
              0%nat 0%nat 0 0 0 sample_row sample_row sample_row
              eq_refl eq_refl eq_refl eq_refl)
    as [next [p' [r [Hrun [Hnth [_ [Hprice [_ [_ Hdepth]]]]]]]]].
  exists next, p', r.
  split; [ exact Hrun | ]. split; [ exact Hnth | ].
  split; [ exact Hprice | exact (Hdepth Hrange) ].
Defined.

(** C5, as stated, fails on the depth.  With depth 10 and the depth
    adjustment 1.07 the product is 10.7, whose nearest integer is 11, and the
    carry-forward leaves the depth at 10. *)
Lemma carry_forward_depth_not_rounded :
  exists next p' r,
    _update_market_for_next_day sample_market sample_market
      (tape_of [0; 0.7]%Q 0) 0%nat = Ok (next, p') /\
    nth_error next 0 = Some (0, r) /\
    np_normal 1 0.1 (tape_of [0; 0.7]%Q 0) 1%nat = Ok (1 + 0.1 * 0.7, 2%nat)%Q /\
    spec_round (inject_Z (market_depth sample_row) * (1 + 0.1 * 0.7))%Q = 11 /\
    market_depth r = 10 /\
    market_depth r
    <> spec_round (inject_Z (market_depth sample_row) * (1 + 0.1 * 0.7))%Q.
Proof.
  eexists. eexists. eexists.
  split; [ reflexivity | ].
  split; [ reflexivity | ].
  split; [ reflexivity | ].
  split; [ reflexivity | ].
  split; [ reflexivity | ].
  vm_compute. discriminate.
Qed.

(** ** Daily trading step: the price loop *)

Lemma same_but_price_refl m : same_but_price m m.
Proof. reflexivity. Qed.

Lemma same_but_price_trans m1 m2 m3 :
  same_but_price m1 m2 -> same_but_price m2 m3 -> same_but_price m1 m3.
Proof. unfold same_but_price. intros H12 H23. rewrite H23. exact H12. Qed.

Lemma same_but_price_column {C} (col : MarketRow -> C) m m' :
  (forall r, col (set_price 0 r) = col r) ->
  same_but_price m m' -> map col (rows m') = map col (rows m).
Proof.
  unfold same_but_price, rows. intros Hcol H.
  apply (f_equal (map (fun lr : Z * MarketRow => col (snd lr)))) in H.
  rewrite !map_map in H. simpl in H. rewrite !map_map.
  assert (Hext : forall f : Frame MarketRow,
             map (fun lr => col (snd lr)) f
             = map (fun lr => col (set_price 0 (snd lr))) f).
  { intros f. apply map_ext. intros lr. symmetry. apply Hcol. }
  rewrite (Hext m'), (Hext m). exact H.
Qed.

Lemma same_but_price_labels m m' :
  same_but_price m m' -> labels m' = labels m.
Proof.
  unfold same_but_price, labels. intros H.
  apply (f_equal (map fst)) in H. rewrite !map_map in H. exact H.
Qed.

Lemma same_but_price_length m m' :
  same_but_price m m' -> length m' = length m.
Proof.
  intros H. apply same_but_price_labels in H.
  rewrite <- !length_labels, H. reflexivity.
Qed.

Lemma at_set_price_same m idx v : same_but_price m (at_set m idx (set_price v)).
Proof.
  unfold same_but_price, at_set. rewrite map_map. apply map_ext.
  intros [l r]. simpl. destruct (l =? idx); reflexivity.
Qed.

Lemma at_lookup_In {R} (f : Frame R) label :
  In label (labels f) -> exists r, at_lookup f label = Some r.
Proof.
  induction f as [ | [l r] f IH ]; simpl; intros H; [ contradiction | ].
  destruct (Z.eqb_spec l label) as [ Heq | Hne ].
  - exists r. reflexivity.
  - destruct H as [ H | H ]; [ contradiction | ]. apply IH. exact H.
Qed.

Lemma at_lookup_not_In {R} (f : Frame R) label :
  ~ In label (labels f) -> at_lookup f label = None.
Proof.
  induction f as [ | [l r] f IH ]; simpl; intros H; [ reflexivity | ].
  destruct (Z.eqb_spec l label) as [ Heq | Hne ].
  - exfalso. apply H. left. exact Heq.
  - apply IH. intros Hin. apply H. right. exact Hin.
Qed.

Lemma reprice_ok mc factor idx b um t p :
  In idx (labels um) ->
  exists um',
    reprice mc factor (idx, b) um t p = Ok (um', S p)
    /\ same_but_price um um'.
Proof.
  intros Hin. unfold reprice. simpl fst. simpl snd.
  set (um1 := at_set um idx _).
  assert (H1 : same_but_price um um1) by apply at_set_price_same.
  assert (Hin1 : In idx (labels um1)).
  { rewrite (same_but_price_labels _ _ H1). exact Hin. }
  destruct (at_lookup_In _ _ Hin1) as [r Hr].
  eexists. split.
  - unfold bind at 1. unfold np_normal at 1. unfold bind at 1.
    unfold raw_draw at 1. unfold ret at 1.
    unfold bind at 1. unfold at_get. unfold bind at 1. rewrite Hr.
    reflexivity.
  - eapply same_but_price_trans; [ exact H1 | apply at_set_price_same ].
Qed.

Lemma reprice_loop_ok mc factor : forall snapshot um t p,
  incl (labels snapshot) (labels um) ->
  exists um',
    for_each snapshot (reprice mc factor) um t p
    = Ok (um', (p + length snapshot)%nat)
    /\ same_but_price um um'.
Proof.
  induction snapshot as [ | [idx b] snapshot IH ]; intros um t p Hincl.
  - exists um. split; [ simpl; unfold ret; f_equal; f_equal; lia | ].
    apply same_but_price_refl.
  - destruct (reprice_ok mc factor idx b um t p) as [um1 [H1 Hs1]].
    { apply Hincl. left. reflexivity. }
    destruct (IH um1 t (S p)) as [um' [H' Hs']].
    { rewrite (same_but_price_labels _ _ Hs1).
      intros l Hl. apply Hincl. right. exact Hl. }
    exists um'. split.
    + simpl for_each. rewrite (bind_eq _ _ _ _ _ _ H1). rewrite H'.
      f_equal. f_equal. simpl. lia.
    + eapply same_but_price_trans; eassumption.
Qed.

(** ** Daily trading step: the transaction loop *)

Lemma np_randint_eq n t p :
  0 < n -> np_randint 0 n t p = Ok (Qfloor (t p) mod n, S p).
Proof.
  intros H. unfold np_randint.
  destruct (Z.leb_spec n 0); [ lia | ].
  unfold bind, raw_draw, ret. rewrite Z.sub_0_r. reflexivity.
Qed.

Lemma np_randint_empty n t p : n <= 0 -> np_randint 0 n t p = Raise ValueError.
Proof.
  intros H. unfold np_randint.
  destruct (Z.leb_spec n 0); [ reflexivity | lia ].
Qed.

Lemma iloc_in_range {R} (f : Frame R) i :
  0 <= i < len f ->
  exists r, nth_error (rows f) (Z.to_nat i) = Some r
            /\ forall t p, iloc f i t p = Ok (r, p).
Proof.
  intros Hi. unfold len in Hi.
  destruct (nth_error (rows f) (Z.to_nat i)) as [r | ] eqn:Hr.
  - exists r. split; [ reflexivity | ]. intros t p. unfold iloc, len.
    destruct (Z.ltb_spec i (- Z.of_nat (length f))); [ lia | ].
    destruct (Z.leb_spec (Z.of_nat (length f)) i); [ lia | ].
    simpl orb. cbv iota.
    destruct (Z.ltb_spec i 0); [ lia | ]. rewrite Hr. reflexivity.
  - apply nth_error_None in Hr. rewrite length_rows in Hr. lia.
Qed.

Lemma len_pos {R} (f : Frame R) : f <> [] -> 0 < len f.
Proof. destruct f; [ congruence | unfold len; simpl; lia ]. Qed.

(** One attempt, case by case: the selected row and investor, the skip,
    the failed volume lookup and the recorded transaction. *)
Lemma trade_once_eq cfg (investors : Frame Investor) date tok
    (um : Frame MarketRow) txs t p :
  um <> [] -> investors <> [] ->
  let bond_idx := Qfloor (t p) mod len um in
  let investor_idx := Qfloor (t (S p)) mod len investors in
  exists b inv,
    nth_error (rows um) (Z.to_nat bond_idx) = Some b /\
    nth_error (rows investors) (Z.to_nat investor_idx) = Some inv /\
    trade_once cfg investors date tok (um, txs) t p
    = if Qlt_le_dec (assets inv * 0.1)%Q (fst (amount_bounds cfg tok b inv))
      then Ok ((um, txs), S (S p))
      else
        match at_lookup um bond_idx with
        | None => Raise KeyError
        | Some r =>
            Ok ((at_set um bond_idx
                   (set_daily_volume
                      (daily_volume r
                       + drawn_amount cfg tok b inv (t (S (S p))))%Q),
                 txs ++ [drawn_transaction cfg date tok b inv
                           (t (S (S p))) (t (S (S (S p))))]),
                S (S (S (S p))))
        end.
Proof.
  intros Hum Hinv bond_idx investor_idx.
  pose proof (len_pos um Hum) as Hlu. pose proof (len_pos investors Hinv) as Hli.
  destruct (iloc_in_range um bond_idx) as [b [Hb Hib]].
  { apply Z.mod_pos_bound. exact Hlu. }
  destruct (iloc_in_range investors investor_idx) as [inv [Hi Hii]].
  { apply Z.mod_pos_bound. exact Hli. }
  exists b, inv. split; [ exact Hb | ]. split; [ exact Hi | ].
  unfold trade_once. simpl fst. simpl snd.
  rewrite (bind_eq _ _ _ _ _ _ (np_randint_eq _ t p Hlu)).
  rewrite (bind_eq _ _ _ _ _ _ (Hib t _)).
  rewrite (bind_eq _ _ _ _ _ _ (np_randint_eq _ t _ Hli)).
  rewrite (bind_eq _ _ _ _ _ _ (Hii t _)).
  fold bond_idx.
  destruct (Qlt_le_dec (assets inv * 0.1) (fst (amount_bounds cfg tok b inv)));
    [ reflexivity | ].
  unfold bind at 1. unfold np_exponential at 1. unfold bind at 1.
  unfold raw_draw at 1. unfold ret at 1.
  unfold bind at 1. unfold np_random at 1. unfold bind at 1.
  unfold raw_draw at 1. unfold ret at 1.
  unfold bind at 1. unfold at_get. unfold bind at 1.
  destruct (at_lookup um bond_idx) as [r | ]; reflexivity.
Qed.

Lemma amount_bounds_min cfg tok b inv :
  fst (amount_bounds cfg tok b inv) = venue_min_amount cfg tok.
Proof. destruct tok; reflexivity. Qed.

Lemma amount_bounds_cap cfg tok b inv :
  snd (amount_bounds cfg tok b inv)
  = Qmin (inject_Z (venue_cap tok (bond b))) (assets inv * 0.1)%Q.
Proof. destruct tok; reflexivity. Qed.

Lemma trade_once_skip cfg (investors : Frame Investor) date tok
    (um : Frame MarketRow) txs t p inv :
  um <> [] -> investors <> [] ->
  nth_error (rows investors)
    (Z.to_nat (Qfloor (t (S p)) mod len investors)) = Some inv ->
  (assets inv * 0.1 < venue_min_amount cfg tok)%Q ->
  trade_once cfg investors date tok (um, txs) t p = Ok ((um, txs), S (S p)).
Proof.
  intros Hum Hinv Hnth Hpoor.
  destruct (trade_once_eq cfg investors date tok um txs t p Hum Hinv)
    as [b [inv' [_ [Hi Heq]]]].
  rewrite Hnth in Hi. inversion Hi; subst inv'. rewrite Heq.
  rewrite amount_bounds_min.
  destruct (Qlt_le_dec (assets inv * 0.1) (venue_min_amount cfg tok)) as [ _ | Hle ];
    [ reflexivity | ].
  exfalso. apply (Qlt_not_le _ _ Hpoor). exact Hle.
Qed.

Lemma trade_loop_all_skipped cfg (investors : Frame Investor) date tok
    (um : Frame MarketRow) txs :
  um <> [] -> investors <> [] ->
  (forall inv, In inv (rows investors) ->
     (assets inv * 0.1 < venue_min_amount cfg tok)%Q) ->
  forall (days : list Z) t p,
    for_each days (fun _ => trade_once cfg investors date tok) (um, txs) t p
    = Ok ((um, txs), (p + 2 * length days)%nat).
Proof.
  intros Hum Hinv Hpoor days.
  induction days as [ | d days IH ]; intros t p.
  - simpl. unfold ret. f_equal. f_equal. lia.
  - simpl for_each.
    destruct (trade_once_eq cfg investors date tok um txs t p Hum Hinv)
      as [b [inv [_ [Hi _]]]].
    rewrite (bind_eq _ _ _ _ _ _
               (trade_once_skip cfg investors date tok um txs t p inv
                  Hum Hinv Hi (Hpoor inv (nth_error_In _ _ Hi)))).
    rewrite IH. f_equal. f_equal. simpl. lia.
Qed.

Lemma at_most_rounded_le (x y : Q) : (x <= y)%Q -> at_most_rounded x y.
Proof.
  unfold at_most_rounded. intros H.
  pose proof (Qabs_nonneg y) as Hy.
  assert (Hm : (0 <= float_margin)%Q) by discriminate.
  assert (Hf : (0 <= float_floor)%Q) by discriminate.
  pose proof (Qmult_le_0_compat _ _ Hy Hm) as Hym.
  generalize dependent float_floor. generalize dependent float_margin.
  intros fm Hfm Hym ff Hff. lra.
Qed.

Lemma clearly_below_lt (x m : Q) : clearly_below x m -> (x < m)%Q.
Proof.
  unfold clearly_below. intros H.
  pose proof (Qabs_nonneg x) as Hx.
  assert (Hm : (0 <= float_margin)%Q) by discriminate.
  assert (Hf : (0 <= float_floor)%Q) by discriminate.
  pose proof (Qmult_le_0_compat _ _ Hx Hm) as Hxm.
  generalize dependent float_floor. generalize dependent float_margin.
  intros fm Hfm Hxm ff H Hff. lra.
Qed.

Lemma carry_forward_total (original updated : Frame MarketRow) t p :
  original <> [] ->
  exists next p',
    _update_market_for_next_day original updated t p = Ok (next, p').
Proof.
  intros H. destruct original as [ | [l0 o0] original ]; [ congruence | ].
  eexists. eexists. apply update_market_for_next_day_eq.
Qed.

(** C7.  On a venue with at least one bond row and one investor: an
    attempt whose selected investor has 10% of the assets clearly below the
    venue's minimum (below it by more than the rounding error of the float64
    product the guard compares) leaves the table and the day's transaction
    list as they were, without error; and on a day on which this holds of
    every investor, on a table with pairwise distinct labels and under the
    conditions the market-condition process returned, the daily trading
    step returns a metrics row for the day with [num_transactions = 0], the
    length of its empty transaction list. *)
Theorem unaffordable_minimum_skips (cfg : Config) (investors : Frame Investor)
    (market : Frame MarketRow) (date : Timestamp) (tok : bool) :
  market <> [] -> investors <> [] ->
  (forall txs t p inv,
      nth_error (rows investors)
        (Z.to_nat (Qfloor (t (S p)) mod len investors)) = Some inv ->
      clearly_below (assets inv * 0.1) (venue_min_amount cfg tok) ->
      trade_once cfg investors date tok (market, txs) t p
      = Ok ((market, txs), S (S p))) /\
  (NoDup (labels market) ->
   (forall inv, In inv (rows investors) ->
      clearly_below (assets inv * 0.1) (venue_min_amount cfg tok)) ->
   forall day sentiment t0 p0 mc p1,
     _update_market_conditions cfg day sentiment t0 p0 = Ok (mc, p1) ->
     forall t p, exists dm trades market' p',
       _simulate_daily_trading cfg investors market date mc tok t p
       = Ok ((dm, trades, market'), p')
       /\ trades = []
       /\ dm_date dm = date
       /\ num_transactions dm = 0
       /\ num_transactions dm = Z.of_nat (length trades)).
Proof.
  intros Hm Hi. split.
  - intros txs t p inv Hnth Hpoor.
    eapply trade_once_skip; try eassumption.
    apply clearly_below_lt. exact Hpoor.
  - intros _ Hpoor day sentiment t0 p0 mc p1 _ t p.
    unfold _simulate_daily_trading.
    destruct (reprice_loop_ok mc
                (1 + event_impact mc + market_sentiment mc * 0.01)%Q
                market market t p (incl_refl _)) as [um [Hum Hsame]].
    assert (Hne : um <> []).
    { intros Heq. apply same_but_price_length in Hsame. subst um.
      destruct market; [ congruence | discriminate ]. }
    rewrite (bind_eq _ _ _ _ _ _ Hum).
    rewrite (bind_eq _ _ _ _ _ _
               (trade_loop_all_skipped cfg investors date tok um [] Hne Hi
                  (fun inv Hin => clearly_below_lt _ _ (Hpoor inv Hin))
                  _ t _)).
    simpl fst. simpl snd.
    destruct (carry_forward_total market um t
                (p + length market
                 + 2 * length (py_range (transaction_target um mc tok)))%nat Hm)
      as [next [p' Hnext]].
    rewrite (bind_eq _ _ _ _ _ _ Hnext).
    do 4 eexists. split; [ reflexivity | ]. repeat split.
Qed.

(** Day 0 of the traditional venue with the minimum 10000 and one investor
    who holds 500. *)
Lemma unaffordable_minimum_skips_witness :
  sample_market <> [] /\
  NoDup (labels sample_market) /\
  clearly_below (assets poor_investor * 0.1)
    (venue_min_amount (mkConfig 1 1 1 10000 100) false) /\
  exists mc p1 dm market' p',
    _update_market_conditions (mkConfig 1 1 1 10000 100) 0 None
      (fun _ => 0%Q) 0%nat = Ok (mc, p1) /\
    _simulate_daily_trading (mkConfig 1 1 1 10000 100) [(0, poor_investor)]
      sample_market ts_2024_01_01 mc false (fun _ => 0%Q) p1
    = Ok ((dm, [], market'), p')
    /\ num_transactions dm = 0.
Proof.
  assert (Hm : sample_market <> []) by discriminate.
  assert (Hi : [(0, poor_investor)] <> []) by discriminate.
  assert (Hnd : NoDup (labels sample_market)).
  { constructor; [ intros H; exact H | constructor ]. }
  assert (Hp : clearly_below (assets poor_investor * 0.1)
                 (venue_min_amount (mkConfig 1 1 1 10000 100) false))
    by reflexivity.
  assert (Hmc : { r | _update_market_conditions (mkConfig 1 1 1 10000 100)
                        0 None (fun _ => 0%Q) 0%nat = Ok r }).
  { eexists. vm_compute. reflexivity. }
  destruct Hmc as [[mc p1] Hmc].
  split; [ exact Hm | ]. split; [ exact Hnd | ]. split; [ exact Hp | ].
  destruct (unaffordable_minimum_skips (mkConfig 1 1 1 10000 100)
              [(0, poor_investor)] sample_market ts_2024_01_01
              false Hm Hi) as [_ Hday].
  destruct (Hday Hnd
              (fun inv Hin =>
                    match Hin with
                    | or_introl Heq =>
                        eq_ind poor_investor
                          (fun i => clearly_below (assets i * 0.1) 10000)
                          Hp inv Heq
                    | or_intror Hf => False_ind _ Hf
                    end)
              0 None (fun _ => 0%Q) 0%nat mc p1 Hmc
              (fun _ => 0%Q) p1)
    as [dm [trades [market' [p' [Hrun [Htr [_ [Hn _]]]]]]]].
  exists mc, p1, dm, market', p'.
  split; [ exact Hmc | ].
  split; [ rewrite <- Htr; exact Hrun | exact Hn ].
Defined.

(** C7, as stated, fails at the rounding boundary of the guard.  The
    float64 value 99999.99999999999 is below [10000 / 0.1], and 10% of it is
    below 10000; its float64 product by 0.1 is 10000, so the guard does not
    skip an attempt of an investor with these assets on a venue with the
    minimum 10000: the attempt goes on to record a transaction. *)
Lemma boundary_investor_not_skipped :
  (99999.99999999999 <? 10000 / 0.1)%float = true /\
  (99999.99999999999 * 0.1 < 10000)%Q /\
  (99999.99999999999 * 0.1 =? 10000)%float = true /\
  minimum_unaffordable 10000 99999.99999999999 = false.
Proof.
  split; [ reflexivity | ]. split; [ reflexivity | ].
  split; reflexivity.
Qed.

(** ** The tokenized venue's volume update *)

Lemma labels_initial_tokenized cfg t p q :
  labels (initial_tokenized cfg t p q) = tokenized_labels cfg.
Proof.
  unfold initial_tokenized. rewrite labels_initial_market, labels_reindex_from.
  rewrite length_map, drawn_bonds_length. reflexivity.
Qed.

Lemma tokenized_labels_length cfg :
  length (tokenized_labels cfg) = Z.to_nat (num_bonds cfg).
Proof. unfold tokenized_labels. rewrite length_map, length_seq. reflexivity. Qed.

Lemma tokenized_labels_range cfg l :
  In l (tokenized_labels cfg) <-> num_bonds cfg <= l < 2 * num_bonds cfg.
Proof.
  unfold tokenized_labels. rewrite in_map_iff. split.
  - intros [i [Hl Hi]]. apply in_seq in Hi. lia.
  - intros H. exists (Z.to_nat (l - num_bonds cfg)). split; [ lia | ].
    apply in_seq. lia.
Qed.

Lemma tokenized_lookup_misses cfg (market : Frame MarketRow) bond_idx :
  labels market = tokenized_labels cfg ->
  0 <= bond_idx < num_bonds cfg ->
  at_lookup market bond_idx = None.
Proof.
  intros Hl Hi. apply at_lookup_not_In. rewrite Hl.
  rewrite tokenized_labels_range. lia.
Qed.

Lemma tokenized_len cfg (market : Frame MarketRow) :
  0 < num_bonds cfg ->
  labels market = tokenized_labels cfg ->
  len market = num_bonds cfg /\ market <> [].
Proof.
  intros HB Hl. assert (Hlen : length market = Z.to_nat (num_bonds cfg)).
  { rewrite <- length_labels, Hl. apply tokenized_labels_length. }
  split; [ unfold len; lia | ].
  intros Heq. subst market. simpl in Hlen. lia.
Qed.

Lemma trade_once_no_investors cfg date tok (um : Frame MarketRow) txs t p :
  um <> [] -> trade_once cfg [] date tok (um, txs) t p = Raise ValueError.
Proof.
  intros Hum. pose proof (len_pos um Hum) as Hlu.
  destruct (iloc_in_range um (Qfloor (t p) mod len um)) as [b [_ Hib]].
  { apply Z.mod_pos_bound. exact Hlu. }
  unfold trade_once. simpl fst. simpl snd.
  rewrite (bind_eq _ _ _ _ _ _ (np_randint_eq _ t p Hlu)).
  rewrite (bind_eq _ _ _ _ _ _ (Hib t _)).
  apply bind_raise. apply np_randint_empty. reflexivity.
Qed.

(** On a table with the tokenized labels an attempt either skips or
    raises [KeyError]: it never returns a changed state. *)
Lemma tokenized_trade_once cfg (investors : Frame Investor) date
    (market : Frame MarketRow) txs t p :
  0 < num_bonds cfg ->
  labels market = tokenized_labels cfg ->
  trade_once cfg investors date true (market, txs) t p
    = Ok ((market, txs), S (S p))
  \/ (exists e, trade_once cfg investors date true (market, txs) t p = Raise e).
Proof.
  intros HB Hl. destruct (tokenized_len cfg market HB Hl) as [Hlen Hne].
  assert (Hcases : investors = [] \/ investors <> []).
  { destruct investors; [ left; reflexivity | right; discriminate ]. }
  destruct Hcases as [ Hnil | Hinv ].
  - right. exists ValueError. rewrite Hnil.
    apply trade_once_no_investors. exact Hne.
  - destruct (trade_once_eq cfg investors date true market txs t p Hne Hinv)
      as [b [inv [_ [_ Heq]]]].
    rewrite Heq.
    destruct (Qlt_le_dec (assets inv * 0.1)
                (fst (amount_bounds cfg true b inv))); [ left; reflexivity | ].
    right. exists KeyError.
    rewrite (tokenized_lookup_misses cfg market _ Hl); [ reflexivity | ].
    rewrite Hlen. apply Z.mod_pos_bound. exact HB.
Qed.

Lemma tokenized_trade_once_raises cfg (investors : Frame Investor) date
    (market : Frame MarketRow) txs t p :
  0 < num_bonds cfg ->
  labels market = tokenized_labels cfg ->
  investors <> [] ->
  (forall inv, In inv (rows investors) ->
     (tokenized_min_amount cfg <= assets inv * 0.1)%Q) ->
  trade_once cfg investors date true (market, txs) t p = Raise KeyError.
Proof.
  intros HB Hl Hi Hrich. destruct (tokenized_len cfg market HB Hl) as [Hlen Hne].
  destruct (trade_once_eq cfg investors date true market txs t p Hne Hi)
    as [b [inv [_ [Hinv Heq]]]].
  rewrite Heq.
  destruct (Qlt_le_dec (assets inv * 0.1)
              (fst (amount_bounds cfg true b inv))) as [ Hlt | _ ].
  - exfalso. simpl in Hlt. apply (Qlt_not_le _ _ Hlt).
    apply Hrich. eapply nth_error_In. exact Hinv.
  - rewrite (tokenized_lookup_misses cfg market _ Hl); [ reflexivity | ].
    rewrite Hlen. apply Z.mod_pos_bound. exact HB.
Qed.

Lemma tokenized_trade_loop cfg (investors : Frame Investor) date
    (market : Frame MarketRow) :
  0 < num_bonds cfg ->
  labels market = tokenized_labels cfg ->
  forall (passes : list Z) txs t p st p',
    for_each passes (fun _ => trade_once cfg investors date true)
      (market, txs) t p = Ok (st, p') ->
    st = (market, txs).
Proof.
  intros HB Hl passes. induction passes as [ | d passes IH ];
    intros txs t p st p' H.
  - simpl in H. unfold ret in H. inversion H. reflexivity.
  - simpl for_each in H.
    destruct (tokenized_trade_once cfg investors date market txs t p HB Hl)
      as [ Hskip | [e He] ].
    + rewrite (bind_eq _ _ _ _ _ _ Hskip) in H. eapply IH. exact H.
    + rewrite (bind_raise _ _ _ _ _ He) in H. discriminate.
Qed.

Lemma carry_forward_labels (original updated : Frame MarketRow) t p next p' :
  length updated = length original ->
  _update_market_for_next_day original updated t p = Ok (next, p') ->
  labels next = labels original.
Proof.
  intros Hlen H. destruct original as [ | [l0 o0] original ].
  - unfold _update_market_for_next_day in H.
    rewrite (bind_raise _ _ _ _ _ (first_is_tokenized_nil _ t p)) in H.
    discriminate.
  - pose proof (update_market_for_next_day_eq l0 o0 original updated t p) as E.
    cbv zeta in E. rewrite E in H.
    assert (Hn : next = carry_rows (is_tokenized (bond o0))
                          ((l0, o0) :: original) updated
                          (map (fun z => 1 + 0.05 * z)%Q
                             (tape_slice t p (length ((l0, o0) :: original))))
                          (map (fun z => 1 + 0.1 * z)%Q
                             (tape_slice t (p + length ((l0, o0) :: original))
                                (length ((l0, o0) :: original)))))
      by congruence.
    rewrite Hn.
    apply labels_carry_rows; [ exact Hlen | | ];
      rewrite length_map; apply tape_slice_length.
Qed.

(** A day of the tokenized venue that returns has recorded no transaction
    and has left every daily volume as it was. *)
Lemma tokenized_day_no_trade cfg (investors : Frame Investor)
    (market : Frame MarketRow) date mc t p dm trades market' p' :
  0 < num_bonds cfg ->
  labels market = tokenized_labels cfg ->
  _simulate_daily_trading cfg investors market date mc true t p
  = Ok ((dm, trades, market'), p') ->
  trades = []
  /\ total_volume dm = col_sum daily_volume market
  /\ labels market' = labels market.
Proof.
  intros HB Hl H. unfold _simulate_daily_trading in H.
  destruct (reprice_loop_ok mc
              (1 + event_impact mc + market_sentiment mc * 0.01)%Q
              market market t p (incl_refl _)) as [um [Hum Hsame]].
  rewrite (bind_eq _ _ _ _ _ _ Hum) in H.
  apply bind_Ok in H. destruct H as [st [q [Hloop H]]].
  apply tokenized_trade_loop in Hloop;
    [ | exact HB | rewrite (same_but_price_labels _ _ Hsame); exact Hl ].
  subst st. simpl fst in H. simpl snd in H.
  apply bind_Ok in H. destruct H as [next [q' [Hnext H]]].
  unfold ret in H. inversion H; subst. clear H.
  split; [ reflexivity | ]. split.
  - simpl. unfold col_sum.
    rewrite (same_but_price_column daily_volume _ _ (fun r => eq_refl) Hsame).
    reflexivity.
  - eapply carry_forward_labels; [ | exact Hnext ].
    apply same_but_price_length. exact Hsame.
Qed.

(** C2.  For a positive bond count the tokenized table that
    [initialize_markets] returns has the row labels
    [num_bonds, ..., 2 * num_bonds - 1].  On every table with these labels
    (the tokenized table of any day): the positional index [bond_idx] that
    an attempt draws lies in [0, num_bonds) and labels no row, so the read
    of [.at[bond_idx, 'daily_volume']] raises [KeyError]; an attempt whose
    investors can all afford the minimum raises [KeyError]; an attempt that
    returns has changed neither the table nor the transaction list; and a
    day that returns has recorded no transaction, reports the volumes it
    started from, and hands the same labels to the next day. *)
Theorem tokenized_volume_update_misses (cfg : Config) (t : Tape) (p : nat) :
  0 < num_bonds cfg ->
  exists bonds p1,
    generate_bonds cfg t p = Ok (bonds, p1) /\
    forall p_init, exists traditional tokenized p2,
    initialize_markets bonds t p_init = Ok ((traditional, tokenized), p2) /\
    labels tokenized = tokenized_labels cfg /\
    (forall l, In l (labels tokenized) <->
               num_bonds cfg <= l < 2 * num_bonds cfg) /\
    forall market : Frame MarketRow,
      labels market = labels tokenized ->
      (forall t' q, exists bond_idx,
          np_randint 0 (len market) t' q = Ok (bond_idx, S q)
          /\ 0 <= bond_idx < num_bonds cfg
          /\ at_lookup market bond_idx = None
          /\ forall q', at_get market bond_idx daily_volume t' q'
                        = Raise KeyError) /\
      (forall (investors : Frame Investor) date txs t' q,
          investors <> [] ->
          (forall inv, In inv (rows investors) ->
             (tokenized_min_amount cfg <= assets inv * 0.1)%Q) ->
          trade_once cfg investors date true (market, txs) t' q
          = Raise KeyError) /\
      (forall (investors : Frame Investor) date txs t' q st q',
          trade_once cfg investors date true (market, txs) t' q = Ok (st, q') ->
          st = (market, txs)) /\
      (forall (investors : Frame Investor) date mc t' q dm trades market' q',
          _simulate_daily_trading cfg investors market date mc true t' q
          = Ok ((dm, trades, market'), q') ->
          trades = []
          /\ total_volume dm = col_sum daily_volume market
          /\ labels market' = labels market).
Proof.
  intros HB.
  exists (generated_bonds cfg t p). eexists.
  split; [ apply generate_bonds_generated; lia | ].
  intros p_init. do 3 eexists.
  split; [ apply initialize_markets_eq; exact HB | ].
  rewrite labels_initial_tokenized.
  split; [ reflexivity | ]. split; [ apply tokenized_labels_range | ].
  intros market Hl. destruct (tokenized_len cfg market HB Hl) as [Hlen Hne].
  split; [ | split; [ | split ] ].
  - intros t' q. exists (Qfloor (t' q) mod len market).
    assert (Hr : 0 <= Qfloor (t' q) mod len market < num_bonds cfg).
    { rewrite Hlen. apply Z.mod_pos_bound. exact HB. }
    split; [ apply np_randint_eq; lia | ]. split; [ exact Hr | ].
    pose proof (tokenized_lookup_misses cfg market _ Hl Hr) as Hmiss.
    split; [ exact Hmiss | ].
    intros q'. unfold at_get. rewrite Hmiss. reflexivity.
  - intros investors date txs t' q Hi Hrich.
    apply tokenized_trade_once_raises; assumption.
  - intros investors date txs t' q st q' H.
    destruct (tokenized_trade_once cfg investors date market txs t' q HB Hl)
      as [ Hskip | [e He] ].
    + rewrite Hskip in H. inversion H. reflexivity.
    + rewrite He in H. discriminate.
  - intros investors date mc t' q dm trades market' q' H.
    eapply tokenized_day_no_trade; eassumption.
Qed.

Lemma tokenized_volume_update_misses_witness :
  0 < num_bonds (mkConfig 2 5 3 10000 100) /\
  exists bonds p1 traditional tokenized p2,
    generate_bonds (mkConfig 2 5 3 10000 100) (fun _ => 1%Q) 0%nat
    = Ok (bonds, p1) /\
    initialize_markets bonds (fun _ => 1%Q) p1
    = Ok ((traditional, tokenized), p2) /\
    labels tokenized = [2; 3] /\
    trade_once (mkConfig 2 5 3 10000 100) [(0, wealthy_investor)]
      ts_2024_01_01 true (tokenized, []) (fun _ => 1%Q) p2
    = Raise KeyError.
Proof.
  split; [ reflexivity | ].
  destruct (tokenized_volume_update_misses (mkConfig 2 5 3 10000 100)
              (fun _ => 1%Q) 0%nat eq_refl)
    as [bonds [p1 [Hg Hq]]].
  destruct (Hq p1) as [traditional [tokenized [p2 [Hi [Hl [_ Hm]]]]]].
  exists bonds, p1, traditional, tokenized, p2.
  split; [ exact Hg | ]. split; [ exact Hi | ]. split; [ exact Hl | ].
  destruct (Hm tokenized eq_refl) as [_ [Hraise _]].
  apply Hraise; [ discriminate | ].
  intros inv [ Heq | [] ]. rewrite <- Heq. vm_compute. discriminate.
Defined.

(** ** Transaction amounts *)

Lemma drawn_amount_le_cap cfg tok b inv z :
  (drawn_amount cfg tok b inv z
   <= Qmin (inject_Z (venue_cap tok (bond b)))
           (assets inv * 0.1))%Q.
Proof.
  unfold drawn_amount. rewrite amount_bounds_cap. apply Q.le_min_r.
Qed.

(** The amount reaches the venue's minimum when the minimum is positive
    and does not exceed the face-value term of the cap nor 10% of the
    assets. *)
Lemma drawn_amount_ge_min cfg tok b inv z :
  (0 <= venue_min_amount cfg tok)%Q ->
  (venue_min_amount cfg tok
   <= inject_Z (venue_cap tok (bond b)))%Q ->
  (venue_min_amount cfg tok <= assets inv * 0.1)%Q ->
  (venue_min_amount cfg tok <= drawn_amount cfg tok b inv z)%Q.
Proof.
  intros H0 Hface Hassets. unfold drawn_amount.
  rewrite amount_bounds_cap, amount_bounds_min.
  apply Q.min_glb.
  - pose proof (Qabs_nonneg z) as Hz. unfold nonneg_of_raw.
    assert (Hm : (0 <= venue_min_amount cfg tok * (2 * Qabs z))%Q).
    { apply Qmult_le_0_compat; [ exact H0 | lra ]. }
    lra.
  - apply Q.min_glb; assumption.
Qed.

(** C3 fails on the code.  With 2 bonds, 5 investors, the traditional
    minimum 10000 and the tape [wealthy_tape], both bonds have face value
    1000, every investor holds 300000, and day 0 of the traditional venue
    records two transactions of amount 5000: the cap
    [min(5 * 1000, 30000)], below the venue's minimum. *)
Theorem traditional_amount_below_minimum :
  exists investors s0 p0 mc p1 dm trades market' p2,
    run_simulation_setup (mkConfig 2 5 3 10000 100) wealthy_tape 0%nat
    = Ok ((investors, s0), p0) /\
    _update_market_conditions (mkConfig 2 5 3 10000 100) 0 (sentiment_attr s0)
      wealthy_tape p0 = Ok (mc, p1) /\
    _simulate_daily_trading (mkConfig 2 5 3 10000 100) investors
      (traditional_market s0) ts_2024_01_01 mc false wealthy_tape p1
    = Ok ((dm, trades, market'), p2) /\
    length trades = 2%nat /\
    Forall (fun tx =>
              tx_amount tx = 5000%Q
              /\ (tx_amount tx
                  < traditional_min_amount (mkConfig 2 5 3 10000 100))%Q)
           trades.
Proof.
  do 9 eexists.
  split; [ vm_compute; reflexivity | ].
  split; [ vm_compute; reflexivity | ].
  split; [ vm_compute; reflexivity | ].
  split; [ reflexivity | ].
  repeat constructor.
Qed.

(** ** The driver *)

(** C1 fails on the code.  With 2 bonds, 5 investors, 3 days and the
    minimums 10000 and 100, on the tape whose every raw draw is 1 (each
    investor holds 10000), the run does not return: the first attempt of the
    tokenized venue on day 0 raises [KeyError]. *)
Theorem run_simulation_raises_KeyError :
  run_simulation (mkConfig 2 5 3 10000 100) (fun _ => 1%Q) 0%nat
  = Raise KeyError.
Proof. vm_compute. reflexivity. Qed.

(** C8, as stated, fails after day 0.  In the two-day run with one bond
    and one investor on [diverging_spread_tape], the traditional and the
    tokenized bond have the same maturity; at the start of day 1 the
    traditional spread is 0.039 and the tokenized spread is 0.0403, and so
    are the day's average spreads in the two metrics tables. *)
Lemma spread_ordering_lost_after_day0 :
  exists investors s0 p0 s1 p1 rt rk out p2 dt dk,
    run_simulation_setup (mkConfig 1 1 2 10000 100) diverging_spread_tape 0%nat
    = Ok ((investors, s0), p0) /\
    simulate_day (mkConfig 1 1 2 10000 100) investors 0 s0
      diverging_spread_tape p0 = Ok (s1, p1) /\
    rows (traditional_market s1) = [rt] /\
    rows (tokenized_market s1) = [rk] /\
    maturity_years (bond rk) = maturity_years (bond rt) /\
    ~ (bid_ask_spread rk <= bid_ask_spread rt)%Q /\
    run_simulation (mkConfig 1 1 2 10000 100) diverging_spread_tape 0%nat
    = Ok (out, p2) /\
    nth_error (traditional_metrics_df out) 1 = Some dt /\
    nth_error (tokenized_metrics_df out) 1 = Some dk /\
    ~ (avg_spread dk <= avg_spread dt)%Q.
Proof.
  do 11 eexists.
  split; [ vm_compute; reflexivity | ].
  split; [ vm_compute; reflexivity | ].
  split; [ reflexivity | ].
  split; [ reflexivity | ].
  split; [ reflexivity | ].
  split; [ vm_compute; intros H; apply H; reflexivity | ].
  split; [ vm_compute; reflexivity | ].
  split; [ reflexivity | ].
  split; [ reflexivity | ].
  vm_compute. intros H. apply H. reflexivity.
Qed.

(** ** Configurations *)

Lemma generate_investors_ok cfg t p :
  0 <= num_investors cfg ->
  exists investors,
    generate_investors cfg t p
    = Ok (investors, (p + 5 * Z.to_nat (num_investors cfg))%nat).
Proof.
  intros H. unfold generate_investors, investor_type_choices, horizon_choices,
    np_lognormal_n, np_beta_n, np_normal_n.
  rewrite (bind_eq _ _ _ _ _ _ (np_choice_eq _ _ _ t p H)).
  rewrite (bind_eq _ _ _ _ _ _ (np_sampler_eq _ _ t _ H)).
  rewrite (bind_eq _ _ _ _ _ _ (np_sampler_eq _ _ t _ H)).
  rewrite (bind_eq _ _ _ _ _ _ (np_sampler_eq _ _ t _ H)).
  rewrite (bind_eq _ _ _ _ _ _ (np_choice_eq _ _ _ t _ H)).
  eexists. unfold ret. f_equal. f_equal. lia.
Qed.

Lemma generate_investors_negative cfg t p :
  num_investors cfg < 0 -> generate_investors cfg t p = Raise ValueError.
Proof.
  intros H. unfold generate_investors, np_choice. apply bind_raise.
  apply np_size_neg. exact H.
Qed.

Lemma generate_bonds_negative cfg t p :
  num_bonds cfg < 0 -> generate_bonds cfg t p = Raise ValueError.
Proof.
  intros H. unfold generate_bonds, np_choice. apply bind_raise.
  apply np_size_neg. exact H.
Qed.

Lemma run_simulation_setup_ok cfg t p :
  0 < num_bonds cfg -> 0 <= num_investors cfg ->
  exists investors,
    run_simulation_setup cfg t p
    = Ok ((investors, initial_state cfg t p),
          (p + 4 * Z.to_nat (num_bonds cfg) + 5 * Z.to_nat (num_investors cfg)
           + 2 * Z.to_nat (num_bonds cfg))%nat).
Proof.
  intros HB HI. unfold run_simulation_setup.
  rewrite (bind_eq _ _ _ _ _ _
             (generate_bonds_generated cfg t p HB)).
  destruct (generate_investors_ok cfg t
              (p + 4 * Z.to_nat (num_bonds cfg))%nat HI) as [investors Hinv].
  rewrite (bind_eq _ _ _ _ _ _ Hinv).
  rewrite (bind_eq _ _ _ _ _ _ (initialize_markets_eq cfg t p _ HB)).
  exists investors. reflexivity.
Qed.

Lemma run_simulation_setup_raises cfg t p :
  num_bonds cfg <= 0 \/ num_investors cfg < 0 ->
  exists e, run_simulation_setup cfg t p = Raise e.
Proof.
  intros H. unfold run_simulation_setup.
  destruct (Z.lt_trichotomy (num_bonds cfg) 0) as [ Hneg | [ Hzero | Hpos ] ].
  - exists ValueError. apply bind_raise. apply generate_bonds_negative. exact Hneg.
  - exists ValueError. apply bind_raise. apply generate_bonds_empty. exact Hzero.
  - rewrite (bind_eq _ _ _ _ _ _
               (generate_bonds_generated cfg t p ltac:(lia))).
    exists ValueError. apply bind_raise.
    apply generate_investors_negative. lia.
Qed.

Lemma py_range_nonpositive n : n <= 0 -> py_range n = [].
Proof.
  intros H. unfold py_range.
  replace (Z.to_nat n) with 0%nat by lia. reflexivity.
Qed.

(** C9, as the code has it.  The engine has no validation step.  A
    non-positive bond count or a negative investor count makes the
    population generator or the market initializer raise, before the day
    loop, and the run raises the same error.  With a positive bond count and
    a non-negative investor count the part before the day loop succeeds
    whatever the day count and the minimum amounts are, and with a
    non-positive day count the run returns normally with four empty
    tables. *)
Theorem configuration_not_validated (cfg : Config) (t : Tape) (p : nat) :
  (num_bonds cfg <= 0 \/ num_investors cfg < 0 ->
   exists e,
     run_simulation_setup cfg t p = Raise e
     /\ run_simulation cfg t p = Raise e) /\
  (0 < num_bonds cfg -> 0 <= num_investors cfg ->
   exists investors s0 p0,
     run_simulation_setup cfg t p = Ok ((investors, s0), p0)
     /\ (simulation_days cfg <= 0 ->
         run_simulation cfg t p = Ok (mkOutput [] [] [] [], p0))).
Proof.
  split.
  - intros H. destruct (run_simulation_setup_raises cfg t p H) as [e He].
    exists e. split; [ exact He | ].
    unfold run_simulation. apply bind_raise. exact He.
  - intros HB HI.
    destruct (run_simulation_setup_ok cfg t p HB HI) as [investors Hs].
    do 3 eexists. split; [ exact Hs | ].
    intros Hd. unfold run_simulation.
    rewrite (bind_eq _ _ _ _ _ _ Hs).
    rewrite (py_range_nonpositive _ Hd). reflexivity.
Qed.

Lemma configuration_not_validated_witness :
  (exists e, run_simulation (mkConfig 0 5 3 10000 100) (fun _ => 0%Q) 0%nat
             = Raise e) /\
  (exists p0, run_simulation (mkConfig 2 5 (-1) 0 (-100)) (fun _ => 0%Q) 0%nat
              = Ok (mkOutput [] [] [] [], p0)).
Proof.
  split.
  - assert (H0 : num_bonds (mkConfig 0 5 3 10000 100) <= 0
                 \/ num_investors (mkConfig 0 5 3 10000 100) < 0).
    { left. simpl. lia. }
    destruct (proj1 (configuration_not_validated (mkConfig 0 5 3 10000 100)
                       (fun _ => 0%Q) 0%nat) H0) as [e [_ He]].
    exists e. exact He.
  - assert (HB : 0 < num_bonds (mkConfig 2 5 (-1) 0 (-100))) by (simpl; lia).
    assert (HI : 0 <= num_investors (mkConfig 2 5 (-1) 0 (-100)))
      by (simpl; lia).
    assert (HD : simulation_days (mkConfig 2 5 (-1) 0 (-100)) <= 0)
      by (simpl; lia).
    destruct (proj2 (configuration_not_validated (mkConfig 2 5 (-1) 0 (-100))
                       (fun _ => 0%Q) 0%nat) HB HI)
      as [inv [s0 [p0 [_ Hrun]]]].
    exists p0. exact (Hrun HD).
Defined.

(** C9, as stated, fails: a day count of 0 and a zero and a negative
    minimum amount are not rejected, the run returns normally; and a zero
    investor count passes the part before the day loop. *)
Lemma nonpositive_configuration_accepted :
  simulation_days (mkConfig 2 5 0 10000 100) <= 0 /\
  run_simulation (mkConfig 2 5 0 10000 100) (fun _ => 0%Q) 0%nat
  = Ok (mkOutput [] [] [] [], 37%nat) /\
  (traditional_min_amount (mkConfig 2 5 0 0 (-100)) <= 0)%Q /\
  (tokenized_min_amount (mkConfig 2 5 0 0 (-100)) <= 0)%Q /\
  run_simulation (mkConfig 2 5 0 0 (-100)) (fun _ => 0%Q) 0%nat
  = Ok (mkOutput [] [] [] [], 37%nat) /\
  num_investors (mkConfig 2 0 3 10000 100) <= 0 /\
  exists s0 p0,
    run_simulation_setup (mkConfig 2 0 3 10000 100) (fun _ => 0%Q) 0%nat
    = Ok (([], s0), p0).
Proof.
  split; [ discriminate | ].
  split; [ vm_compute; reflexivity | ].
  split; [ discriminate | ].
  split; [ discriminate | ].
  split; [ vm_compute; reflexivity | ].
  split; [ discriminate | ].
  do 2 eexists. vm_compute. reflexivity.
Qed.

(** ** The generator of a run *)

Create HintDb forward.

Lemma same_draws_from_le p q t1 t2 :
  (p <= q)%nat -> same_draws_from p t1 t2 -> same_draws_from q t1 t2.
Proof. intros Hpq H n Hn. apply H. lia. Qed.

Lemma forward_ret {A} (a : A) : reads_forward (ret a).
Proof.
  intros t1 t2 p _. split; [ reflexivity | ].
  intros a' p' H. unfold ret in H. injection H as _ Hp. lia.
Qed.

Lemma forward_raise {A} e : reads_forward (@raise A e).
Proof. intros t1 t2 p _. split; [ reflexivity | discriminate ]. Qed.

Lemma forward_raw_draw : reads_forward raw_draw.
Proof.
  intros t1 t2 p H. unfold raw_draw. rewrite (H p (Nat.le_refl p)).
  split; [ reflexivity | ].
  intros a p' E. injection E as _ Hp. lia.
Qed.

Lemma forward_bind {A B} (m : M A) (f : A -> M B) :
  reads_forward m -> (forall a, reads_forward (f a)) ->
  reads_forward (bind m f).
Proof.
  intros Hm Hf t1 t2 p H. destruct (Hm t1 t2 p H) as [Em Pm].
  unfold bind. rewrite <- Em.
  destruct (m t1 p) as [[a p'] | e].
  - pose proof (Pm a p' eq_refl) as Hp.
    destruct (Hf a t1 t2 p' (same_draws_from_le _ _ _ _ Hp H)) as [Ef Pf].
    split; [ exact Ef | ].
    intros b q Hq. pose proof (Pf b q Hq). lia.
  - split; [ reflexivity | discriminate ].
Qed.

Lemma forward_of_option {A} e (o : option A) : reads_forward (of_option e o).
Proof. destruct o; [ apply forward_ret | apply forward_raise ]. Qed.

Lemma forward_raw_draws n : reads_forward (raw_draws n).
Proof.
  induction n as [ | n IH ]; simpl.
  - apply forward_ret.
  - apply forward_bind; [ apply forward_raw_draw | intros x ].
    apply forward_bind; [ exact IH | intros xs; apply forward_ret ].
Qed.

Lemma forward_for_each {A S} (body : A -> S -> M S) :
  (forall x s, reads_forward (body x s)) ->
  forall xs s, reads_forward (for_each xs body s).
Proof.
  intros Hbody xs. induction xs as [ | x xs IH ]; intros s; simpl.
  - apply forward_ret.
  - apply forward_bind; [ apply Hbody | intros s'; apply IH ].
Qed.

#[local] Hint Resolve forward_ret forward_raise forward_raw_draw
  forward_of_option forward_raw_draws : forward.
#[local] Hint Extern 2 (reads_forward (bind _ _)) =>
  apply forward_bind; [ | intros ] : forward.
#[local] Hint Extern 2 (reads_forward (for_each _ _ _)) =>
  apply forward_for_each; intros : forward.
#[local] Hint Extern 3 (reads_forward (if ?c then _ else _)) =>
  destruct c : forward.
#[local] Hint Extern 3 (reads_forward (match ?x with _ => _ end)) =>
  destruct x : forward.

Ltac forward_by_unfolding :=
  intros; cbv zeta; auto 40 with forward.

Lemma forward_np_size n : reads_forward (np_size n).
Proof. unfold np_size. forward_by_unfolding. Qed.
#[local] Hint Resolve forward_np_size : forward.

Lemma forward_np_normal loc scale : reads_forward (np_normal loc scale).
Proof. unfold np_normal. forward_by_unfolding. Qed.

Lemma forward_np_normal_n loc scale n :
  reads_forward (np_normal_n loc scale n).
Proof. unfold np_normal_n. forward_by_unfolding. Qed.

Lemma forward_np_uniform_n lo hi n : reads_forward (np_uniform_n lo hi n).
Proof. unfold np_uniform_n. forward_by_unfolding. Qed.

Lemma forward_np_random : reads_forward np_random.
Proof. unfold np_random. forward_by_unfolding. Qed.

Lemma forward_np_exponential scale : reads_forward (np_exponential scale).
Proof. unfold np_exponential. forward_by_unfolding. Qed.

Lemma forward_np_poisson_n lam n : reads_forward (np_poisson_n lam n).
Proof. unfold np_poisson_n. forward_by_unfolding. Qed.

Lemma forward_np_lognormal_n mean sigma n :
  reads_forward (np_lognormal_n mean sigma n).
Proof. unfold np_lognormal_n. forward_by_unfolding. Qed.

Lemma forward_np_beta_n a b n : reads_forward (np_beta_n a b n).
Proof. unfold np_beta_n. forward_by_unfolding. Qed.

Lemma forward_np_randint lo hi : reads_forward (np_randint lo hi).
Proof. unfold np_randint. forward_by_unfolding. Qed.

Lemma forward_np_choice {A} (a : list A) n : reads_forward (np_choice a n).
Proof. unfold np_choice. forward_by_unfolding. Qed.

Lemma forward_iloc {R} (f : Frame R) i : reads_forward (iloc f i).
Proof. unfold iloc. forward_by_unfolding. Qed.

Lemma forward_at_get {R C} (f : Frame R) l (col : R -> C) :
  reads_forward (at_get f l col).
Proof. unfold at_get. forward_by_unfolding. Qed.

#[local] Hint Resolve forward_np_normal forward_np_normal_n
  forward_np_uniform_n forward_np_random forward_np_exponential
  forward_np_poisson_n forward_np_lognormal_n forward_np_beta_n
  forward_np_randint forward_np_choice forward_iloc
  forward_at_get : forward.

Lemma forward_first_is_tokenized {R} (flag : R -> bool) (f : Frame R) :
  reads_forward (first_is_tokenized flag f).
Proof. unfold first_is_tokenized. forward_by_unfolding. Qed.
#[local] Hint Resolve forward_first_is_tokenized : forward.

Lemma forward_generate_bonds cfg : reads_forward (generate_bonds cfg).
Proof. unfold generate_bonds. forward_by_unfolding. Qed.

Lemma forward_generate_investors cfg :
  reads_forward (generate_investors cfg).
Proof. unfold generate_investors. forward_by_unfolding. Qed.

Lemma forward_initialize_market market :
  reads_forward (initialize_market market).
Proof. unfold initialize_market. forward_by_unfolding. Qed.
#[local] Hint Resolve forward_initialize_market : forward.

Lemma forward_initialize_markets bonds :
  reads_forward (initialize_markets bonds).
Proof. unfold initialize_markets. forward_by_unfolding. Qed.

Lemma forward_update_market_conditions cfg day sentiment :
  reads_forward (_update_market_conditions cfg day sentiment).
Proof. unfold _update_market_conditions. forward_by_unfolding. Qed.

Lemma forward_update_market_for_next_day original updated :
  reads_forward (_update_market_for_next_day original updated).
Proof. unfold _update_market_for_next_day. forward_by_unfolding. Qed.

Lemma forward_reprice mc factor row um :
  reads_forward (reprice mc factor row um).
Proof. unfold reprice. forward_by_unfolding. Qed.

Lemma forward_trade_once cfg investors date tok st :
  reads_forward (trade_once cfg investors date tok st).
Proof. unfold trade_once. forward_by_unfolding. Qed.

#[local] Hint Resolve forward_generate_bonds forward_generate_investors
  forward_initialize_markets forward_update_market_conditions
  forward_update_market_for_next_day forward_reprice
  forward_trade_once : forward.

Lemma forward_simulate_daily_trading cfg investors market date mc tok :
  reads_forward (_simulate_daily_trading cfg investors market date mc tok).
Proof. unfold _simulate_daily_trading. forward_by_unfolding. Qed.
#[local] Hint Resolve forward_simulate_daily_trading : forward.

Lemma forward_run_simulation_setup cfg :
  reads_forward (run_simulation_setup cfg).
Proof. unfold run_simulation_setup. forward_by_unfolding. Qed.

Lemma forward_simulate_day cfg investors day s :
  reads_forward (simulate_day cfg investors day s).
Proof. unfold simulate_day. forward_by_unfolding. Qed.
#[local] Hint Resolve forward_run_simulation_setup
  forward_simulate_day : forward.

Lemma forward_run_simulation cfg : reads_forward (run_simulation cfg).
Proof. unfold run_simulation. forward_by_unfolding. Qed.

Lemma same_draws_from_refl p t : same_draws_from p t t.
Proof. intros n _. reflexivity. Qed.

(** A run that returns has drawn the bonds (four draws a bond), the
    investors (five draws an investor) and the depths (one draw a row of
    each table) before the day loop. *)
Lemma run_advances_generator cfg t p out p' :
  run_simulation cfg t p = Ok (out, p') ->
  0 < num_bonds cfg /\ 0 <= num_investors cfg /\
  (p + Z.to_nat (6 * num_bonds cfg + 5 * num_investors cfg) <= p')%nat.
Proof.
  intros H.
  assert (HBI : 0 < num_bonds cfg /\ 0 <= num_investors cfg).
  { destruct (Z.lt_ge_cases 0 (num_bonds cfg)) as [ HB | HB ];
      destruct (Z.lt_ge_cases (num_investors cfg) 0) as [ HI | HI ];
      try (split; lia);
      (destruct (run_simulation_setup_raises cfg t p) as [e He];
       [ lia | ]; unfold run_simulation in H;
       rewrite (bind_raise _ _ _ _ _ He) in H; discriminate). }
  destruct HBI as [HB HI]. split; [ exact HB | ]. split; [ exact HI | ].
  destruct (run_simulation_setup_ok cfg t p HB HI) as [investors Hsetup].
  unfold run_simulation in H. rewrite (bind_eq _ _ _ _ _ _ Hsetup) in H.
  apply bind_Ok in H. destruct H as [s [q [Hloop H]]].
  unfold ret in H. injection H as _ Hq. subst q.
  set (p0 := (p + 4 * Z.to_nat (num_bonds cfg)
              + 5 * Z.to_nat (num_investors cfg)
              + 2 * Z.to_nat (num_bonds cfg))%nat) in *.
  destruct (forward_for_each (simulate_day cfg investors)
              (fun x s0 => forward_simulate_day cfg investors x s0)
              (py_range (simulation_days cfg)) (initial_state cfg t p)
              t t p0 (same_draws_from_refl p0 t)) as [_ Hpos].
  pose proof (Hpos _ _ Hloop). subst p0. lia.
Qed.




(** ** Runs that return *)

Lemma daily_trading_count cfg (investors : Frame Investor)
    (market : Frame MarketRow) date mc tok t p dm trades market' p' :
  _simulate_daily_trading cfg investors market date mc tok t p
  = Ok ((dm, trades, market'), p') ->
  num_transactions dm = Z.of_nat (length trades).
Proof.
  unfold _simulate_daily_trading. intros H.
  apply bind_Ok in H. destruct H as [um [q1 [_ H]]].
  apply bind_Ok in H. destruct H as [st [q2 [_ H]]].
  apply bind_Ok in H. destruct H as [next [q3 [_ H]]].
  unfold ret in H. inversion H. reflexivity.
Qed.

Lemma simulate_day_tokenized_idle cfg investors day s t p s' p' :
  0 < num_bonds cfg ->
  tokenized_idle cfg s ->
  simulate_day cfg investors day s t p = Ok (s', p') ->
  tokenized_idle cfg s'.
Proof.
  intros HB [Hl [Htx Hdm]] H. unfold simulate_day in H.
  apply bind_Ok in H. destruct H as [mc [q1 [_ H]]].
  apply bind_Ok in H. destruct H as [[[dm1 tr1] m1] [q2 [_ H]]].
  apply bind_Ok in H. destruct H as [[[dm2 tr2] m2] [q3 [Htok H]]].
  unfold ret in H. inversion H; subst s' p'. clear H.
  pose proof (daily_trading_count _ _ _ _ _ _ _ _ _ _ _ _ Htok) as Hcount.
  destruct (tokenized_day_no_trade _ _ _ _ _ _ _ _ _ _ _ HB Hl Htok)
    as [Htr [_ Hl']].
  subst tr2. unfold tokenized_idle. simpl.
  split; [ rewrite Hl'; exact Hl | ].
  split; [ rewrite Htx; reflexivity | ].
  apply Forall_app. split; [ exact Hdm | ].
  constructor; [ exact Hcount | constructor ].
Qed.

Lemma day_loop_tokenized_idle cfg investors :
  0 < num_bonds cfg ->
  forall days s t p s' p',
    tokenized_idle cfg s ->
    for_each days (simulate_day cfg investors) s t p = Ok (s', p') ->
    tokenized_idle cfg s'.
Proof.
  intros HB days. induction days as [ | d days IH ]; intros s t p s' p' Hs H.
  - simpl in H. unfold ret in H. inversion H; subst. exact Hs.
  - simpl for_each in H. apply bind_Ok in H.
    destruct H as [s1 [q [Hday H]]].
    eapply IH; [ | exact H ].
    eapply simulate_day_tokenized_idle; eassumption.
Qed.

(** X12.  For a positive bond count, every run that returns has an empty
    tokenized transaction table and only zero transaction counts in the
    tokenized metrics table: a run returns only if no attempt of the
    tokenized venue was ever carried out. *)
Lemma returned_run_has_no_tokenized_trade cfg t p out p' :
  0 < num_bonds cfg ->
  run_simulation cfg t p = Ok (out, p') ->
  tokenized_transactions_df out = []
  /\ Forall (fun dm => num_transactions dm = 0) (tokenized_metrics_df out).
Proof.
  intros HB H. unfold run_simulation in H.
  apply bind_Ok in H. destruct H as [[investors s0] [p0 [Hsetup H]]].
  apply bind_Ok in H. destruct H as [s [q [Hloop H]]].
  unfold ret in H. inversion H; subst out p'. clear H. simpl.
  assert (Hs0 : tokenized_idle cfg s0).
  { destruct (Z.lt_ge_cases (num_investors cfg) 0) as [ Hneg | Hnn ].
    - destruct (run_simulation_setup_raises cfg t p (or_intror Hneg)) as [e He].
      rewrite He in Hsetup. discriminate.
    - destruct (run_simulation_setup_ok cfg t p HB Hnn) as [inv Hok].
      rewrite Hok in Hsetup. inversion Hsetup; subst.
      unfold tokenized_idle, initial_state. simpl.
      split; [ apply labels_initial_tokenized | ].
      split; [ reflexivity | constructor ]. }
  destruct (day_loop_tokenized_idle cfg investors HB _ _ _ _ _ _ Hs0 Hloop)
    as [_ [Htx Hdm]].
  split; assumption.
Qed.

(** ** The traditional venue never raises *)

Lemma labels_at_set {R} (f : Frame R) label (upd : R -> R) :
  labels (at_set f label upd) = labels f.
Proof.
  unfold labels, at_set. rewrite map_map. apply map_ext.
  intros [l r]. simpl. destruct (l =? label); reflexivity.
Qed.

Lemma positions_labelled_same_labels m m' :
  labels m' = labels m -> positions_labelled m -> positions_labelled m'.
Proof.
  intros Hl H i Hi. rewrite Hl. apply H.
  unfold len in *. rewrite <- (length_labels m), <- Hl, length_labels. exact Hi.
Qed.

Lemma positions_labelled_initial_traditional cfg t p q :
  positions_labelled (initial_traditional cfg t p q).
Proof.
  intros i Hi. unfold initial_traditional in *.
  unfold len in Hi. rewrite <- length_labels in Hi.
  rewrite labels_initial_market in *.
  rewrite labels_reindex_from in *. rewrite length_map, length_seq in Hi.
  apply in_map_iff. exists (Z.to_nat i). split; [ lia | ].
  apply in_seq. lia.
Qed.

Lemma trade_once_total cfg (investors : Frame Investor) date tok
    (um : Frame MarketRow) txs t p :
  positions_labelled um -> um <> [] -> investors <> [] ->
  exists um' txs' p',
    trade_once cfg investors date tok (um, txs) t p = Ok ((um', txs'), p')
    /\ labels um' = labels um.
Proof.
  intros Hpos Hum Hinv.
  destruct (trade_once_eq cfg investors date tok um txs t p Hum Hinv)
    as [b [inv [_ [_ Heq]]]].
  rewrite Heq.
  destruct (Qlt_le_dec (assets inv * 0.1) (fst (amount_bounds cfg tok b inv))).
  - do 3 eexists. split; reflexivity.
  - destruct (at_lookup_In um (Qfloor (t p) mod len um)) as [r Hr].
    { apply Hpos. apply Z.mod_pos_bound. apply len_pos. exact Hum. }
    rewrite Hr. do 3 eexists. split; [ reflexivity | apply labels_at_set ].
Qed.

Lemma labels_nonempty (m m' : Frame MarketRow) :
  labels m' = labels m -> m <> [] -> m' <> [].
Proof.
  intros Hl Hm Hm'. subst m'. destruct m; [ congruence | discriminate ].
Qed.

Lemma trade_loop_total cfg (investors : Frame Investor) date tok :
  investors <> [] ->
  forall (passes : list Z) (um : Frame MarketRow) txs t p,
    positions_labelled um -> um <> [] ->
    exists um' txs' p',
      for_each passes (fun _ => trade_once cfg investors date tok)
        (um, txs) t p = Ok ((um', txs'), p')
      /\ labels um' = labels um.
Proof.
  intros Hinv passes. induction passes as [ | d passes IH ];
    intros um txs t p Hpos Hum.
  - do 3 eexists. split; reflexivity.
  - destruct (trade_once_total cfg investors date tok um txs t p Hpos Hum Hinv)
      as [um1 [txs1 [p1 [H1 Hl1]]]].
    destruct (IH um1 txs1 t p1
                (positions_labelled_same_labels _ _ Hl1 Hpos)
                (labels_nonempty _ _ Hl1 Hum))
      as [um' [txs' [p' [H' Hl']]]].
    exists um', txs', p'. split.
    + simpl for_each. rewrite (bind_eq _ _ _ _ _ _ H1). exact H'.
    + rewrite Hl'. exact Hl1.
Qed.

(** With a bond row and an investor, a day of a venue whose table is
    indexed by position returns. *)
Lemma daily_trading_total cfg (investors : Frame Investor)
    (market : Frame MarketRow) date mc tok t p :
  positions_labelled market -> market <> [] -> investors <> [] ->
  exists dm trades market' p',
    _simulate_daily_trading cfg investors market date mc tok t p
    = Ok ((dm, trades, market'), p')
    /\ labels market' = labels market.
Proof.
  intros Hpos Hm Hinv. unfold _simulate_daily_trading.
  destruct (reprice_loop_ok mc
              (1 + event_impact mc + market_sentiment mc * 0.01)%Q
              market market t p (incl_refl _)) as [um [Hum Hsame]].
  rewrite (bind_eq _ _ _ _ _ _ Hum).
  pose proof (same_but_price_labels _ _ Hsame) as Hl.
  destruct (trade_loop_total cfg investors date tok Hinv
              (py_range (transaction_target um mc tok)) um [] t
              (p + length market)%nat
              (positions_labelled_same_labels _ _ Hl Hpos)
              (labels_nonempty _ _ Hl Hm))
    as [um' [txs' [p1 [Hloop Hl']]]].
  rewrite (bind_eq _ _ _ _ _ _ Hloop). simpl fst. simpl snd.
  destruct (carry_forward_total market um' t p1 Hm) as [next [p' Hnext]].
  rewrite (bind_eq _ _ _ _ _ _ Hnext).
  do 4 eexists. split; [ reflexivity | ].
  eapply carry_forward_labels; [ | exact Hnext ].
  rewrite <- !length_labels, Hl', Hl. reflexivity.
Qed.

Lemma transaction_target_pos um mc tok :
  exists k passes, py_range (transaction_target um mc tok) = k :: passes.
Proof.
  unfold transaction_target, py_range.
  set (n := Z.max 1 _).
  assert (Hn : 1 <= n) by (unfold n; lia).
  destruct (Z.to_nat n) as [ | m ] eqn:Hm; [ lia | ].
  simpl. do 2 eexists. reflexivity.
Qed.

(** A day of the tokenized venue on which every investor can afford the
    tokenized minimum raises [KeyError]. *)
Lemma tokenized_day_raises cfg (investors : Frame Investor)
    (market : Frame MarketRow) date mc t p :
  0 < num_bonds cfg ->
  labels market = tokenized_labels cfg ->
  investors <> [] ->
  (forall inv, In inv (rows investors) ->
     (tokenized_min_amount cfg <= assets inv * 0.1)%Q) ->
  _simulate_daily_trading cfg investors market date mc true t p
  = Raise KeyError.
Proof.
  intros HB Hl Hinv Hrich. unfold _simulate_daily_trading.
  destruct (reprice_loop_ok mc
              (1 + event_impact mc + market_sentiment mc * 0.01)%Q
              market market t p (incl_refl _)) as [um [Hum Hsame]].
  rewrite (bind_eq _ _ _ _ _ _ Hum).
  apply bind_raise.
  destruct (transaction_target_pos um mc true) as [k [passes Hk]].
  rewrite Hk. simpl for_each. apply bind_raise.
  apply tokenized_trade_once_raises; try assumption.
  rewrite (same_but_price_labels _ _ Hsame). exact Hl.
Qed.

(** X13.  With at least one bond and one day, a run whose generated
    investors can all afford the tokenized minimum (10% of the assets is at
    least the minimum) raises [KeyError]: the traditional venue's day 0
    returns and the first attempt of the tokenized venue's day 0 fails. *)
Lemma run_raises_when_affordable cfg t p investors s0 p0 :
  0 < num_bonds cfg -> 1 <= simulation_days cfg ->
  run_simulation_setup cfg t p = Ok ((investors, s0), p0) ->
  investors <> [] ->
  (forall inv, In inv (rows investors) ->
     (tokenized_min_amount cfg <= assets inv * 0.1)%Q) ->
  run_simulation cfg t p = Raise KeyError.
Proof.
  intros HB HD Hsetup Hinv Hrich.
  assert (Hs0 : s0 = initial_state cfg t p).
  { destruct (Z.lt_ge_cases (num_investors cfg) 0) as [ Hneg | Hnn ].
    - destruct (run_simulation_setup_raises cfg t p (or_intror Hneg)) as [e He].
      rewrite He in Hsetup. discriminate.
    - destruct (run_simulation_setup_ok cfg t p HB Hnn) as [inv Hok].
      rewrite Hok in Hsetup. inversion Hsetup. reflexivity. }
  unfold run_simulation. rewrite (bind_eq _ _ _ _ _ _ Hsetup).
  apply bind_raise.
  assert (Hdays : exists days, py_range (simulation_days cfg) = 0 :: days).
  { unfold py_range. destruct (Z.to_nat (simulation_days cfg)) eqn:Hn;
      [ lia | ]. simpl. eexists. reflexivity. }
  destruct Hdays as [days Hdays]. rewrite Hdays. simpl for_each.
  apply bind_raise. unfold simulate_day.
  assert (Hnz : simulation_days cfg <> 0) by lia.
  destruct (conditions_day0 cfg (sentiment_attr s0) t p0 Hnz)
    as [mc [p1 [Hmc _]]].
  rewrite (bind_eq _ _ _ _ _ _ Hmc).
  destruct (daily_trading_total cfg investors (traditional_market s0)
              (offset_days ts_2024_01_01 0) mc false t p1)
    as [dm [trades [market' [p2 [Htrad _]]]]].
  { rewrite Hs0. apply positions_labelled_initial_traditional. }
  { rewrite Hs0. simpl. intros Hnil.
    pose proof (f_equal (@length _) Hnil) as Hlen.
    rewrite <- length_labels in Hlen. unfold initial_traditional in Hlen.
    rewrite labels_initial_market, length_labels in Hlen.
    rewrite <- length_rows, rows_reindex_from, drawn_bonds_length in Hlen.
    simpl in Hlen. lia. }
  { exact Hinv. }
  rewrite (bind_eq _ _ _ _ _ _ Htrad).
  apply bind_raise. apply tokenized_day_raises; try assumption.
  rewrite Hs0. apply labels_initial_tokenized.
Qed.

(** * Further properties of the engine *)

(** ** The generated populations *)

Lemma generate_investors_eq cfg t p :
  0 <= num_investors cfg ->
  generate_investors cfg t p
  = Ok (new_frame (drawn_investors cfg t p),
        (p + 5 * Z.to_nat (num_investors cfg))%nat).
Proof.
  intros H. unfold generate_investors, investor_type_choices, horizon_choices,
    np_lognormal_n, np_beta_n, np_normal_n.
  rewrite (bind_eq _ _ _ _ _ _ (np_choice_eq _ _ _ t p H)).
  rewrite (bind_eq _ _ _ _ _ _ (np_sampler_eq _ _ t _ H)).
  rewrite (bind_eq _ _ _ _ _ _ (np_sampler_eq _ _ t _ H)).
  rewrite (bind_eq _ _ _ _ _ _ (np_sampler_eq _ _ t _ H)).
  rewrite (bind_eq _ _ _ _ _ _ (np_choice_eq _ _ _ t _ H)).
  unfold ret, drawn_investors. f_equal. f_equal. lia.
Qed.

Lemma investor_rows_length tys : forall ass bps ras hs id,
  length ass = length tys -> length bps = length tys ->
  length ras = length tys -> length hs = length tys ->
  length (investor_rows id tys ass bps ras hs) = length tys.
Proof.
  induction tys as [ | ty tys IH ]; intros ass bps ras hs id Ha Hb Hr Hh;
    [ reflexivity | ].
  destruct ass; [ discriminate | ]. destruct bps; [ discriminate | ].
  destruct ras; [ discriminate | ]. destruct hs; [ discriminate | ].
  simpl in *. f_equal. apply IH; lia.
Qed.

Lemma investor_rows_nth tys : forall ass bps ras hs id i inv,
  nth_error (investor_rows id tys ass bps ras hs) i = Some inv ->
  exists ty a bp ra h,
    nth_error tys i = Some ty /\ nth_error ass i = Some a /\
    nth_error bps i = Some bp /\ nth_error ras i = Some ra /\
    nth_error hs i = Some h /\
    inv = mkInvestor (id + Z.of_nat i) ty a bp ra h.
Proof.
  induction tys as [ | ty tys IH ]; intros ass bps ras hs id i inv H.
  - destruct i; discriminate.
  - destruct ass as [ | a ass ]; [ destruct i; discriminate | ].
    destruct bps as [ | bp bps ]; [ destruct i; discriminate | ].
    destruct ras as [ | ra ras ]; [ destruct i; discriminate | ].
    destruct hs as [ | h hs ]; [ destruct i; discriminate | ].
    destruct i as [ | i ]; simpl in H.
    + inversion H; subst. exists ty, a, bp, ra, h.
      repeat split. f_equal. lia.
    + destruct (IH _ _ _ _ _ _ _ H)
        as [ty' [a' [bp' [ra' [h' [H1 [H2 [H3 [H4 [H5 H6]]]]]]]]]].
      exists ty', a', bp', ra', h'. simpl. repeat split; try assumption.
      rewrite H6. f_equal. lia.
Qed.

Lemma unit_of_raw_bounds r : (0 <= unit_of_raw r < 1)%Q.
Proof.
  unfold unit_of_raw. pose proof (Qfloor_le r) as Hlo.
  pose proof (Qlt_floor r) as Hhi.
  rewrite inject_Z_plus in Hhi. change (inject_Z 1) with 1%Q in Hhi.
  split; lra.
Qed.

Lemma positive_of_raw_pos r : (0 < positive_of_raw r)%Q.
Proof.
  unfold positive_of_raw. destruct (Qle_bool 1 r) eqn:Hr.
  - apply Qle_bool_iff in Hr. lra.
  - assert (Hlt : (r < 1)%Q).
    { apply Qnot_le_lt. intros Hle. apply Qle_bool_iff in Hle. congruence. }
    apply Qlt_shift_div_l; lra.
Qed.

Lemma nth_error_map_Some {A B} (f : A -> B) l i y :
  nth_error (map f l) i = Some y -> exists x, nth_error l i = Some x /\ y = f x.
Proof.
  rewrite nth_error_map. destruct (nth_error l i) as [x | ]; simpl; intros H;
    [ | discriminate ].
  inversion H. exists x. split; reflexivity.
Qed.

Lemma labels_new_frame {R} (rs : list R) :
  labels (new_frame rs) = py_range (Z.of_nat (length rs)).
Proof.
  unfold new_frame, py_range. rewrite labels_reindex_from, Nat2Z.id.
  apply map_ext. intros i. lia.
Qed.

(** X1.  For a non-negative investor count [I], [generate_investors]
    returns a table of exactly [I] rows labelled 0, ..., I-1; the row at
    position [i] has identifier [i + 1], positive assets, a risk aversion
    within [0.1, 0.9], a blockchain preference in the unit interval and an
    investment horizon among 1, 2, 3, 5, 7, 10 and 15 years. *)
Theorem generate_investors_population (cfg : Config) (t : Tape) (p : nat) :
  0 <= num_investors cfg ->
  exists investors p',
    generate_investors cfg t p = Ok (investors, p') /\
    len investors = num_investors cfg /\
    labels investors = py_range (num_investors cfg) /\
    forall i inv,
      nth_error (rows investors) i = Some inv ->
      investor_id inv = Z.of_nat i + 1 /\
      (0 < assets inv)%Q /\
      (0.1 <= risk_aversion inv <= 0.9)%Q /\
      (0 <= blockchain_preference inv < 1)%Q /\
      In (investment_horizon inv) horizon_choices.
Proof.
  intros HI. do 2 eexists.
  split; [ apply generate_investors_eq; exact HI | ].
  assert (Hlen : length (drawn_investors cfg t p) = Z.to_nat (num_investors cfg)).
  { unfold drawn_investors. rewrite investor_rows_length;
      rewrite ?length_map, ?tape_slice_length; reflexivity. }
  split; [ unfold len, new_frame;
           rewrite <- length_rows, rows_reindex_from, Hlen; lia | ].
  split; [ rewrite labels_new_frame, Hlen, Z2Nat.id by exact HI; reflexivity | ].
  intros i inv Hnth. unfold new_frame in Hnth.
  rewrite rows_reindex_from in Hnth. unfold drawn_investors in Hnth.
  apply investor_rows_nth in Hnth.
  destruct Hnth as [ty [a [bp [ra [h [_ [Ha [Hbp [Hra [Hh Hinv]]]]]]]]]].
  subst inv.
  cbn [investor_id assets risk_aversion blockchain_preference
       investment_horizon].
  split; [ lia | ].
  apply nth_error_map_Some in Ha. destruct Ha as [a0 [Ha0 Ha]].
  apply nth_error_map_Some in Ha0. destruct Ha0 as [r0 [_ Ha0]].
  apply nth_error_map_Some in Hbp. destruct Hbp as [r1 [_ Hbp]].
  apply nth_error_map_Some in Hra. destruct Hra as [x [_ Hra]].
  apply nth_error_map_Some in Hh. destruct Hh as [r2 [_ Hh]].
  subst a a0 bp ra h.
  split; [ pose proof (positive_of_raw_pos r0); lra | ].
  split; [ apply np_clip_bounds; lra | ].
  split; [ apply unit_of_raw_bounds | ].
  apply (pick_In 1 [2; 3; 5; 7; 10; 15]).
Qed.

Lemma generate_investors_population_witness :
  exists investors p',
    generate_investors (mkConfig 100 1000 365 10000 100) (fun _ => 1%Q) 0%nat
    = Ok (investors, p') /\
    len investors = 1000.
Proof.
  assert (H : 0 <= num_investors (mkConfig 100 1000 365 10000 100))
    by (simpl; lia).
  destruct (generate_investors_population (mkConfig 100 1000 365 10000 100)
              (fun _ => 1%Q) 0%nat H) as [investors [p' [Hrun [Hlen _]]]].
  exists investors, p'. split; [ exact Hrun | exact Hlen ].
Defined.

Lemma bond_rows_nth fvs : forall crs ms rs id i b,
  nth_error (bond_rows id fvs crs ms rs) i = Some b ->
  exists fv cr m r,
    nth_error fvs i = Some fv /\ nth_error crs i = Some cr /\
    nth_error ms i = Some m /\ nth_error rs i = Some r /\
    b = mkBond (id + Z.of_nat i) fv cr m r ts_2024_01_01 false
          (offset_years ts_2024_01_01 m).
Proof.
  induction fvs as [ | fv fvs IH ]; intros crs ms rs id i b H.
  - destruct i; discriminate.
  - destruct crs as [ | cr crs ]; [ destruct i; discriminate | ].
    destruct ms as [ | m ms ]; [ destruct i; discriminate | ].
    destruct rs as [ | r rs ]; [ destruct i; discriminate | ].
    destruct i as [ | i ]; simpl in H.
    + inversion H; subst. exists fv, cr, m, r.
      repeat split. f_equal. lia.
    + destruct (IH _ _ _ _ _ _ H) as [fv' [cr' [m' [r' [H1 [H2 [H3 [H4 H5]]]]]]]].
      exists fv', cr', m', r'. simpl. repeat split; try assumption.
      rewrite H5. f_equal. lia.
Qed.

(** The fields every drawn traditional bond has. *)
Lemma drawn_bonds_nth cfg t p i b :
  nth_error (drawn_bonds cfg t p) i = Some b ->
  bond_id b = Z.of_nat i + 1 /\
  is_tokenized b = false /\
  In (face_value b) face_value_choices /\
  (0.01 <= coupon_rate b < 0.08)%Q /\
  In (maturity_years b) maturity_choices /\
  issue_date b = ts_2024_01_01 /\
  maturity_date b = offset_years (issue_date b) (maturity_years b).
Proof.
  unfold drawn_bonds. intros H. apply bond_rows_nth in H.
  destruct H as [fv [cr [m [r [Hfv [Hcr [Hm [_ Hb]]]]]]]]. subst b.
  cbn [bond_id is_tokenized face_value coupon_rate maturity_years issue_date
       maturity_date].
  apply nth_error_map_Some in Hfv. destruct Hfv as [r1 [_ Hfv]].
  apply nth_error_map_Some in Hcr. destruct Hcr as [r2 [_ Hcr]].
  apply nth_error_map_Some in Hm. destruct Hm as [r3 [_ Hm]].
  subst fv cr m.
  split; [ lia | ]. split; [ reflexivity | ].
  split; [ apply (pick_In 1000 [5000; 10000; 50000; 100000]) | ].
  split; [ pose proof (unit_of_raw_bounds r2); lra | ].
  split; [ apply (pick_In 1 [2; 3; 5; 7; 10; 15; 20; 30]) | ].
  split; reflexivity.
Qed.

Lemma generated_bonds_nth cfg t p k b :
  nth_error (rows (generated_bonds cfg t p)) k = Some b ->
  bond_id b = Z.of_nat k + 1 /\
  is_tokenized b = (num_bonds cfg <=? Z.of_nat k) /\
  In (face_value b) face_value_choices /\
  (0.01 <= coupon_rate b < 0.08)%Q /\
  In (maturity_years b) maturity_choices /\
  issue_date b = ts_2024_01_01 /\
  maturity_date b = offset_years (issue_date b) (maturity_years b).
Proof.
  unfold generated_bonds, new_frame. rewrite rows_reindex_from.
  pose proof (drawn_bonds_length cfg t p) as Hlen. intros H.
  destruct (Nat.lt_ge_cases k (length (drawn_bonds cfg t p))) as [ Hk | Hk ].
  - rewrite nth_error_app1 in H by exact Hk.
    destruct (drawn_bonds_nth cfg t p k b H) as [Hid [Htok Hrest]].
    split; [ exact Hid | ]. split; [ | exact Hrest ].
    rewrite Htok. symmetry. apply Z.leb_gt. lia.
  - rewrite nth_error_app2 in H by exact Hk.
    apply nth_error_map_Some in H. destruct H as [b0 [Hb0 Hb]].
    destruct (drawn_bonds_nth cfg t p _ b0 Hb0) as [Hid [_ Hrest]].
    assert (Hin : (k - length (drawn_bonds cfg t p)
                   < length (drawn_bonds cfg t p))%nat).
    { apply nth_error_Some. rewrite Hb0. discriminate. }
    subst b. unfold tokenize.
    cbn [bond_id is_tokenized face_value coupon_rate maturity_years issue_date
         maturity_date].
    split; [ lia | ]. split; [ | exact Hrest ].
    symmetry. apply Z.leb_le. lia.
Qed.

(** X2.  [generate_bonds] raises [ValueError] for the bond count 0.  For
    a positive bond count [B] it returns a table of [2 * B] rows
    labelled 0, ..., 2B-1 whose bond identifiers are 1, ..., 2B in row
    order, hence pairwise distinct; the first [B] rows are the traditional
    bonds and the last [B] the tokenized ones; every bond has a face value
    among the five denominations, a coupon rate in [0.01, 0.08), a maturity
    among the nine maturities, the issue date 2024-01-01 and the maturity
    date [issue date + maturity years]. *)
Theorem generate_bonds_fields (cfg : Config) (t : Tape) (p : nat) :
  (num_bonds cfg = 0 -> generate_bonds cfg t p = Raise ValueError) /\
  (0 < num_bonds cfg ->
   exists bonds p',
    generate_bonds cfg t p = Ok (bonds, p') /\
    labels bonds = py_range (2 * num_bonds cfg) /\
    NoDup (map bond_id (rows bonds)) /\
    forall k b,
      nth_error (rows bonds) k = Some b ->
      bond_id b = Z.of_nat k + 1 /\
      is_tokenized b = (num_bonds cfg <=? Z.of_nat k) /\
      In (face_value b) face_value_choices /\
      (0.01 <= coupon_rate b < 0.08)%Q /\
      In (maturity_years b) maturity_choices /\
      issue_date b = ts_2024_01_01 /\
      maturity_date b = offset_years (issue_date b) (maturity_years b)).
Proof.
  split; [ apply generate_bonds_empty | ].
  intros HB. exists (generated_bonds cfg t p). eexists.
  split; [ apply generate_bonds_generated; exact HB | ].
  split.
  { unfold generated_bonds. rewrite labels_new_frame.
    rewrite length_app, length_map, drawn_bonds_length. f_equal. lia. }
  split; [ | intros k b; apply generated_bonds_nth ].
  apply NoDup_nth_error. intros i j Hi Hij.
  rewrite length_map in Hi.
  destruct (nth_error (rows (generated_bonds cfg t p)) i) as [bi | ] eqn:Hbi;
    [ | apply nth_error_None in Hbi; lia ].
  rewrite !nth_error_map, Hbi in Hij. simpl in Hij.
  destruct (nth_error (rows (generated_bonds cfg t p)) j) as [bj | ] eqn:Hbj;
    [ | discriminate ].
  simpl in Hij. inversion Hij as [Hid].
  apply generated_bonds_nth in Hbi. apply generated_bonds_nth in Hbj.
  destruct Hbi as [Hi1 _]. destruct Hbj as [Hj1 _]. lia.
Qed.

Lemma generate_bonds_fields_witness :
  generate_bonds (mkConfig 0 1000 365 10000 100) (fun _ => 1%Q) 0%nat
  = Raise ValueError /\
  exists bonds p',
    generate_bonds (mkConfig 100 1000 365 10000 100) (fun _ => 1%Q) 0%nat
    = Ok (bonds, p') /\
    NoDup (map bond_id (rows bonds)).
Proof.
  assert (H0 : num_bonds (mkConfig 0 1000 365 10000 100) = 0)
    by reflexivity.
  assert (H : 0 < num_bonds (mkConfig 100 1000 365 10000 100))
    by (simpl; lia).
  split.
  - exact (proj1 (generate_bonds_fields (mkConfig 0 1000 365 10000 100)
                    (fun _ => 1%Q) 0%nat) H0).
  - destruct (proj2 (generate_bonds_fields (mkConfig 100 1000 365 10000 100)
                       (fun _ => 1%Q) 0%nat) H)
      as [bonds [p' [Hrun [_ [Hnd _]]]]].
    exists bonds, p'. split; [ exact Hrun | exact Hnd ].
Defined.

(** ** The initial market tables *)

Lemma initial_rows_nth tok : forall (market : Frame Bond) (ds : list Z) i l r,
  nth_error
    (map (fun lbd => (fst (fst lbd), initial_row tok (snd (fst lbd)) (snd lbd)))
       (combine market ds)) i = Some (l, r) ->
  exists b d,
    nth_error market i = Some (l, b) /\ nth_error ds i = Some d
    /\ r = initial_row tok b d.
Proof.
  induction market as [ | [l0 b0] market IH ]; intros ds i l r H.
  - destruct i; discriminate.
  - destruct ds as [ | d0 ds ]; [ destruct i; discriminate | ].
    destruct i as [ | i ]; simpl in H.
    + inversion H; subst. exists b0, d0. repeat split.
    + apply IH in H. exact H.
Qed.

Lemma initial_depths_floor tok t p n i d :
  nth_error (initial_depths tok t p n) i = Some d ->
  (if tok then 50 else 10) <= d.
Proof.
  unfold initial_depths. intros H.
  apply nth_error_map_Some in H. destruct H as [c [Hc Hd]].
  apply nth_error_map_Some in Hc. destruct Hc as [r [_ Hc]].
  subst d c. unfold count_of_raw. destruct tok; lia.
Qed.

Lemma initial_market_nth tok (market : Frame Bond) t p i l r :
  nth_error (initial_market tok market t p) i = Some (l, r) ->
  exists b d,
    nth_error market i = Some (l, b) /\ r = initial_row tok b d
    /\ (if tok then 50 else 10) <= d.
Proof.
  unfold initial_market. intros H. apply initial_rows_nth in H.
  destruct H as [b [d [Hb [Hd Hr]]]]. exists b, d.
  split; [ exact Hb | ]. split; [ exact Hr | ].
  eapply initial_depths_floor. exact Hd.
Qed.

Lemma reindex_from_nth {R} (rs : list R) : forall k i l r,
  nth_error (reindex_from k rs) i = Some (l, r) ->
  l = k + Z.of_nat i /\ nth_error rs i = Some r.
Proof.
  induction rs as [ | r0 rs IH ]; intros k i l r H.
  - destruct i; discriminate.
  - destruct i as [ | i ]; simpl in H.
    + inversion H; subst. split; [ lia | reflexivity ].
    + apply IH in H. destruct H as [Hl Hr]. split; [ lia | exact Hr ].
Qed.

Lemma rows_nth {R} (f : Frame R) i r :
  nth_error (rows f) i = Some r -> exists l, nth_error f i = Some (l, r).
Proof.
  unfold rows. intros H. apply nth_error_map_Some in H.
  destruct H as [[l r'] [Hf Hr]]. simpl in Hr. subst r'. exists l. exact Hf.
Qed.

Lemma initial_price_bounds b :
  In (face_value b) face_value_choices ->
  (0.01 <= coupon_rate b < 0.08)%Q ->
  In (maturity_years b) maturity_choices ->
  (0.4 * inject_Z (face_value b) <= initial_price b
   <= 2.5 * inject_Z (face_value b))%Q
  /\ (0 < initial_price b)%Q.
Proof.
  unfold initial_price, face_value_choices, maturity_choices.
  intros Hfv Hc Hm. simpl in Hfv, Hm.
  repeat (destruct Hfv as [ Hfv | Hfv ]; [ rewrite <- Hfv | ]);
    try contradiction;
    repeat (destruct Hm as [ Hm | Hm ]; [ rewrite <- Hm | ]);
    try contradiction;
    unfold inject_Z; split; try split; lra.
Qed.

(** X3.  For a positive bond count the two tables that
    [initialize_markets] builds from the generated bonds have [B] rows each;
    at every position the tokenized row holds the tokenized duplicate of the
    traditional row's bond at the same initial price
    [face_value * (1 + (coupon_rate - 0.03) * maturity_years)], which lies
    between 40% and 250% of the face value and is positive; the traditional
    daily volume is 1% of the face value and the tokenized one five times
    that; the traditional depth is at least 10 and the tokenized depth at
    least 50. *)
Theorem initialize_markets_state (cfg : Config) (t : Tape) (p : nat) :
  0 < num_bonds cfg ->
  exists bonds p1,
    generate_bonds cfg t p = Ok (bonds, p1) /\
    forall p_init, exists traditional tokenized p2,
      initialize_markets bonds t p_init = Ok ((traditional, tokenized), p2) /\
      len traditional = num_bonds cfg /\
      len tokenized = num_bonds cfg /\
      labels traditional = py_range (num_bonds cfg) /\
      forall i rt rk,
        nth_error (rows traditional) i = Some rt ->
        nth_error (rows tokenized) i = Some rk ->
        bond rk = tokenize (num_bonds cfg) (bond rt) /\
        price rt = initial_price (bond rt) /\
        price rk = price rt /\
        (0.4 * inject_Z (face_value (bond rt)) <= price rt
         <= 2.5 * inject_Z (face_value (bond rt)))%Q /\
        (0 < price rt)%Q /\
        daily_volume rt = (inject_Z (face_value (bond rt)) * 0.01)%Q /\
        daily_volume rk = (daily_volume rt * 5)%Q /\
        10 <= market_depth rt /\
        50 <= market_depth rk.
Proof.
  intros HB. exists (generated_bonds cfg t p). eexists.
  split; [ apply generate_bonds_generated; lia | ].
  intros p_init. do 3 eexists.
  split; [ apply initialize_markets_eq; exact HB | ].
  pose proof (drawn_bonds_length cfg t p) as Hlen.
  assert (Hlt : labels (initial_traditional cfg t p p_init)
                = py_range (num_bonds cfg)).
  { unfold initial_traditional. rewrite labels_initial_market.
    fold (new_frame (drawn_bonds cfg t p)).
    rewrite labels_new_frame, Hlen, Z2Nat.id by lia. reflexivity. }
  split.
  { unfold len. rewrite <- length_labels, Hlt. unfold py_range.
    rewrite length_map, length_seq. lia. }
  split.
  { unfold len. rewrite <- length_labels, labels_initial_tokenized.
    rewrite tokenized_labels_length. lia. }
  split; [ exact Hlt | ].
  intros i rt rk Ht Hk.
  apply rows_nth in Ht. destruct Ht as [lt Ht].
  apply rows_nth in Hk. destruct Hk as [lk Hk].
  unfold initial_traditional in Ht. unfold initial_tokenized in Hk.
  apply initial_market_nth in Ht. destruct Ht as [bt [dt [Hbt [Hrt Hdt]]]].
  apply initial_market_nth in Hk. destruct Hk as [bk [dk [Hbk [Hrk Hdk]]]].
  apply reindex_from_nth in Hbt. destruct Hbt as [_ Hbt].
  apply reindex_from_nth in Hbk. destruct Hbk as [_ Hbk].
  apply nth_error_map_Some in Hbk. destruct Hbk as [bt' [Hbt' Hbk]].
  rewrite Hbt in Hbt'. inversion Hbt'; subst bt'. subst bk rt rk.
  destruct (drawn_bonds_nth cfg t p i bt Hbt) as [_ [_ [Hfv [Hc [Hm _]]]]].
  destruct (initial_price_bounds bt Hfv Hc Hm) as [Hb Hpos].
  unfold initial_row, base_volume.
  cbn [bond price daily_volume market_depth].
  repeat split; try assumption; try apply Hb.
Qed.

Lemma initialize_markets_state_witness :
  exists bonds p1 traditional tokenized p2,
    generate_bonds (mkConfig 100 1000 365 10000 100) (fun _ => 1%Q) 0%nat
    = Ok (bonds, p1) /\
    initialize_markets bonds (fun _ => 1%Q) p1
    = Ok ((traditional, tokenized), p2) /\
    len traditional = 100 /\ len tokenized = 100.
Proof.
  assert (H : 0 < num_bonds (mkConfig 100 1000 365 10000 100))
    by (simpl; lia).
  destruct (initialize_markets_state (mkConfig 100 1000 365 10000 100)
              (fun _ => 1%Q) 0%nat H) as [bonds [p1 [Hg Hq]]].
  destruct (Hq p1) as [traditional [tokenized [p2 [Hi [Hl1 [Hl2 _]]]]]].
  exists bonds, p1, traditional, tokenized, p2.
  split; [ exact Hg | ]. split; [ exact Hi | ].
  split; [ exact Hl1 | exact Hl2 ].
Defined.

(** ** The conditions of a day *)

Lemma volatility_bounds (s : Q) :
  (-1 <= s <= 1)%Q ->
  (0.01 <= 0.01 * (1 + 0.5 * Qabs s) <= 0.015)%Q.
Proof.
  intros Hs. pose proof (Qabs_nonneg s) as H0.
  assert (H1 : (Qabs s <= 1)%Q) by (apply Qabs_Qle_condition; exact Hs).
  split; lra.
Qed.

(** X4.  [_update_market_conditions] raises [ZeroDivisionError] for a
    day count of 0.  For a day of the simulation
    ([0 <= day < simulation_days]) it raises [AttributeError] when the day
    is not day 0 and the simulator's sentiment was never set, and returns in
    every other case.  Whenever it returns, the
    sentiment lies in [-1, 1], the volatility is
    [0.01 * (1 + 0.5 * |sentiment|)] and lies in [0.01, 0.015], the
    reference rate is [0.03 + day / simulation_days * 0.01] plus the daily
    noise, and the event impact is 0 unless the event draw fell below
    0.01. *)
Theorem market_conditions_ranges (cfg : Config) (day : Z)
    (sentiment : option Q) (t : Tape) (p : nat) :
  (simulation_days cfg = 0 ->
   _update_market_conditions cfg day sentiment t p = Raise ZeroDivisionError) /\
  (0 < day < simulation_days cfg ->
   _update_market_conditions cfg day None t p = Raise AttributeError) /\
  (0 <= day < simulation_days cfg -> day = 0 \/ sentiment <> None ->
   exists mc p', _update_market_conditions cfg day sentiment t p = Ok (mc, p')) /\
  (forall mc p',
     _update_market_conditions cfg day sentiment t p = Ok (mc, p') ->
     simulation_days cfg <> 0 /\
     (-1 <= market_sentiment mc <= 1)%Q /\
     volatility mc = (0.01 * (1 + 0.5 * Qabs (market_sentiment mc)))%Q /\
     (0.01 <= volatility mc <= 0.015)%Q /\
     reference_rate mc
     = (0.03 + inject_Z day / inject_Z (simulation_days cfg) * 0.01
        + (0 + 0.0005 * t p))%Q /\
     (event_impact mc <> 0%Q ->
      (unit_of_raw (t (if day =? 0 then S p else S (S p))) < 0.01)%Q)).
Proof.
  split; [ | split; [ | split ] ].
  - apply conditions_no_days.
  - intros Hday.
    unfold _update_market_conditions, bind, np_normal, raw_draw, ret.
    destruct (Z.eqb_spec (simulation_days cfg) 0) as [ Hz | _ ]; [ lia | ].
    destruct (Z.eqb_spec day 0) as [ H0 | _ ]; [ lia | ].
    reflexivity.
  - intros Hrange.
    assert (Hdays : simulation_days cfg <> 0) by lia.
    intros [ H0 | Hs ].
    + subst day.
      destruct (conditions_day0 cfg sentiment t p Hdays) as [mc [p' [H _]]].
      exists mc, p'. exact H.
    + destruct sentiment as [ s | ]; [ | congruence ].
      destruct (Z.eq_dec day 0) as [ H0 | H0 ].
      * subst day.
        destruct (conditions_day0 cfg (Some s) t p Hdays) as [mc [p' [H _]]].
        exists mc, p'. exact H.
      * destruct (conditions_later cfg day s t p Hdays H0)
          as [mc [p' [delta [q [H _]]]]].
        exists mc, p'. exact H.
  - intros mc p'. unfold _update_market_conditions.
    destruct (Z.eqb_spec (simulation_days cfg) 0) as [ Hz | Hz ];
      [ intros H; discriminate H | ].
    destruct (Z.eqb_spec day 0) as [ H0 | H0 ].
    + cbv beta iota zeta delta
        [bind np_normal np_random raw_draw ret of_option raise].
      destruct (Qlt_le_dec (unit_of_raw (t (S p))) 0.01) as [ Hu | Hu ];
        intros H; injection H as Hmc _; rewrite <- Hmc;
        cbn [market_sentiment volatility reference_rate event_impact];
        (split; [ exact Hz | ]);
        (split; [ lra | ]); (split; [ reflexivity | ]);
        (split; [ lra | ]);
        (split; [ reflexivity | ]); intros Hne;
        [ exact Hu | exfalso; apply Hne; reflexivity ].
    + destruct sentiment as [ s | ];
        cbv beta iota zeta delta
          [bind np_normal np_random raw_draw ret of_option raise];
        [ | discriminate ].
      pose proof (np_clip_bounds (0.8 * s + 0.2 * (0 + 0.1 * t (S p)))%Q
                    (-1) 1 ltac:(lra)) as Hb.
      destruct (Qlt_le_dec (unit_of_raw (t (S (S p)))) 0.01) as [ Hu | Hu ];
        intros H; injection H as Hmc _; rewrite <- Hmc;
        cbn [market_sentiment volatility reference_rate event_impact];
        (split; [ exact Hz | ]);
        (split; [ exact Hb | ]); (split; [ reflexivity | ]);
        (split; [ apply volatility_bounds; exact Hb | ]);
        (split; [ reflexivity | ]); intros Hne;
        [ exact Hu | exfalso; apply Hne; reflexivity ].
Qed.

Lemma market_conditions_ranges_witness :
  _update_market_conditions (mkConfig 2 5 0 10000 100) 0 None (fun _ => 0%Q) 0%nat
  = Raise ZeroDivisionError /\
  _update_market_conditions (mkConfig 2 5 3 10000 100) 1 None (fun _ => 0%Q) 0%nat
  = Raise AttributeError /\
  exists mc p',
    _update_market_conditions (mkConfig 2 5 3 10000 100) 2 (Some 0.4%Q)
      (fun _ => 0.5%Q) 0%nat = Ok (mc, p')
    /\ (0.01 <= volatility mc <= 0.015)%Q.
Proof.
  assert (Hz : simulation_days (mkConfig 2 5 0 10000 100) = 0) by reflexivity.
  split; [ | split ].
  - exact (proj1 (market_conditions_ranges (mkConfig 2 5 0 10000 100) 0 None
                    (fun _ => 0%Q) 0%nat) Hz).
  - assert (H1 : 0 < 1 < simulation_days (mkConfig 2 5 3 10000 100))
      by (simpl; lia).
    exact (proj1 (proj2 (market_conditions_ranges (mkConfig 2 5 3 10000 100)
                           1 None (fun _ => 0%Q) 0%nat)) H1).
  - assert (Hs : 2 = 0 \/ Some 0.4%Q <> None) by (right; discriminate).
    assert (Hd : 0 <= 2 < simulation_days (mkConfig 2 5 3 10000 100))
      by (simpl; lia).
    destruct (market_conditions_ranges (mkConfig 2 5 3 10000 100) 2
                (Some 0.4%Q) (fun _ => 0.5%Q) 0%nat) as [_ [_ [Hret Hrange]]].
    destruct (Hret Hd Hs) as [mc [p' Hrun]].
    exists mc, p'. split; [ exact Hrun | ].
    exact (proj1 (proj2 (proj2 (proj2 (Hrange mc p' Hrun))))).
Defined.

(** ** The transaction loop of a day *)

Lemma py_int_nonneg x : (0 <= x)%Q -> py_int x = Qfloor x.
Proof.
  intros H. unfold py_int. apply Qle_bool_iff in H. rewrite H. reflexivity.
Qed.

Lemma py_int_between (lo hi : Z) x :
  0 <= lo -> (inject_Z lo <= x)%Q -> (x <= inject_Z hi)%Q ->
  lo <= py_int x <= hi.
Proof.
  intros H0 Hlo Hhi.
  assert (Hx : (0 <= x)%Q).
  { apply Qle_trans with (inject_Z lo); [ | exact Hlo ].
    change 0%Q with (inject_Z 0). rewrite <- Zle_Qle. exact H0. }
  rewrite (py_int_nonneg x Hx). split.
  - rewrite <- (Qfloor_Z lo). apply Qfloor_resp_le. exact Hlo.
  - rewrite <- (Qfloor_Z hi). apply Qfloor_resp_le. exact Hhi.
Qed.

(** X5.  For a table with at least one row and a sentiment in [-1, 1],
    the number of attempts of a day is between 1 and twice the number of
    rows on the traditional venue, between the number of rows and five times
    that number on the tokenized venue, and never smaller on the tokenized
    venue than on the traditional one. *)
Theorem transaction_target_bounds (um : Frame MarketRow) (mc : MarketConditions) :
  um <> [] ->
  (-1 <= market_sentiment mc <= 1)%Q ->
  1 <= transaction_target um mc false <= 2 * len um /\
  len um <= transaction_target um mc true <= 5 * len um /\
  transaction_target um mc false <= transaction_target um mc true.
Proof.
  intros Hum Hs. pose proof (len_pos um Hum) as Hn.
  unfold transaction_target.
  set (s := market_sentiment mc) in *.
  assert (HN : (1 <= inject_Z (len um))%Q).
  { change 1%Q with (inject_Z 1). rewrite <- Zle_Qle. lia. }
  assert (Hbase : (inject_Z (len um * 2) == inject_Z (len um) * 2)%Q).
  { rewrite inject_Z_mult. reflexivity. }
  assert (Htrad : 0 <= py_int (inject_Z (len um * 2) * (0.5 + 0.5 * s))
                  <= 2 * len um).
  { apply py_int_between; [ lia | | ].
    - rewrite Hbase. change (inject_Z 0) with 0%Q. nra.
    - rewrite Hbase, inject_Z_mult. change (inject_Z 2) with 2%Q. nra. }
  assert (Htok : len um <= py_int (inject_Z (len um * 2) * (1.5 + s))
                 <= 5 * len um).
  { apply py_int_between; [ lia | | ].
    - rewrite Hbase. nra.
    - rewrite Hbase, inject_Z_mult. change (inject_Z 5) with 5%Q. nra. }
  assert (Hord : py_int (inject_Z (len um * 2) * (0.5 + 0.5 * s))
                 <= py_int (inject_Z (len um * 2) * (1.5 + s))).
  { rewrite !py_int_nonneg.
    - apply Qfloor_resp_le. rewrite Hbase. nra.
    - rewrite Hbase. nra.
    - rewrite Hbase. nra. }
  lia.
Qed.

Lemma transaction_target_bounds_witness :
  1 <= transaction_target sample_market calm_conditions false <= 2 /\
  1 <= transaction_target sample_market calm_conditions true <= 5.
Proof.
  assert (Hne : sample_market <> []) by discriminate.
  assert (Hs : (-1 <= market_sentiment calm_conditions <= 1)%Q)
    by (split; discriminate).
  destruct (transaction_target_bounds sample_market calm_conditions Hne Hs)
    as [Htrad [Htok _]].
  split; [ exact Htrad | exact Htok ].
Defined.

Lemma same_but_volume_refl m : same_but_volume m m.
Proof. reflexivity. Qed.

Lemma same_but_volume_trans m1 m2 m3 :
  same_but_volume m1 m2 -> same_but_volume m2 m3 -> same_but_volume m1 m3.
Proof. unfold same_but_volume. intros H12 H23. rewrite H23. exact H12. Qed.

Lemma same_but_volume_sym m1 m2 :
  same_but_volume m1 m2 -> same_but_volume m2 m1.
Proof. unfold same_but_volume. intros H. symmetry. exact H. Qed.

Lemma at_set_volume_same m idx v :
  same_but_volume m (at_set m idx (set_daily_volume v)).
Proof.
  unfold same_but_volume, at_set. rewrite map_map. apply map_ext.
  intros [l r]. simpl. destruct (l =? idx); reflexivity.
Qed.

Lemma same_but_volume_labels m m' :
  same_but_volume m m' -> labels m' = labels m.
Proof.
  unfold same_but_volume, labels. intros H.
  apply (f_equal (map fst)) in H. rewrite !map_map in H. exact H.
Qed.

Lemma same_but_volume_length m m' :
  same_but_volume m m' -> length m' = length m.
Proof.
  intros H. apply same_but_volume_labels in H.
  rewrite <- !length_labels, H. reflexivity.
Qed.

(** A row of one table has a twin in the other, equal up to the volume. *)
Lemma same_but_volume_In m m' b :
  same_but_volume m m' -> In b (rows m') ->
  exists b0, In b0 (rows m)
             /\ set_daily_volume 0 b0 = set_daily_volume 0 b.
Proof.
  unfold same_but_volume. intros H Hb.
  apply rows_In in Hb. destruct Hb as [l Hb].
  assert (Hin : In (l, set_daily_volume 0 b)
                  (map (fun lr => (fst lr, set_daily_volume 0 (snd lr))) m')).
  { apply in_map_iff. exists (l, b). split; [ reflexivity | exact Hb ]. }
  rewrite H in Hin. apply in_map_iff in Hin.
  destruct Hin as [[l0 b0] [Heq Hin0]]. cbn [fst snd] in Heq.
  assert (Hl : l0 = l) by exact (f_equal fst Heq).
  assert (Hv : set_daily_volume 0 b0 = set_daily_volume 0 b)
    by exact (f_equal snd Heq).
  exists b0. split; [ | exact Hv ].
  unfold rows. apply in_map_iff. exists (l0, b0).
  split; [ reflexivity | exact Hin0 ].
Qed.

Lemma recorded_on_same_but_volume investors date tok m m' tx :
  same_but_volume m m' ->
  recorded_on investors date tok m' tx ->
  recorded_on investors date tok m tx.
Proof.
  intros Hs [b [inv [Hb H]]].
  destruct (same_but_volume_In m m' b Hs Hb) as [b0 [Hb0 Heq]].
  assert (Hbond : bond b0 = bond b)
    by exact (f_equal bond Heq).
  assert (Hprice : price b0 = price b)
    by exact (f_equal price Heq).
  assert (Hspread : bid_ask_spread b0 = bid_ask_spread b)
    by exact (f_equal bid_ask_spread Heq).
  exists b0, inv. rewrite Hbond, Hprice, Hspread.
  split; [ exact Hb0 | exact H ].
Qed.

Lemma trade_once_empty_market cfg (investors : Frame Investor) date tok txs t p :
  trade_once cfg investors date tok ([], txs) t p = Raise ValueError.
Proof. reflexivity. Qed.

Lemma drawn_transaction_recorded cfg (investors : Frame Investor) date tok
    (um : Frame MarketRow) b inv z u i j :
  nth_error (rows um) i = Some b ->
  nth_error (rows investors) j = Some inv ->
  recorded_on investors date tok um
    (drawn_transaction cfg date tok b inv z u).
Proof.
  intros Hb Hinv. exists b, inv.
  split; [ eapply nth_error_In; exact Hb | ].
  split; [ eapply nth_error_In; exact Hinv | ].
  unfold drawn_transaction.
  cbn [tx_date tx_is_tokenized tx_bond_id tx_investor_id tx_amount tx_type
       tx_price].
  pose proof (drawn_amount_le_cap cfg tok b inv z) as Hcap.
  split; [ reflexivity | ]. split; [ reflexivity | ].
  split; [ reflexivity | ]. split; [ reflexivity | ].
  split; [ apply at_most_rounded_le;
           eapply Qle_trans; [ exact Hcap | apply Q.le_min_l ] | ].
  split; [ apply at_most_rounded_le;
           eapply Qle_trans; [ exact Hcap | apply Q.le_min_r ] | ].
  destruct (Qlt_le_dec (unit_of_raw u) 0.5);
    [ left | right ]; split; reflexivity.
Qed.

Lemma fold_left_Qplus_acc (l : list Q) : forall a,
  (fold_left Qplus l a == a + fold_left Qplus l 0)%Q.
Proof.
  induction l as [ | x l IH ]; intros a; simpl.
  - lra.
  - rewrite (IH (a + x)%Q), (IH (0 + x)%Q). lra.
Qed.

Lemma col_sum_cons (col : MarketRow -> Q) l r (f : Frame MarketRow) :
  (col_sum col ((l, r) :: f) == col r + col_sum col f)%Q.
Proof.
  unfold col_sum. simpl. rewrite fold_left_Qplus_acc. lra.
Qed.

Lemma total_amount_app xs ys :
  (total_amount (xs ++ ys) == total_amount xs + total_amount ys)%Q.
Proof.
  unfold total_amount. rewrite map_app, fold_left_app.
  rewrite fold_left_Qplus_acc. reflexivity.
Qed.

Lemma total_amount_one tx : (total_amount [tx] == tx_amount tx)%Q.
Proof. unfold total_amount. simpl. lra. Qed.

Lemma at_set_absent {R} (f : Frame R) idx (upd : R -> R) :
  ~ In idx (labels f) -> at_set f idx upd = f.
Proof.
  induction f as [ | [l r] f IH ]; intros H; [ reflexivity | ].
  simpl in *. destruct (Z.eqb_spec l idx) as [ Heq | Hne ].
  - exfalso. apply H. left. exact Heq.
  - f_equal. apply IH. intros Hin. apply H. right. exact Hin.
Qed.

(** With unique labels the update of one label's volume adds exactly the
    amount to the column's sum. *)
Lemma col_sum_at_set_unique (um : Frame MarketRow) idx r a :
  NoDup (labels um) ->
  at_lookup um idx = Some r ->
  (col_sum daily_volume
     (at_set um idx (set_daily_volume (daily_volume r + a)))
   == col_sum daily_volume um + a)%Q.
Proof.
  induction um as [ | [l r0] um IH ]; intros Hnd Hr; [ discriminate | ].
  simpl in Hnd. inversion Hnd as [ | ? ? Hnotin Hnd' ]; subst.
  simpl in Hr. unfold at_set. simpl map. cbn [fst snd].
  destruct (Z.eqb_spec l idx) as [ Heq | Hne ].
  - inversion Hr; subst r0. subst l.
    fold (at_set um idx (set_daily_volume (daily_volume r + a))).
    rewrite (at_set_absent um idx _ Hnotin).
    rewrite !col_sum_cons. simpl. lra.
  - fold (at_set um idx (set_daily_volume (daily_volume r + a))).
    rewrite !col_sum_cons. rewrite (IH Hnd' Hr). lra.
Qed.

(** What one attempt that returns has done. *)
Lemma trade_once_step cfg (investors : Frame Investor) date tok
    (um : Frame MarketRow) txs t p um' txs' p' :
  trade_once cfg investors date tok (um, txs) t p = Ok ((um', txs'), p') ->
  same_but_volume um um' /\
  ((um' = um /\ txs' = txs)
   \/ exists tx,
        txs' = txs ++ [tx]
        /\ recorded_on investors date tok um tx
        /\ (NoDup (labels um) ->
            (col_sum daily_volume um'
             == col_sum daily_volume um + tx_amount tx)%Q)).
Proof.
  intros H.
  assert (Hum : um <> []).
  { intros Heq. subst um. rewrite trade_once_empty_market in H. discriminate. }
  assert (Hinv : investors <> []).
  { intros Heq. subst investors.
    rewrite (trade_once_no_investors cfg date tok um txs t p Hum) in H.
    discriminate. }
  destruct (trade_once_eq cfg investors date tok um txs t p Hum Hinv)
    as [b [inv [Hb [Hi Heq]]]].
  rewrite Heq in H. clear Heq.
  destruct (Qlt_le_dec (assets inv * 0.1) (fst (amount_bounds cfg tok b inv)))
    as [ Hlt | Hle ].
  - injection H as H1 H2 _. subst um' txs'.
    split; [ apply same_but_volume_refl | left; split; reflexivity ].
  - destruct (at_lookup um (Qfloor (t p) mod len um)) as [ r | ] eqn:Hr;
      [ | discriminate ].
    injection H as H1 H2 _. subst um' txs'.
    split; [ apply at_set_volume_same | ].
    right. eexists. split; [ reflexivity | ].
    split; [ eapply drawn_transaction_recorded; eassumption | ].
    intros Hnd. apply col_sum_at_set_unique; assumption.
Qed.

(** What a run of the transaction loop that returns has done: it has
    appended at most one transaction per attempt, each recorded on the
    table, and has changed nothing but daily volumes. *)
Lemma trade_loop_steps cfg (investors : Frame Investor) date tok :
  forall (passes : list Z) (um : Frame MarketRow) txs t p um' txs' p',
    for_each passes (fun _ => trade_once cfg investors date tok)
      (um, txs) t p = Ok ((um', txs'), p') ->
    same_but_volume um um' /\
    exists new,
      txs' = txs ++ new
      /\ (length new <= length passes)%nat
      /\ Forall (recorded_on investors date tok um) new
      /\ (NoDup (labels um) ->
          (col_sum daily_volume um'
           == col_sum daily_volume um + total_amount new)%Q).
Proof.
  induction passes as [ | d passes IH ]; intros um txs t p um' txs' p' H.
  - simpl in H. unfold ret in H. injection H as H1 H2 _. subst um' txs'.
    split; [ apply same_but_volume_refl | ].
    exists []. rewrite app_nil_r. split; [ reflexivity | ].
    split; [ apply Nat.le_refl | ]. split; [ constructor | ].
    intros _. unfold total_amount. simpl. lra.
  - simpl for_each in H. apply bind_Ok in H.
    destruct H as [[um1 txs1] [p1 [Hstep Hrest]]].
    apply trade_once_step in Hstep. destruct Hstep as [Hs1 Hcase].
    apply IH in Hrest. destruct Hrest as [Hs2 [new [Htx [Hlen [Hrec Hsum]]]]].
    split; [ eapply same_but_volume_trans; eassumption | ].
    assert (Hrec' : Forall (recorded_on investors date tok um) new).
    { eapply Forall_impl; [ | exact Hrec ]. intros tx Htxr.
      eapply recorded_on_same_but_volume; [ exact Hs1 | exact Htxr ]. }
    assert (Hnd1 : NoDup (labels um) -> NoDup (labels um1)).
    { intros Hnd. rewrite (same_but_volume_labels _ _ Hs1). exact Hnd. }
    destruct Hcase as [ [Hu Ht] | [tx [Ht [Htxr Hsum1]]] ].
    + subst um1 txs1. exists new. split; [ exact Htx | ].
      split; [ simpl; lia | ]. split; [ exact Hrec' | exact Hsum ].
    + subst txs1. exists (tx :: new).
      split; [ rewrite Htx, <- app_assoc; reflexivity | ].
      split; [ simpl; lia | ].
      split; [ constructor; assumption | ].
      intros Hnd. rewrite (Hsum (Hnd1 Hnd)), (Hsum1 Hnd).
      change (tx :: new) with ([tx] ++ new).
      rewrite total_amount_app, total_amount_one. lra.
Qed.

(** ** A day of a venue *)

Lemma same_but_volume_column {C} (col : MarketRow -> C) m m' :
  (forall r, col (set_daily_volume 0 r) = col r) ->
  same_but_volume m m' -> map col (rows m') = map col (rows m).
Proof.
  unfold same_but_volume, rows. intros Hcol H.
  apply (f_equal (map (fun lr : Z * MarketRow => col (snd lr)))) in H.
  rewrite !map_map in H. simpl in H. rewrite !map_map.
  assert (Hext : forall f : Frame MarketRow,
             map (fun lr => col (snd lr)) f
             = map (fun lr => col (set_daily_volume 0 (snd lr))) f).
  { intros f. apply map_ext. intros lr. symmetry. apply Hcol. }
  rewrite (Hext m'), (Hext m). exact H.
Qed.

Lemma transaction_target_len (m m' : Frame MarketRow) mc tok :
  length m' = length m ->
  transaction_target m' mc tok = transaction_target m mc tok.
Proof.
  intros H. unfold transaction_target, len. rewrite H. reflexivity.
Qed.

Lemma py_range_length n : 0 <= n -> Z.of_nat (length (py_range n)) = n.
Proof.
  intros H. unfold py_range. rewrite length_map, length_seq. lia.
Qed.

(** The three stages of a day that returns: the price loop, the
    transaction loop and the carry-forward. *)
Lemma daily_trading_stages cfg (investors : Frame Investor)
    (market : Frame MarketRow) date mc tok t p dm trades market' p' :
  _simulate_daily_trading cfg investors market date mc tok t p
  = Ok ((dm, trades, market'), p') ->
  exists um q um' q',
    for_each market
      (reprice mc (1 + event_impact mc + market_sentiment mc * 0.01)%Q)
      market t p = Ok (um, q) /\
    same_but_price market um /\
    same_but_volume um um' /\
    Z.of_nat (length trades) <= transaction_target market mc tok /\
    Forall (recorded_on investors date tok um) trades /\
    (NoDup (labels um) ->
     (col_sum daily_volume um'
      == col_sum daily_volume um + total_amount trades)%Q) /\
    dm = daily_metrics_of date um' trades /\
    _update_market_for_next_day market um' t q' = Ok (market', p').
Proof.
  intros H. unfold _simulate_daily_trading in H.
  destruct (reprice_loop_ok mc
              (1 + event_impact mc + market_sentiment mc * 0.01)%Q
              market market t p (incl_refl _)) as [um [Hum Hsame]].
  rewrite (bind_eq _ _ _ _ _ _ Hum) in H.
  apply bind_Ok in H. destruct H as [[um' txs] [q' [Hloop H]]].
  cbn [fst snd] in H.
  apply bind_Ok in H. destruct H as [next [q'' [Hnext H]]].
  unfold ret in H. injection H as H1 H2 H3 H4. subst dm trades market' p'.
  apply trade_loop_steps in Hloop.
  destruct Hloop as [Hvol [new [Htx [Hlen [Hrec Hsum]]]]].
  simpl in Htx. subst txs.
  exists um, (p + length market)%nat, um', q'.
  split; [ exact Hum | ]. split; [ exact Hsame | ]. split; [ exact Hvol | ].
  split.
  { rewrite <- (transaction_target_len market um mc tok
                  (same_but_price_length _ _ Hsame)).
    rewrite <- (py_range_length (transaction_target um mc tok)).
    - lia.
    - unfold transaction_target. lia. }
  split; [ exact Hrec | ]. split; [ exact Hsum | ].
  split; [ reflexivity | exact Hnext ].
Qed.

Lemma transaction_target_upper (um : Frame MarketRow) (mc : MarketConditions)
    (tok : bool) :
  um <> [] ->
  (-1 <= market_sentiment mc <= 1)%Q ->
  transaction_target um mc tok <= (if tok then 5 else 2) * len um.
Proof.
  intros Hum Hs. pose proof (len_pos um Hum) as Hn.
  unfold transaction_target.
  set (s := market_sentiment mc) in *.
  assert (HN : (1 <= inject_Z (len um))%Q).
  { change 1%Q with (inject_Z 1). rewrite <- Zle_Qle. lia. }
  assert (Hbase : (inject_Z (len um * 2) == inject_Z (len um) * 2)%Q).
  { rewrite inject_Z_mult. reflexivity. }
  destruct tok.
  - assert (Htok : len um <= py_int (inject_Z (len um * 2) * (1.5 + s))
                   <= 5 * len um).
    { apply py_int_between; [ lia | | ].
      - rewrite Hbase. nra.
      - rewrite Hbase, inject_Z_mult. change (inject_Z 5) with 5%Q. nra. }
    lia.
  - assert (Htrad : 0 <= py_int (inject_Z (len um * 2) * (0.5 + 0.5 * s))
                    <= 2 * len um).
    { apply py_int_between; [ lia | | ].
      - rewrite Hbase. change (inject_Z 0) with 0%Q. nra.
      - rewrite Hbase, inject_Z_mult. change (inject_Z 2) with 2%Q. nra. }
    lia.
Qed.

(** X6.  A day of a venue that returns has a metrics row, dated with the
    day, whose [num_transactions] is the length of the day's transaction
    list; for a sentiment in [-1, 1] it is at most twice the number of rows
    on the traditional venue and five times that number on the tokenized
    one: attempts that are skipped are not made up for. *)
Theorem day_transactions_bounded (cfg : Config)
    (investors : Frame Investor) (market : Frame MarketRow)
    (date : Timestamp) (mc : MarketConditions) (tok : bool) (t : Tape)
    (p : nat) dm trades market' p' :
  (-1 <= market_sentiment mc <= 1)%Q ->
  _simulate_daily_trading cfg investors market date mc tok t p
  = Ok ((dm, trades, market'), p') ->
  dm_date dm = date /\
  num_transactions dm = Z.of_nat (length trades) /\
  0 <= num_transactions dm <= (if tok then 5 else 2) * len market.
Proof.
  intros Hs H. apply daily_trading_stages in H.
  destruct H as [um [q [um' [q' [_ [_ [_ [Hlen [_ [_ [Hdm Hnext]]]]]]]]]]].
  assert (Hne : market <> []).
  { intros Heq. subst market. discriminate Hnext. }
  pose proof (transaction_target_upper market mc tok Hne Hs) as Hup.
  subst dm. unfold daily_metrics_of. cbn [dm_date num_transactions].
  split; [ reflexivity | ]. split; [ reflexivity | lia ].
Qed.

(** X7.  Every transaction a day records carries the day's date and the
    venue's flag, names a bond of the venue's table and an investor of the
    population, is priced at the bond's repriced mid price times
    [1 + spread/2] for a buy and [1 - spread/2] for a sell, and has an
    amount of at most the venue's cap on the face value (the face value on
    the tokenized venue, its [int64] product by 5 on the traditional one)
    and at most 10% of the investor's assets, both up to the rounding of the
    float64 values the source compares. *)
Theorem day_transactions_recorded (cfg : Config)
    (investors : Frame Investor) (market : Frame MarketRow)
    (date : Timestamp) (mc : MarketConditions) (tok : bool) (t : Tape)
    (p : nat) dm trades market' p' :
  _simulate_daily_trading cfg investors market date mc tok t p
  = Ok ((dm, trades, market'), p') ->
  exists um q,
    for_each market
      (reprice mc (1 + event_impact mc + market_sentiment mc * 0.01)%Q)
      market t p = Ok (um, q) /\
    labels um = labels market /\
    map bond (rows um) = map bond (rows market) /\
    map bid_ask_spread (rows um) = map bid_ask_spread (rows market) /\
    Forall (recorded_on investors date tok um) trades.
Proof.
  intros H. apply daily_trading_stages in H.
  destruct H as [um [q [um' [q' [Hum [Hsame [_ [_ [Hrec _]]]]]]]]].
  exists um, q. split; [ exact Hum | ].
  split; [ apply same_but_price_labels; exact Hsame | ].
  split; [ apply (same_but_price_column bond); [ reflexivity | exact Hsame ] | ].
  split; [ apply (same_but_price_column bid_ask_spread);
           [ reflexivity | exact Hsame ] | ].
  exact Hrec.
Qed.

(** X8.  On a table with pairwise distinct labels, the total volume a
    day reports is the sum of the volumes the day started from plus the sum
    of the amounts of the day's transactions. *)
Theorem day_volume_accounting (cfg : Config)
    (investors : Frame Investor) (market : Frame MarketRow)
    (date : Timestamp) (mc : MarketConditions) (tok : bool) (t : Tape)
    (p : nat) dm trades market' p' :
  NoDup (labels market) ->
  _simulate_daily_trading cfg investors market date mc tok t p
  = Ok ((dm, trades, market'), p') ->
  (total_volume dm
   == col_sum daily_volume market + total_amount trades)%Q.
Proof.
  intros Hnd H. apply daily_trading_stages in H.
  destruct H as [um [q [um' [q' [_ [Hsame [_ [_ [_ [Hsum [Hdm _]]]]]]]]]]].
  subst dm. unfold daily_metrics_of. cbn [total_volume].
  rewrite Hsum.
  - unfold col_sum at 1.
    rewrite (same_but_price_column daily_volume _ _ (fun r => eq_refl) Hsame).
    reflexivity.
  - rewrite (same_but_price_labels _ _ Hsame). exact Hnd.
Qed.

(** A day of the traditional venue on [sample_market] with one wealthy
    investor, on the tape whose every raw draw is 0.25: one attempt, one
    transaction. *)
Lemma sample_day_returns :
  { r | _simulate_daily_trading small_config [(0, wealthy_investor)]
          sample_market ts_2024_01_01 calm_conditions false
          (fun _ => 0.25%Q) 0%nat = Ok r }.
Proof. eexists. vm_compute. reflexivity. Defined.

Lemma day_transactions_bounded_witness :
  (-1 <= market_sentiment calm_conditions <= 1)%Q /\
  exists dm trades market' p',
    _simulate_daily_trading small_config [(0, wealthy_investor)]
      sample_market ts_2024_01_01 calm_conditions false
      (fun _ => 0.25%Q) 0%nat = Ok ((dm, trades, market'), p') /\
    num_transactions dm = Z.of_nat (length trades) /\
    0 <= num_transactions dm <= 2 * len sample_market.
Proof.
  assert (Hs : (-1 <= market_sentiment calm_conditions <= 1)%Q)
    by (split; discriminate).
  split; [ exact Hs | ].
  destruct sample_day_returns as [[[[dm trades] market'] p'] Hrun].
  exists dm, trades, market', p'. split; [ exact Hrun | ].
  exact (proj2 (day_transactions_bounded _ _ _ _ _ _ _ _ _ _ _ _
                  Hs Hrun)).
Defined.

Lemma day_transactions_recorded_witness :
  exists dm trades market' p' um,
    _simulate_daily_trading small_config [(0, wealthy_investor)]
      sample_market ts_2024_01_01 calm_conditions false
      (fun _ => 0.25%Q) 0%nat = Ok ((dm, trades, market'), p') /\
    Forall (recorded_on [(0, wealthy_investor)] ts_2024_01_01
              false um) trades.
Proof.
  destruct sample_day_returns as [[[[dm trades] market'] p'] Hrun].
  destruct (day_transactions_recorded _ _ _ _ _ _ _ _ _ _ _ _ Hrun)
    as [um [q [_ [_ [_ [_ Hrec]]]]]].
  exists dm, trades, market', p', um. split; [ exact Hrun | exact Hrec ].
Defined.

Lemma day_volume_accounting_witness :
  exists dm trades market' p',
    _simulate_daily_trading small_config [(0, wealthy_investor)]
      sample_market ts_2024_01_01 calm_conditions false
      (fun _ => 0.25%Q) 0%nat = Ok ((dm, trades, market'), p') /\
    NoDup (labels sample_market) /\
    (total_volume dm
     == col_sum daily_volume sample_market + total_amount trades)%Q.
Proof.
  destruct sample_day_returns as [[[[dm trades] market'] p'] Hrun].
  assert (Hnd : NoDup (labels sample_market)).
  { simpl. constructor; [ intros [] | constructor ]. }
  exists dm, trades, market', p'. split; [ exact Hrun | ].
  split; [ exact Hnd | ].
  exact (day_volume_accounting _ _ _ _ _ _ _ _ _ _ _ _ Hnd Hrun).
Defined.

Lemma carry_rows_columns tok : forall original updated sas das,
  length updated = length original ->
  length sas = length original ->
  length das = length original ->
  map bond (rows (carry_rows tok original updated sas das))
  = map bond (rows original)
  /\ map price (rows (carry_rows tok original updated sas das))
     = map price (rows updated).
Proof.
  induction original as [ | [l1 o1] original IH ];
    intros updated sas das Hu Hs Hd.
  - destruct updated; [ split; reflexivity | discriminate ].
  - destruct updated as [ | [l2 u2] updated ]; [ discriminate | ].
    destruct sas as [ | s1 sas ]; [ discriminate | ].
    destruct das as [ | d1 das ]; [ discriminate | ].
    simpl in Hu, Hs, Hd.
    destruct (IH updated sas das ltac:(lia) ltac:(lia) ltac:(lia)) as [Hb Hp].
    simpl. split; f_equal; [ exact Hb | exact Hp ].
Qed.

Lemma carry_forward_columns (original updated : Frame MarketRow) t p next p' :
  length updated = length original ->
  _update_market_for_next_day original updated t p = Ok (next, p') ->
  map bond (rows next) = map bond (rows original)
  /\ map price (rows next) = map price (rows updated).
Proof.
  intros Hlen H. destruct original as [ | [l0 o0] original ].
  - unfold _update_market_for_next_day in H.
    rewrite (bind_raise _ _ _ _ _ (first_is_tokenized_nil _ t p)) in H.
    discriminate.
  - pose proof (update_market_for_next_day_eq l0 o0 original updated t p) as E.
    cbv zeta in E. rewrite E in H.
    assert (Hn : next = carry_rows (is_tokenized (bond o0))
                          ((l0, o0) :: original) updated
                          (map (fun z => 1 + 0.05 * z)%Q
                             (tape_slice t p (length ((l0, o0) :: original))))
                          (map (fun z => 1 + 0.1 * z)%Q
                             (tape_slice t (p + length ((l0, o0) :: original))
                                (length ((l0, o0) :: original)))))
      by congruence.
    rewrite Hn.
    apply carry_rows_columns; [ exact Hlen | | ];
      rewrite length_map; apply tape_slice_length.
Qed.

(** X9.  A day of a venue that returns hands to the next day a table with
    the same labels in the same order and the same bonds, and with the
    prices the day's price loop computed: the transactions of the day move
    no price, and no row is added, dropped or reordered. *)
Theorem day_keeps_rows (cfg : Config)
    (investors : Frame Investor) (market : Frame MarketRow)
    (date : Timestamp) (mc : MarketConditions) (tok : bool) (t : Tape)
    (p : nat) dm trades market' p' :
  _simulate_daily_trading cfg investors market date mc tok t p
  = Ok ((dm, trades, market'), p') ->
  labels market' = labels market /\
  len market' = len market /\
  map bond (rows market') = map bond (rows market) /\
  exists um q,
    for_each market
      (reprice mc (1 + event_impact mc + market_sentiment mc * 0.01)%Q)
      market t p = Ok (um, q) /\
    map price (rows market') = map price (rows um) /\
    avg_price dm = col_mean price um.
Proof.
  intros H. apply daily_trading_stages in H.
  destruct H as [um [q [um' [q' [Hum [Hsp [Hsv [_ [_ [_ [Hdm Hnext]]]]]]]]]]].
  assert (Hlen : length um' = length market).
  { rewrite (same_but_volume_length _ _ Hsv).
    apply same_but_price_length. exact Hsp. }
  pose proof (carry_forward_labels _ _ _ _ _ _ Hlen Hnext) as Hl.
  destruct (carry_forward_columns _ _ _ _ _ _ Hlen Hnext) as [Hb Hp].
  split; [ exact Hl | ].
  split; [ unfold len; rewrite <- !length_labels, Hl; reflexivity | ].
  split; [ exact Hb | ].
  exists um, q. split; [ exact Hum | ].
  pose proof (same_but_volume_column price um um' (fun r => eq_refl) Hsv)
    as Hprice.
  split; [ rewrite Hp; exact Hprice | ].
  subst dm. unfold daily_metrics_of. cbn [avg_price].
  unfold col_mean, col_sum, len.
  rewrite Hprice, (same_but_volume_length _ _ Hsv). reflexivity.
Qed.

Lemma day_keeps_rows_witness :
  exists dm trades market' p',
    _simulate_daily_trading small_config [(0, wealthy_investor)]
      sample_market ts_2024_01_01 calm_conditions false
      (fun _ => 0.25%Q) 0%nat = Ok ((dm, trades, market'), p') /\
    labels market' = labels sample_market /\
    map bond (rows market') = map bond (rows sample_market).
Proof.
  destruct sample_day_returns as [[[[dm trades] market'] p'] Hrun].
  destruct (day_keeps_rows _ _ _ _ _ _ _ _ _ _ _ _ Hrun) as [Hl [_ [Hb _]]].
  exists dm, trades, market', p'. split; [ exact Hrun | ].
  split; [ exact Hl | exact Hb ].
Defined.

Lemma traditional_labels_positional cfg t p q (market : Frame MarketRow) :
  0 < num_bonds cfg ->
  labels market = labels (initial_traditional cfg t p q) ->
  positions_labelled market /\ market <> [].
Proof.
  intros HB Hl. split.
  - eapply positions_labelled_same_labels; [ exact Hl | ].
    apply positions_labelled_initial_traditional.
  - intros Hnil. subst market. simpl in Hl.
    pose proof (f_equal (@length Z) Hl) as Hlen. simpl in Hlen.
    unfold initial_traditional in Hlen.
    rewrite labels_initial_market, length_labels in Hlen.
    rewrite <- length_rows, rows_reindex_from, drawn_bonds_length in Hlen.
    lia.
Qed.



(** ** The tables of a run *)

Lemma transactions_total_app ms dm :
  transactions_total (ms ++ [dm]) = transactions_total ms + num_transactions dm.
Proof.
  unfold transactions_total. rewrite map_app, fold_left_app. reflexivity.
Qed.

Lemma recorded_on_flag investors date tok um trades :
  Forall (recorded_on investors date tok um) trades ->
  Forall (fun tx => tx_is_tokenized tx = tok) trades.
Proof.
  intros H. eapply Forall_impl; [ | exact H ].
  intros tx [b [inv [_ [_ [_ [Hflag _]]]]]]. exact Hflag.
Qed.

Lemma simulate_day_tables cfg investors day days s t p s' p' :
  loop_tables days s ->
  simulate_day cfg investors day s t p = Ok (s', p') ->
  loop_tables (days ++ [day]) s'.
Proof.
  intros [Hd1 [Hd2 [Hc1 [Hc2 [Hf1 Hf2]]]]] H. unfold simulate_day in H.
  apply bind_Ok in H. destruct H as [mc [q1 [_ H]]].
  apply bind_Ok in H. destruct H as [[[dm1 tr1] m1] [q2 [Htrad H]]].
  apply bind_Ok in H. destruct H as [[[dm2 tr2] m2] [q3 [Htok H]]].
  unfold ret in H. injection H as Hs _. subst s'.
  destruct (daily_trading_stages _ _ _ _ _ _ _ _ _ _ _ _ Htrad)
    as [um1 [r1 [um1' [r1' [_ [_ [_ [_ [Hrec1 [_ [Hdm1 _]]]]]]]]]]].
  destruct (daily_trading_stages _ _ _ _ _ _ _ _ _ _ _ _ Htok)
    as [um2 [r2 [um2' [r2' [_ [_ [_ [_ [Hrec2 [_ [Hdm2 _]]]]]]]]]]].
  assert (Hdate1 : dm_date dm1 = offset_days ts_2024_01_01 day)
    by (rewrite Hdm1; reflexivity).
  assert (Hdate2 : dm_date dm2 = offset_days ts_2024_01_01 day)
    by (rewrite Hdm2; reflexivity).
  assert (Hn1 : num_transactions dm1 = Z.of_nat (length tr1))
    by (rewrite Hdm1; reflexivity).
  assert (Hn2 : num_transactions dm2 = Z.of_nat (length tr2))
    by (rewrite Hdm2; reflexivity).
  unfold loop_tables.
  cbn [traditional_metrics tokenized_metrics traditional_transactions
       tokenized_transactions].
  rewrite !map_app, !transactions_total_app, !length_app, Hd1, Hd2, Hc1, Hc2.
  simpl map. rewrite Hdate1, Hdate2, Hn1, Hn2.
  split; [ reflexivity | ]. split; [ reflexivity | ].
  split; [ lia | ]. split; [ lia | ].
  split; apply Forall_app; split; try assumption.
  - eapply recorded_on_flag. exact Hrec1.
  - eapply recorded_on_flag. exact Hrec2.
Qed.

Lemma day_loop_tables cfg investors : forall days done s t p s' p',
  loop_tables done s ->
  for_each days (simulate_day cfg investors) s t p = Ok (s', p') ->
  loop_tables (done ++ days) s'.
Proof.
  induction days as [ | d days IH ]; intros done s t p s' p' Hs H.
  - simpl in H. unfold ret in H. injection H as H1 _. subst s'.
    rewrite app_nil_r. exact Hs.
  - simpl for_each in H. apply bind_Ok in H.
    destruct H as [s1 [q [Hday H]]].
    change (d :: days) with ([d] ++ days). rewrite app_assoc.
    eapply IH; [ | exact H ].
    eapply simulate_day_tables; eassumption.
Qed.

Lemma setup_tables cfg t p investors s0 p0 :
  run_simulation_setup cfg t p = Ok ((investors, s0), p0) ->
  loop_tables [] s0.
Proof.
  unfold run_simulation_setup. intros H.
  apply bind_Ok in H. destruct H as [bonds [q1 [_ H]]].
  apply bind_Ok in H. destruct H as [inv [q2 [_ H]]].
  apply bind_Ok in H. destruct H as [[trad tok] [q3 [_ H]]].
  unfold ret in H. injection H as _ Hs _. subst s0.
  unfold loop_tables. simpl. repeat split; constructor.
Qed.

(** X11.  A run that returns has, for each venue, one metrics row per
    simulated day, in day order and dated 2024-01-01 plus the day's number;
    the transaction counts of a venue's metrics rows add up to the length of
    the venue's transaction table; and every transaction sits in the table
    of the venue its flag names. *)
Theorem run_tables_consistent (cfg : Config) (t : Tape) (p : nat) out p' :
  run_simulation cfg t p = Ok (out, p') ->
  map dm_date (traditional_metrics_df out)
  = map (offset_days ts_2024_01_01) (py_range (simulation_days cfg)) /\
  map dm_date (tokenized_metrics_df out)
  = map (offset_days ts_2024_01_01) (py_range (simulation_days cfg)) /\
  length (traditional_metrics_df out) = Z.to_nat (simulation_days cfg) /\
  length (tokenized_metrics_df out) = Z.to_nat (simulation_days cfg) /\
  transactions_total (traditional_metrics_df out)
  = Z.of_nat (length (traditional_transactions_df out)) /\
  transactions_total (tokenized_metrics_df out)
  = Z.of_nat (length (tokenized_transactions_df out)) /\
  Forall (fun tx => tx_is_tokenized tx = false)
    (traditional_transactions_df out) /\
  Forall (fun tx => tx_is_tokenized tx = true)
    (tokenized_transactions_df out).
Proof.
  intros H. unfold run_simulation in H.
  apply bind_Ok in H. destruct H as [[investors s0] [p0 [Hsetup H]]].
  apply bind_Ok in H. destruct H as [s [q [Hloop H]]].
  unfold ret in H. injection H as Hout _. subst out.
  cbn [traditional_metrics_df tokenized_metrics_df
       traditional_transactions_df tokenized_transactions_df].
  pose proof (day_loop_tables cfg investors _ [] _ _ _ _ _
                (setup_tables _ _ _ _ _ _ Hsetup) Hloop) as Hinv.
  simpl app in Hinv.
  destruct Hinv as [Hd1 [Hd2 [Hc1 [Hc2 [Hf1 Hf2]]]]].
  assert (Hlen : forall ms : list DailyMetrics,
             map dm_date ms
             = map (offset_days ts_2024_01_01) (py_range (simulation_days cfg)) ->
             length ms = Z.to_nat (simulation_days cfg)).
  { intros ms Hm. apply (f_equal (@length Timestamp)) in Hm.
    rewrite !length_map in Hm. rewrite Hm. unfold py_range.
    rewrite length_map, length_seq. reflexivity. }
  repeat split; auto.
Qed.

Lemma sample_run_returns :
  { r | run_simulation (mkConfig 1 1 1 10000 100) first_run_tape 0%nat = Ok r }.
Proof. eexists. vm_compute. reflexivity. Defined.

Lemma run_tables_consistent_witness :
  exists out p',
    run_simulation (mkConfig 1 1 1 10000 100) first_run_tape 0%nat
    = Ok (out, p') /\
    length (traditional_metrics_df out) = 1%nat /\
    length (tokenized_metrics_df out) = 1%nat.
Proof.
  destruct sample_run_returns as [[out p'] Hrun].
  destruct (run_tables_consistent _ _ _ _ _ Hrun)
    as [_ [_ [Hl1 [Hl2 _]]]].
  exists out, p'. split; [ exact Hrun | ]. split; [ exact Hl1 | exact Hl2 ].
Defined.

Lemma returned_run_has_no_tokenized_trade_witness :
  exists out p',
    run_simulation (mkConfig 1 1 1 10000 100) first_run_tape 0%nat
    = Ok (out, p') /\
    tokenized_transactions_df out = [].
Proof.
  destruct sample_run_returns as [[out p'] Hrun].
  assert (HB : 0 < num_bonds (mkConfig 1 1 1 10000 100)) by (simpl; lia).
  destruct (returned_run_has_no_tokenized_trade _ _ _ _ _ HB Hrun) as [Htx _].
  exists out, p'. split; [ exact Hrun | exact Htx ].
Defined.

Lemma run_raises_when_affordable_witness :
  run_simulation (mkConfig 3 4 10 10000 100) (fun _ => 1%Q) 0%nat
  = Raise KeyError.
Proof.
  eapply (run_raises_when_affordable (mkConfig 3 4 10 10000 100)
            (fun _ => 1%Q) 0%nat).
  - simpl. lia.
  - simpl. lia.
  - vm_compute. reflexivity.
  - discriminate.
  - intros inv Hin. simpl in Hin.
    repeat (destruct Hin as [ Hin | Hin ];
            [ rewrite <- Hin; vm_compute; discriminate | ]).
    contradiction.
Defined.

(** ** Volumes stay positive *)

Lemma volumes_positive_same_but_price m m' :
  same_but_price m m' -> volumes_positive m -> volumes_positive m'.
Proof.
  unfold same_but_price, volumes_positive, rows. intros H Hm.
  apply (f_equal (map snd)) in H. rewrite !map_map in H. cbn [snd] in H.
  assert (Hmap : forall f : Frame MarketRow,
             Forall (fun r => (0 < daily_volume r)%Q /\ 0 < face_value (bond r) <= 100000)
               (map snd f)
             <-> Forall (fun r => (0 < daily_volume r)%Q
                                  /\ 0 < face_value (bond r) <= 100000)
                   (map (fun lr => set_price 0 (snd lr)) f)).
  { intros f. rewrite !Forall_map. reflexivity. }
  apply Hmap. rewrite H. apply Hmap. exact Hm.
Qed.

Lemma at_lookup_In_rows {R} (f : Frame R) label r :
  at_lookup f label = Some r -> In r (rows f).
Proof.
  induction f as [ | [l r0] f IH ]; simpl; intros H; [ discriminate | ].
  destruct (l =? label).
  - inversion H. left. reflexivity.
  - right. apply IH. exact H.
Qed.

Lemma int64_wrap_small z :
  - 2 ^ 63 <= z < 2 ^ 63 -> int64_wrap z = z.
Proof.
  intros H. unfold int64_wrap. rewrite Z.mod_small; lia.
Qed.

Lemma at_set_Forall {R} (P : R -> Prop) (f : Frame R) label (upd : R -> R) :
  (forall r, P r -> P (upd r)) ->
  Forall P (rows f) -> Forall P (rows (at_set f label upd)).
Proof.
  intros Hupd. induction f as [ | [l r] f IH ]; simpl; intros H;
    [ constructor | ].
  inversion H as [ | ? ? Hr Hf ]; subst.
  destruct (l =? label); simpl; constructor; auto.
Qed.

Lemma drawn_amount_nonneg cfg tok b inv z :
  (0 <= venue_min_amount cfg tok)%Q ->
  0 < face_value (bond b) <= 100000 ->
  (venue_min_amount cfg tok <= assets inv * 0.1)%Q ->
  (0 <= drawn_amount cfg tok b inv z)%Q.
Proof.
  intros Hmin Hfv Hassets. unfold drawn_amount.
  rewrite amount_bounds_cap, amount_bounds_min.
  apply Q.min_glb.
  - pose proof (Qabs_nonneg z) as Hz. unfold nonneg_of_raw.
    apply Qmult_le_0_compat; [ exact Hmin | lra ].
  - apply Q.min_glb; [ | lra ].
    change 0%Q with (inject_Z 0). rewrite <- Zle_Qle.
    unfold venue_cap. destruct tok; [ lia | ].
    rewrite int64_wrap_small; lia.
Qed.

Lemma trade_once_positive cfg (investors : Frame Investor) date tok
    (um : Frame MarketRow) txs t p um' txs' p' :
  (0 <= venue_min_amount cfg tok)%Q ->
  volumes_positive um ->
  trade_once cfg investors date tok (um, txs) t p = Ok ((um', txs'), p') ->
  volumes_positive um'.
Proof.
  intros Hmin Hpos H.
  assert (Hum : um <> []).
  { intros Heq. subst um. rewrite trade_once_empty_market in H. discriminate. }
  assert (Hinv : investors <> []).
  { intros Heq. subst investors.
    rewrite (trade_once_no_investors cfg date tok um txs t p Hum) in H.
    discriminate. }
  destruct (trade_once_eq cfg investors date tok um txs t p Hum Hinv)
    as [b [inv [Hb [Hi Heq]]]].
  rewrite Heq in H. clear Heq.
  destruct (Qlt_le_dec (assets inv * 0.1) (fst (amount_bounds cfg tok b inv)))
    as [ Hlt | Hle ].
  - injection H as H1 _ _. subst um'. exact Hpos.
  - destruct (at_lookup um (Qfloor (t p) mod len um)) as [ r | ] eqn:Hr;
      [ | discriminate ].
    injection H as H1 _ _. subst um'.
    rewrite amount_bounds_min in Hle.
    pose proof (proj1 (Forall_forall _ _) Hpos b (nth_error_In _ _ Hb))
      as [_ Hfb].
    pose proof (proj1 (Forall_forall _ _) Hpos r (at_lookup_In_rows _ _ _ Hr))
      as [Hvr _].
    pose proof (drawn_amount_nonneg cfg tok b inv (t (S (S p))) Hmin Hfb Hle)
      as Ha.
    apply at_set_Forall; [ | exact Hpos ].
    intros r' [_ Hf']. cbn [set_daily_volume daily_volume bond].
    split; [ lra | exact Hf' ].
Qed.

Lemma trade_loop_positive cfg (investors : Frame Investor) date tok :
  (0 <= venue_min_amount cfg tok)%Q ->
  forall (passes : list Z) (um : Frame MarketRow) txs t p um' txs' p',
    volumes_positive um ->
    for_each passes (fun _ => trade_once cfg investors date tok)
      (um, txs) t p = Ok ((um', txs'), p') ->
    volumes_positive um'.
Proof.
  intros Hmin passes. induction passes as [ | d passes IH ];
    intros um txs t p um' txs' p' Hpos H.
  - simpl in H. unfold ret in H. injection H as H1 _ _. subst um'. exact Hpos.
  - simpl for_each in H. apply bind_Ok in H.
    destruct H as [[um1 txs1] [p1 [Hstep Hrest]]].
    eapply IH; [ | exact Hrest ].
    eapply trade_once_positive; eassumption.
Qed.

Lemma carry_rows_positive tok : forall original updated sas das,
  volumes_positive original -> volumes_positive updated ->
  volumes_positive (carry_rows tok original updated sas das).
Proof.
  unfold volumes_positive.
  induction original as [ | [l1 o1] original IH ];
    intros updated sas das Ho Hu; [ constructor | ].
  destruct updated as [ | [l2 u2] updated ]; [ constructor | ].
  destruct sas as [ | s1 sas ]; [ constructor | ].
  destruct das as [ | d1 das ]; [ constructor | ].
  simpl in Ho, Hu.
  inversion Ho as [ | ? ? [_ Hfo] Ho' ]; subst.
  inversion Hu as [ | ? ? [Hvu _] Hu' ]; subst.
  simpl. constructor; [ | apply IH; assumption ].
  cbn [daily_volume bond]. split; [ | exact Hfo ].
  assert (Hb : (0 < base_volume (bond o1))%Q).
  { unfold base_volume.
    assert (Hq : (0 < inject_Z (face_value (bond o1)))%Q).
    { change 0%Q with (inject_Z 0). rewrite <- Zlt_Qlt. apply Hfo. }
    lra. }
  destruct tok; lra.
Qed.

Lemma carry_forward_positive (original updated : Frame MarketRow) t p next p' :
  volumes_positive original -> volumes_positive updated ->
  _update_market_for_next_day original updated t p = Ok (next, p') ->
  volumes_positive next.
Proof.
  intros Ho Hu H. destruct original as [ | [l0 o0] original ].
  - unfold _update_market_for_next_day in H.
    rewrite (bind_raise _ _ _ _ _ (first_is_tokenized_nil _ t p)) in H.
    discriminate.
  - pose proof (update_market_for_next_day_eq l0 o0 original updated t p) as E.
    cbv zeta in E. rewrite E in H.
    assert (Hn : next = carry_rows (is_tokenized (bond o0))
                          ((l0, o0) :: original) updated
                          (map (fun z => 1 + 0.05 * z)%Q
                             (tape_slice t p (length ((l0, o0) :: original))))
                          (map (fun z => 1 + 0.1 * z)%Q
                             (tape_slice t (p + length ((l0, o0) :: original))
                                (length ((l0, o0) :: original)))))
      by congruence.
    rewrite Hn. apply carry_rows_positive; assumption.
Qed.

Lemma col_sum_positive (m : Frame MarketRow) :
  volumes_positive m -> m <> [] -> (0 < col_sum daily_volume m)%Q.
Proof.
  unfold volumes_positive. intros Hpos Hne.
  assert (Hnn : forall f : Frame MarketRow,
             Forall (fun r => (0 < daily_volume r)%Q
                              /\ 0 < face_value (bond r) <= 100000) (rows f) ->
             (0 <= col_sum daily_volume f)%Q).
  { induction f as [ | [l r] f IH ]; intros Hf.
    - unfold col_sum. simpl. lra.
    - simpl in Hf. inversion Hf as [ | ? ? [Hr _] Hf' ]; subst.
      rewrite col_sum_cons. pose proof (IH Hf'). lra. }
  destruct m as [ | [l r] m ]; [ congruence | ].
  simpl in Hpos. inversion Hpos as [ | ? ? [Hr _] Hm ]; subst.
  rewrite col_sum_cons. pose proof (Hnn m Hm). lra.
Qed.

Lemma day_volumes_positive cfg (investors : Frame Investor)
    (market : Frame MarketRow) date mc tok t p dm trades market' p' :
  (0 <= venue_min_amount cfg tok)%Q ->
  volumes_positive market ->
  _simulate_daily_trading cfg investors market date mc tok t p
  = Ok ((dm, trades, market'), p') ->
  (0 < total_volume dm)%Q /\ volumes_positive market'.
Proof.
  intros Hmin Hpos H. unfold _simulate_daily_trading in H.
  destruct (reprice_loop_ok mc
              (1 + event_impact mc + market_sentiment mc * 0.01)%Q
              market market t p (incl_refl _)) as [um [Hum Hsame]].
  rewrite (bind_eq _ _ _ _ _ _ Hum) in H.
  apply bind_Ok in H. destruct H as [[um' txs] [q' [Hloop H]]].
  cbn [fst snd] in H.
  apply bind_Ok in H. destruct H as [next [q'' [Hnext H]]].
  unfold ret in H. injection H as H1 _ H3 _. subst dm market'.
  pose proof (volumes_positive_same_but_price _ _ Hsame Hpos) as Hpos1.
  pose proof (trade_loop_positive cfg investors date tok Hmin _ _ _ _ _ _ _ _
                Hpos1 Hloop) as Hpos2.
  split.
  - unfold daily_metrics_of. cbn [total_volume].
    apply col_sum_positive; [ exact Hpos2 | ].
    intros Hnil. subst um'.
    destruct market as [ | lr market ].
    + unfold _update_market_for_next_day in Hnext.
      rewrite (bind_raise _ _ _ _ _ (first_is_tokenized_nil _ t q')) in Hnext.
      discriminate.
    + apply trade_loop_steps in Hloop. destruct Hloop as [Hsv _].
      apply same_but_volume_length in Hsv.
      apply same_but_price_length in Hsame. simpl in Hsv, Hsame. lia.
  - eapply carry_forward_positive; [ exact Hpos | exact Hpos2 | exact Hnext ].
Qed.

Lemma drawn_bonds_face_value cfg t p b :
  In b (drawn_bonds cfg t p) -> 0 < face_value b <= 100000.
Proof.
  intros Hin. apply In_nth_error in Hin. destruct Hin as [i Hi].
  destruct (drawn_bonds_nth cfg t p i b Hi) as [_ [_ [Hfv _]]].
  unfold face_value_choices in Hfv. simpl in Hfv. intuition lia.
Qed.

Lemma initial_row_positive tok b d :
  0 < face_value b <= 100000 ->
  (0 < daily_volume (initial_row tok b d))%Q
  /\ 0 < face_value (bond (initial_row tok b d)) <= 100000.
Proof.
  intros Hfv. unfold initial_row, base_volume. cbn [daily_volume bond].
  assert (Hq : (0 < inject_Z (face_value b))%Q).
  { change 0%Q with (inject_Z 0). rewrite <- Zlt_Qlt. apply Hfv. }
  split; [ destruct tok; lra | exact Hfv ].
Qed.

Lemma initial_state_positive cfg t p :
  volumes_kept_positive (initial_state cfg t p).
Proof.
  unfold volumes_kept_positive, initial_state. cbv zeta.
  cbn [traditional_market tokenized_market traditional_metrics
       tokenized_metrics].
  split; [ | split; [ | split; constructor ] ].
  - apply Forall_forall. intros r Hr.
    apply initial_traditional_row in Hr. destruct Hr as [b [d [Hr Hb]]].
    subst r. apply initial_row_positive.
    eapply drawn_bonds_face_value. exact Hb.
  - apply Forall_forall. intros r Hr.
    apply initial_tokenized_row in Hr. destruct Hr as [b [d [Hr Hb]]].
    subst r. apply initial_row_positive. unfold tokenize. cbn [face_value].
    eapply drawn_bonds_face_value. exact Hb.
Qed.

Lemma simulate_day_positive cfg investors day s t p s' p' :
  (0 <= traditional_min_amount cfg)%Q ->
  (0 <= tokenized_min_amount cfg)%Q ->
  volumes_kept_positive s ->
  simulate_day cfg investors day s t p = Ok (s', p') ->
  volumes_kept_positive s'.
Proof.
  intros Hm1 Hm2 [Hp1 [Hp2 [Hd1 Hd2]]] H. unfold simulate_day in H.
  apply bind_Ok in H. destruct H as [mc [q1 [_ H]]].
  apply bind_Ok in H. destruct H as [[[dm1 tr1] m1] [q2 [Htrad H]]].
  apply bind_Ok in H. destruct H as [[[dm2 tr2] m2] [q3 [Htok H]]].
  unfold ret in H. injection H as Hs _. subst s'.
  destruct (day_volumes_positive cfg investors _ _ _ false _ _ _ _ _ _
              Hm1 Hp1 Htrad) as [Hv1 Hn1].
  destruct (day_volumes_positive cfg investors _ _ _ true _ _ _ _ _ _
              Hm2 Hp2 Htok) as [Hv2 Hn2].
  unfold volumes_kept_positive.
  cbn [traditional_market tokenized_market traditional_metrics
       tokenized_metrics].
  split; [ exact Hn1 | ]. split; [ exact Hn2 | ].
  split; apply Forall_app; split; try assumption;
    constructor; try assumption; constructor.
Qed.

Lemma day_loop_positive cfg investors :
  (0 <= traditional_min_amount cfg)%Q ->
  (0 <= tokenized_min_amount cfg)%Q ->
  forall days s t p s' p',
    volumes_kept_positive s ->
    for_each days (simulate_day cfg investors) s t p = Ok (s', p') ->
    volumes_kept_positive s'.
Proof.
  intros Hm1 Hm2 days. induction days as [ | d days IH ];
    intros s t p s' p' Hs H.
  - simpl in H. unfold ret in H. injection H as H1 _. subst s'. exact Hs.
  - simpl for_each in H. apply bind_Ok in H.
    destruct H as [s1 [q [Hday H]]].
    eapply IH; [ | exact H ].
    eapply simulate_day_positive; eassumption.
Qed.

(** X14.  For a positive bond count and non-negative minimum amounts,
    every metrics row of a run that returns reports a positive total
    volume, on both venues: the initial volumes are positive, transaction
    amounts are never negative, and the carry-forward blends two positive
    terms. *)
Theorem run_total_volume_positive (cfg : Config) (t : Tape) (p : nat) out p' :
  0 < num_bonds cfg ->
  (0 <= traditional_min_amount cfg)%Q ->
  (0 <= tokenized_min_amount cfg)%Q ->
  run_simulation cfg t p = Ok (out, p') ->
  Forall (fun dm => (0 < total_volume dm)%Q) (traditional_metrics_df out) /\
  Forall (fun dm => (0 < total_volume dm)%Q) (tokenized_metrics_df out).
Proof.
  intros HB Hm1 Hm2 H. unfold run_simulation in H.
  apply bind_Ok in H. destruct H as [[investors s0] [p0 [Hsetup H]]].
  apply bind_Ok in H. destruct H as [s [q [Hloop H]]].
  unfold ret in H. injection H as Hout _. subst out.
  cbn [traditional_metrics_df tokenized_metrics_df].
  assert (Hs0 : s0 = initial_state cfg t p).
  { destruct (Z.lt_ge_cases (num_investors cfg) 0) as [ Hneg | Hnn ].
    - destruct (run_simulation_setup_raises cfg t p (or_intror Hneg)) as [e He].
      rewrite He in Hsetup. discriminate.
    - destruct (run_simulation_setup_ok cfg t p HB Hnn) as [inv Hok].
      rewrite Hok in Hsetup. injection Hsetup as _ Hs _. symmetry. exact Hs. }
  assert (Hinit : volumes_kept_positive s0)
    by (rewrite Hs0; apply initial_state_positive).
  destruct (day_loop_positive cfg investors Hm1 Hm2 _ _ _ _ _ _ Hinit Hloop)
    as [_ [_ [Hd1 Hd2]]].
  split; assumption.
Qed.

Lemma run_total_volume_positive_witness :
  exists out p',
    run_simulation (mkConfig 1 1 1 10000 100) first_run_tape 0%nat
    = Ok (out, p') /\
    Forall (fun dm => (0 < total_volume dm)%Q) (traditional_metrics_df out).
Proof.
  destruct sample_run_returns as [[out p'] Hrun].
  assert (HB : 0 < num_bonds (mkConfig 1 1 1 10000 100)) by (simpl; lia).
  assert (H1 : (0 <= traditional_min_amount (mkConfig 1 1 1 10000 100))%Q)
    by discriminate.
  assert (H2 : (0 <= tokenized_min_amount (mkConfig 1 1 1 10000 100))%Q)
    by discriminate.
  destruct (run_total_volume_positive _ _ _ _ _ HB H1 H2 Hrun) as [Hd _].
  exists out, p'. split; [ exact Hrun | exact Hd ].
Defined.

(** ** The exceptions of a run *)

Lemma drawn_investors_length cfg t p :
  length (drawn_investors cfg t p) = Z.to_nat (num_investors cfg).
Proof.
  unfold drawn_investors. rewrite investor_rows_length;
    rewrite ?length_map, ?tape_slice_length; reflexivity.
Qed.

Lemma run_simulation_setup_eq cfg t p :
  0 < num_bonds cfg -> 0 <= num_investors cfg ->
  run_simulation_setup cfg t p
  = Ok ((new_frame (drawn_investors cfg t (p + 4 * Z.to_nat (num_bonds cfg))),
         initial_state cfg t p),
        (p + 4 * Z.to_nat (num_bonds cfg) + 5 * Z.to_nat (num_investors cfg)
         + 2 * Z.to_nat (num_bonds cfg))%nat).
Proof.
  intros HB HI. unfold run_simulation_setup.
  rewrite (bind_eq _ _ _ _ _ _
             (generate_bonds_generated cfg t p HB)).
  rewrite (bind_eq _ _ _ _ _ _ (generate_investors_eq cfg t _ HI)).
  rewrite (bind_eq _ _ _ _ _ _ (initialize_markets_eq cfg t p _ HB)).
  reflexivity.
Qed.

Lemma initial_state_labelled cfg t p :
  0 < num_bonds cfg -> tables_labelled cfg (initial_state cfg t p).
Proof.
  intros HB. unfold tables_labelled, initial_state. cbv zeta.
  cbn [traditional_market tokenized_market].
  destruct (traditional_labels_positional cfg t p
              (p + 4 * Z.to_nat (num_bonds cfg)
               + 5 * Z.to_nat (num_investors cfg))%nat
              (initial_traditional cfg t p
                 (p + 4 * Z.to_nat (num_bonds cfg)
                  + 5 * Z.to_nat (num_investors cfg))%nat) HB eq_refl)
    as [Hpos Hne].
  split; [ exact Hpos | ]. split; [ exact Hne | ].
  apply labels_initial_tokenized.
Qed.

Lemma tokenized_trade_once_cases cfg (investors : Frame Investor) date
    (market : Frame MarketRow) txs t p :
  0 < num_bonds cfg ->
  labels market = tokenized_labels cfg ->
  investors <> [] ->
  trade_once cfg investors date true (market, txs) t p
    = Ok ((market, txs), S (S p))
  \/ trade_once cfg investors date true (market, txs) t p = Raise KeyError.
Proof.
  intros HB Hl Hinv. destruct (tokenized_len cfg market HB Hl) as [Hlen Hne].
  destruct (trade_once_eq cfg investors date true market txs t p Hne Hinv)
    as [b [inv [_ [_ Heq]]]].
  rewrite Heq.
  destruct (Qlt_le_dec (assets inv * 0.1)
              (fst (amount_bounds cfg true b inv))); [ left; reflexivity | ].
  right. rewrite (tokenized_lookup_misses cfg market _ Hl); [ reflexivity | ].
  rewrite Hlen. apply Z.mod_pos_bound. exact HB.
Qed.

Lemma tokenized_trade_loop_cases cfg (investors : Frame Investor) date
    (market : Frame MarketRow) :
  0 < num_bonds cfg ->
  labels market = tokenized_labels cfg ->
  investors <> [] ->
  forall (passes : list Z) txs t p,
    (exists p', for_each passes (fun _ => trade_once cfg investors date true)
                  (market, txs) t p = Ok ((market, txs), p'))
    \/ for_each passes (fun _ => trade_once cfg investors date true)
         (market, txs) t p = Raise KeyError.
Proof.
  intros HB Hl Hinv passes. induction passes as [ | d passes IH ];
    intros txs t p.
  - left. exists p. reflexivity.
  - simpl for_each.
    destruct (tokenized_trade_once_cases cfg investors date market txs t p
                HB Hl Hinv) as [ Hskip | Hraise ].
    + rewrite (bind_eq _ _ _ _ _ _ Hskip). apply IH.
    + right. apply bind_raise. exact Hraise.
Qed.

Lemma tokenized_day_cases cfg (investors : Frame Investor)
    (market : Frame MarketRow) date mc t p :
  0 < num_bonds cfg ->
  labels market = tokenized_labels cfg ->
  investors <> [] ->
  (exists dm trades market' p',
      _simulate_daily_trading cfg investors market date mc true t p
      = Ok ((dm, trades, market'), p')
      /\ labels market' = labels market)
  \/ _simulate_daily_trading cfg investors market date mc true t p
     = Raise KeyError.
Proof.
  intros HB Hl Hinv. unfold _simulate_daily_trading.
  destruct (reprice_loop_ok mc
              (1 + event_impact mc + market_sentiment mc * 0.01)%Q
              market market t p (incl_refl _)) as [um [Hum Hsame]].
  rewrite (bind_eq _ _ _ _ _ _ Hum).
  pose proof (same_but_price_labels _ _ Hsame) as Hlu.
  destruct (tokenized_trade_loop_cases cfg investors date um HB
              ltac:(rewrite Hlu; exact Hl) Hinv
              (py_range (transaction_target um mc true)) []
              t (p + length market)%nat) as [ [p1 Hloop] | Hraise ].
  - left. rewrite (bind_eq _ _ _ _ _ _ Hloop). cbn [fst snd].
    destruct (tokenized_len cfg market HB Hl) as [_ Hne].
    destruct (carry_forward_total market um t p1 Hne) as [next [p' Hnext]].
    rewrite (bind_eq _ _ _ _ _ _ Hnext).
    do 4 eexists. split; [ reflexivity | ].
    eapply carry_forward_labels; [ | exact Hnext ].
    apply same_but_price_length. exact Hsame.
  - right. apply bind_raise. exact Hraise.
Qed.

Lemma simulate_day_cases cfg (investors : Frame Investor) day s t p :
  0 < num_bonds cfg -> investors <> [] ->
  simulation_days cfg <> 0 ->
  tables_labelled cfg s ->
  day = 0 \/ sentiment_attr s <> None ->
  (exists s' p',
      simulate_day cfg investors day s t p = Ok (s', p')
      /\ tables_labelled cfg s' /\ sentiment_attr s' <> None)
  \/ simulate_day cfg investors day s t p = Raise KeyError.
Proof.
  intros HB Hinv Hnz [Hpos [Hne Hl]] Hday. unfold simulate_day.
  assert (Hmc : exists mc q,
             _update_market_conditions cfg day (sentiment_attr s) t p
             = Ok (mc, q)).
  { destruct (Z.eq_dec day 0) as [ H0 | H0 ].
    - subst day.
      destruct (conditions_day0 cfg (sentiment_attr s) t p Hnz)
        as [mc [q [H _]]].
      exists mc, q. exact H.
    - destruct Hday as [ Hd | Hs ]; [ contradiction | ].
      destruct (sentiment_attr s) as [ v | ]; [ | congruence ].
      destruct (conditions_later cfg day v t p Hnz H0)
        as [mc [q [d [q' [H _]]]]].
      exists mc, q. exact H. }
  destruct Hmc as [mc [q Hmc]]. rewrite (bind_eq _ _ _ _ _ _ Hmc).
  destruct (daily_trading_total cfg investors (traditional_market s)
              (offset_days ts_2024_01_01 day) mc false t q Hpos Hne Hinv)
    as [dm1 [tr1 [m1 [q1 [Htrad Hl1]]]]].
  rewrite (bind_eq _ _ _ _ _ _ Htrad).
  destruct (tokenized_day_cases cfg investors (tokenized_market s)
              (offset_days ts_2024_01_01 day) mc t q1 HB Hl Hinv)
    as [ [dm2 [tr2 [m2 [q2 [Htok Hl2]]]]] | Hraise ].
  - left. rewrite (bind_eq _ _ _ _ _ _ Htok).
    do 2 eexists. split; [ reflexivity | ].
    unfold tables_labelled.
    cbn [traditional_market tokenized_market sentiment_attr].
    split; [ | discriminate ].
    split; [ eapply positions_labelled_same_labels; eassumption | ].
    split; [ eapply labels_nonempty; eassumption | ].
    rewrite Hl2. exact Hl.
  - right. apply bind_raise. exact Hraise.
Qed.

Lemma day_loop_cases cfg (investors : Frame Investor) :
  0 < num_bonds cfg -> investors <> [] ->
  simulation_days cfg <> 0 ->
  forall days s t p,
    tables_labelled cfg s ->
    sentiment_attr s <> None ->
    (exists s' p', for_each days (simulate_day cfg investors) s t p
                   = Ok (s', p'))
    \/ for_each days (simulate_day cfg investors) s t p = Raise KeyError.
Proof.
  intros HB Hinv Hnz days.
  induction days as [ | d days IH ]; intros s t p Hs Hsent.
  - left. exists s, p. reflexivity.
  - simpl for_each.
    destruct (simulate_day_cases cfg investors d s t p HB Hinv Hnz Hs
                (or_intror Hsent)) as [ [s1 [p1 [Hday [Hs1 Hsent1]]]] | Hraise ].
    + rewrite (bind_eq _ _ _ _ _ _ Hday). apply IH; assumption.
    + right. apply bind_raise. exact Hraise.
Qed.

(** X15.  With a positive bond count and a positive investor count a run
    either returns or raises [KeyError], whatever the day count, the minimum
    amounts and the draws are: it raises no [ValueError], no [IndexError]
    and, the days being run in order from day 0, no [AttributeError]. *)
Theorem run_returns_or_raises_KeyError (cfg : Config) (t : Tape) (p : nat) :
  0 < num_bonds cfg -> 0 < num_investors cfg ->
  (exists out p', run_simulation cfg t p = Ok (out, p'))
  \/ run_simulation cfg t p = Raise KeyError.
Proof.
  intros HB HI. unfold run_simulation.
  rewrite (bind_eq _ _ _ _ _ _
             (run_simulation_setup_eq cfg t p HB (Z.lt_le_incl _ _ HI))).
  set (investors := new_frame (drawn_investors cfg t _)).
  set (p0 := (p + 4 * Z.to_nat (num_bonds cfg)
              + 5 * Z.to_nat (num_investors cfg)
              + 2 * Z.to_nat (num_bonds cfg))%nat).
  assert (Hinv : investors <> []).
  { intros Hnil. pose proof (f_equal (@length _) Hnil) as Hlen.
    unfold investors, new_frame in Hlen.
    rewrite <- length_rows, rows_reindex_from, drawn_investors_length in Hlen.
    simpl in Hlen. lia. }
  pose proof (initial_state_labelled cfg t p HB) as Hs0.
  assert (Hloop :
    (exists s' p', for_each (py_range (simulation_days cfg))
                     (simulate_day cfg investors) (initial_state cfg t p) t p0
                   = Ok (s', p'))
    \/ for_each (py_range (simulation_days cfg))
         (simulate_day cfg investors) (initial_state cfg t p) t p0
       = Raise KeyError).
  { unfold py_range.
    destruct (Z.to_nat (simulation_days cfg)) as [ | n ] eqn:Hn.
    - left. do 2 eexists. reflexivity.
    - assert (Hnz : simulation_days cfg <> 0) by lia.
      simpl map. simpl for_each.
      destruct (simulate_day_cases cfg investors 0 (initial_state cfg t p) t p0
                  HB Hinv Hnz Hs0 (or_introl eq_refl))
        as [ [s1 [p1 [Hday [Hs1 Hsent1]]]] | Hraise ].
      + rewrite (bind_eq _ _ _ _ _ _ Hday).
        apply day_loop_cases; assumption.
      + right. apply bind_raise. exact Hraise. }
  destruct Hloop as [ [s' [p' Hok]] | Hraise ].
  - left. rewrite (bind_eq _ _ _ _ _ _ Hok). do 2 eexists. reflexivity.
  - right. apply bind_raise. exact Hraise.
Qed.

Lemma run_returns_or_raises_KeyError_witness :
  (exists out p',
      run_simulation (mkConfig 100 1000 365 10000 100) (fun _ => 0.3%Q) 0%nat
      = Ok (out, p'))
  \/ run_simulation (mkConfig 100 1000 365 10000 100) (fun _ => 0.3%Q) 0%nat
     = Raise KeyError.
Proof.
  assert (HB : 0 < num_bonds (mkConfig 100 1000 365 10000 100))
    by (simpl; lia).
  assert (HI : 0 < num_investors (mkConfig 100 1000 365 10000 100))
    by (simpl; lia).
  exact (run_returns_or_raises_KeyError (mkConfig 100 1000 365 10000 100)
           (fun _ => 0.3%Q) 0%nat HB HI).
Defined.

(** ** The reference rate and the price loop *)

Lemma conditions_reference_rate cfg day sentiment t p mc p' :
  _update_market_conditions cfg day sentiment t p = Ok (mc, p') ->
  reference_rate mc
  = (0.03 + inject_Z day / inject_Z (simulation_days cfg) * 0.01
     + (0 + 0.0005 * t p))%Q.
Proof.
  unfold _update_market_conditions.
  destruct (Z.eqb_spec (simulation_days cfg) 0) as [ Hz | Hz ];
    [ intros H; discriminate H | ].
  destruct (Z.eqb_spec day 0) as [ H0 | H0 ].
  - cbv beta iota zeta delta
      [bind np_normal np_random raw_draw ret of_option raise].
    destruct (Qlt_le_dec (unit_of_raw (t (S p))) 0.01);
      intros H; injection H as Hmc _; rewrite <- Hmc; reflexivity.
  - destruct sentiment as [ s | ];
      cbv beta iota zeta delta
        [bind np_normal np_random raw_draw ret of_option raise];
      [ | discriminate ].
    destruct (Qlt_le_dec (unit_of_raw (t (S (S p)))) 0.01);
      intros H; injection H as Hmc _; rewrite <- Hmc; reflexivity.
Qed.

(** X16.  On every day of a run (0 <= day < simulation_days) the
    reference rate is the daily noise [0.0005 * z] plus a base-and-trend
    term that starts at 3% on day 0 and stays below 4%: the trend
    [day / simulation_days * 0.01] never reaches the full 1%. *)
Theorem reference_rate_trend (cfg : Config) (day : Z) (sentiment : option Q)
    (t : Tape) (p : nat) mc p' :
  0 <= day < simulation_days cfg ->
  _update_market_conditions cfg day sentiment t p = Ok (mc, p') ->
  (0.03 + 0.0005 * t p <= reference_rate mc)%Q /\
  (reference_rate mc < 0.04 + 0.0005 * t p)%Q /\
  (day = 0 -> (reference_rate mc == 0.03 + 0.0005 * t p)%Q).
Proof.
  intros Hday H. rewrite (conditions_reference_rate _ _ _ _ _ _ _ H).
  assert (Hn : (0 < inject_Z (simulation_days cfg))%Q).
  { change 0%Q with (inject_Z 0). rewrite <- Zlt_Qlt. lia. }
  assert (Hd0 : (0 <= inject_Z day)%Q).
  { change 0%Q with (inject_Z 0). rewrite <- Zle_Qle. lia. }
  assert (Hd1 : (inject_Z day < inject_Z (simulation_days cfg))%Q).
  { rewrite <- Zlt_Qlt. lia. }
  assert (Hlo : (0 <= inject_Z day / inject_Z (simulation_days cfg))%Q).
  { apply Qle_shift_div_l; [ exact Hn | lra ]. }
  assert (Hhi : (inject_Z day / inject_Z (simulation_days cfg) < 1)%Q).
  { apply Qlt_shift_div_r; [ exact Hn | lra ]. }
  split; [ lra | ]. split; [ lra | ].
  intros H0. subst day. unfold Qdiv. change (inject_Z 0) with 0%Q. lra.
Qed.

Lemma reference_rate_trend_witness :
  exists mc p',
    _update_market_conditions (mkConfig 2 5 3 10000 100) 2 (Some 0.4%Q)
      (fun _ => 0.5%Q) 0%nat = Ok (mc, p')
    /\ (reference_rate mc < 0.04 + 0.0005 * 0.5)%Q.
Proof.
  assert (Hrun : { r | _update_market_conditions (mkConfig 2 5 3 10000 100) 2
                         (Some 0.4%Q) (fun _ => 0.5%Q) 0%nat = Ok r }).
  { eexists. vm_compute. reflexivity. }
  destruct Hrun as [[mc p'] Hrun].
  assert (Hday : 0 <= 2 < simulation_days (mkConfig 2 5 3 10000 100))
    by (simpl; lia).
  destruct (reference_rate_trend _ _ _ _ _ _ _ Hday Hrun) as [_ [Hhi _]].
  exists mc, p'. split; [ exact Hrun | exact Hhi ].
Defined.

Lemma at_set_app {R} (f g : Frame R) idx (upd : R -> R) :
  at_set (f ++ g) idx upd = at_set f idx upd ++ at_set g idx upd.
Proof. unfold at_set. apply map_app. Qed.

Lemma at_lookup_app_absent {R} (f g : Frame R) idx :
  ~ In idx (labels f) -> at_lookup (f ++ g) idx = at_lookup g idx.
Proof.
  induction f as [ | [l r] f IH ]; intros H; [ reflexivity | ].
  simpl in *. destruct (Z.eqb_spec l idx) as [ Heq | Hne ].
  - exfalso. apply H. left. exact Heq.
  - apply IH. intros Hin. apply H. right. exact Hin.
Qed.

Lemma labels_app {R} (f g : Frame R) : labels (f ++ g) = labels f ++ labels g.
Proof. unfold labels. apply map_app. Qed.

Lemma at_set_unique {R} (pre suf : Frame R) l r (upd : R -> R) :
  ~ In l (labels pre) -> ~ In l (labels suf) ->
  at_set (pre ++ (l, r) :: suf) l upd = pre ++ (l, upd r) :: suf.
Proof.
  intros Hpre Hsuf. rewrite at_set_app, (at_set_absent pre l upd Hpre).
  f_equal.
  assert (Hcons : at_set ((l, r) :: suf) l upd = (l, upd r) :: at_set suf l upd).
  { unfold at_set. simpl. rewrite Z.eqb_refl. reflexivity. }
  rewrite Hcons, (at_set_absent suf l upd Hsuf). reflexivity.
Qed.

Lemma at_lookup_unique {R} (pre suf : Frame R) l r :
  ~ In l (labels pre) -> at_lookup (pre ++ (l, r) :: suf) l = Some r.
Proof.
  intros Hpre. rewrite (at_lookup_app_absent pre _ l Hpre).
  simpl. rewrite Z.eqb_refl. reflexivity.
Qed.

(** One pass of the price loop on a table with distinct labels rewrites
    the row it was yielded, and nothing else. *)
Lemma reprice_unique mc factor (pre suf : Frame MarketRow) l r t p :
  NoDup (labels (pre ++ (l, r) :: suf)) ->
  reprice mc factor (l, r) (pre ++ (l, r) :: suf) t p
  = Ok (pre ++ (l, repriced_row mc factor r (t p)) :: suf, S p).
Proof.
  intros Hnd. rewrite labels_app in Hnd. simpl in Hnd.
  assert (Hpre : ~ In l (labels pre)).
  { intros Hin. apply NoDup_remove_2 in Hnd. apply Hnd.
    apply in_or_app. left. exact Hin. }
  assert (Hsuf : ~ In l (labels suf)).
  { intros Hin. apply NoDup_remove_2 in Hnd. apply Hnd.
    apply in_or_app. right. exact Hin. }
  unfold reprice. cbn [fst snd].
  rewrite (at_set_unique pre suf l r _ Hpre Hsuf).
  unfold bind at 1. unfold np_normal at 1. unfold bind at 1.
  unfold raw_draw at 1. unfold ret at 1.
  unfold bind at 1. unfold at_get. unfold bind at 1.
  rewrite (at_lookup_unique pre suf l _ Hpre). unfold of_option, ret.
  rewrite (at_set_unique pre suf l _ _ Hpre Hsuf). reflexivity.
Qed.

Lemma reprice_loop_unique mc factor : forall (suf pre : Frame MarketRow) t p,
  NoDup (labels (pre ++ suf)) ->
  for_each suf (reprice mc factor) (pre ++ suf) t p
  = Ok (pre ++ repriced_from mc factor t p suf, (p + length suf)%nat).
Proof.
  induction suf as [ | [l r] suf IH ]; intros pre t p Hnd.
  - simpl. unfold ret. f_equal. f_equal. lia.
  - simpl for_each.
    rewrite (bind_eq _ _ _ _ _ _ (reprice_unique mc factor pre suf l r t p Hnd)).
    change (pre ++ (l, repriced_row mc factor r (t p)) :: suf)
      with (pre ++ [(l, repriced_row mc factor r (t p))] ++ suf).
    rewrite app_assoc. rewrite IH.
    + rewrite <- app_assoc. simpl. f_equal. f_equal. lia.
    + rewrite <- app_assoc. simpl.
      rewrite labels_app in *. simpl in *. exact Hnd.
Qed.

Lemma repriced_from_nth mc factor t : forall (f : Frame MarketRow) p i l r,
  nth_error f i = Some (l, r) ->
  nth_error (repriced_from mc factor t p f) i
  = Some (l, repriced_row mc factor r (t (p + i)%nat)).
Proof.
  induction f as [ | [l0 r0] f IH ]; intros p i l r H.
  - destruct i; discriminate.
  - destruct i as [ | i ]; cbn [nth_error repriced_from] in *.
    + injection H as Hl Hr. subst l0 r0. rewrite Nat.add_0_r. reflexivity.
    + rewrite (IH (S p) i l r H).
      replace (S p + i)%nat with (p + S i)%nat by lia. reflexivity.
Qed.



(** ** When the minimum amount is respected *)

Lemma same_but_price_Forall (P : MarketRow -> Prop) m m' :
  (forall r, P (set_price 0 r) <-> P r) ->
  same_but_price m m' -> Forall P (rows m) -> Forall P (rows m').
Proof.
  unfold same_but_price, rows. intros HP H Hm.
  apply (f_equal (map snd)) in H. rewrite !map_map in H. cbn [snd] in H.
  assert (Hmap : forall f : Frame MarketRow,
             Forall P (map snd f)
             <-> Forall P (map (fun lr => set_price 0 (snd lr)) f)).
  { intros f. rewrite !Forall_map. split; intros Hf;
      (eapply Forall_impl; [ | exact Hf ]); intros lr Hlr; apply HP; exact Hlr. }
  apply Hmap. rewrite H. apply Hmap. exact Hm.
Qed.

Lemma trade_once_minimum cfg (investors : Frame Investor) date tok
    (um : Frame MarketRow) txs t p um' txs' p' :
  (0 <= venue_min_amount cfg tok)%Q ->
  Forall (fun r => (venue_min_amount cfg tok
                    <= inject_Z (venue_cap tok (bond r)))%Q)
    (rows um) ->
  Forall (fun tx => (venue_min_amount cfg tok <= tx_amount tx)%Q) txs ->
  trade_once cfg investors date tok (um, txs) t p = Ok ((um', txs'), p') ->
  Forall (fun r => (venue_min_amount cfg tok
                    <= inject_Z (venue_cap tok (bond r)))%Q)
    (rows um')
  /\ Forall (fun tx => (venue_min_amount cfg tok <= tx_amount tx)%Q) txs'.
Proof.
  intros Hmin Hcap Htxs H.
  assert (Hum : um <> []).
  { intros Heq. subst um. rewrite trade_once_empty_market in H. discriminate. }
  assert (Hinv : investors <> []).
  { intros Heq. subst investors.
    rewrite (trade_once_no_investors cfg date tok um txs t p Hum) in H.
    discriminate. }
  destruct (trade_once_eq cfg investors date tok um txs t p Hum Hinv)
    as [b [inv [Hb [Hi Heq]]]].
  rewrite Heq in H. clear Heq.
  destruct (Qlt_le_dec (assets inv * 0.1) (fst (amount_bounds cfg tok b inv)))
    as [ Hlt | Hle ].
  - injection H as H1 H2 _. subst um' txs'. split; assumption.
  - destruct (at_lookup um (Qfloor (t p) mod len um)) as [ r | ] eqn:Hr;
      [ | discriminate ].
    injection H as H1 H2 _. subst um' txs'.
    rewrite amount_bounds_min in Hle.
    split.
    + apply at_set_Forall; [ | exact Hcap ]. intros r' Hr'. exact Hr'.
    + apply Forall_app. split; [ exact Htxs | ].
      constructor; [ | constructor ].
      unfold drawn_transaction. cbn [tx_amount].
      apply drawn_amount_ge_min; [ exact Hmin | | exact Hle ].
      exact (proj1 (Forall_forall _ _) Hcap b (nth_error_In _ _ Hb)).
Qed.

Lemma trade_loop_minimum cfg (investors : Frame Investor) date tok :
  (0 <= venue_min_amount cfg tok)%Q ->
  forall (passes : list Z) (um : Frame MarketRow) txs t p um' txs' p',
    Forall (fun r => (venue_min_amount cfg tok
                      <= inject_Z (venue_cap tok (bond r)))%Q)
      (rows um) ->
    Forall (fun tx => (venue_min_amount cfg tok <= tx_amount tx)%Q) txs ->
    for_each passes (fun _ => trade_once cfg investors date tok)
      (um, txs) t p = Ok ((um', txs'), p') ->
    Forall (fun tx => (venue_min_amount cfg tok <= tx_amount tx)%Q) txs'.
Proof.
  intros Hmin passes. induction passes as [ | d passes IH ];
    intros um txs t p um' txs' p' Hcap Htxs H.
  - simpl in H. unfold ret in H. injection H as _ H2 _. subst txs'. exact Htxs.
  - simpl for_each in H. apply bind_Ok in H.
    destruct H as [[um1 txs1] [p1 [Hstep Hrest]]].
    destruct (trade_once_minimum _ _ _ _ _ _ _ _ _ _ _ Hmin Hcap Htxs Hstep)
      as [Hcap1 Htxs1].
    eapply IH; eassumption.
Qed.

(** X18.  On a venue with a non-negative minimum whose every bond has a
    cap on the face value (the face value on the tokenized venue, its
    [int64] product by 5 on the traditional one) at least the minimum, every
    amount a day records is at least the venue's minimum. *)
Theorem day_amounts_reach_minimum (cfg : Config)
    (investors : Frame Investor) (market : Frame MarketRow)
    (date : Timestamp) (mc : MarketConditions) (tok : bool) (t : Tape)
    (p : nat) dm trades market' p' :
  (0 <= venue_min_amount cfg tok)%Q ->
  Forall (fun r => (venue_min_amount cfg tok
                    <= inject_Z (venue_cap tok (bond r)))%Q)
    (rows market) ->
  _simulate_daily_trading cfg investors market date mc tok t p
  = Ok ((dm, trades, market'), p') ->
  Forall (fun tx => (venue_min_amount cfg tok <= tx_amount tx)%Q) trades.
Proof.
  intros Hmin Hcap H. unfold _simulate_daily_trading in H.
  destruct (reprice_loop_ok mc
              (1 + event_impact mc + market_sentiment mc * 0.01)%Q
              market market t p (incl_refl _)) as [um [Hum Hsame]].
  rewrite (bind_eq _ _ _ _ _ _ Hum) in H.
  apply bind_Ok in H. destruct H as [[um' txs] [q' [Hloop H]]].
  cbn [fst snd] in H.
  apply bind_Ok in H. destruct H as [next [q'' [Hnext H]]].
  unfold ret in H. injection H as _ H2 _ _. subst trades.
  eapply (trade_loop_minimum cfg investors date tok Hmin);
    [ | constructor | exact Hloop ].
  eapply same_but_price_Forall; [ | exact Hsame | exact Hcap ].
  intros r. reflexivity.
Qed.

Lemma day_amounts_reach_minimum_witness :
  exists dm trades market' p',
    _simulate_daily_trading small_config [(0, wealthy_investor)]
      sample_market ts_2024_01_01 calm_conditions false
      (fun _ => 0.25%Q) 0%nat = Ok ((dm, trades, market'), p') /\
    Forall (fun tx => (500 <= tx_amount tx)%Q) trades.
Proof.
  destruct sample_day_returns as [[[[dm trades] market'] p'] Hrun].
  assert (Hmin : (0 <= venue_min_amount small_config false)%Q) by discriminate.
  assert (Hcap : Forall (fun r => (venue_min_amount small_config false
                                   <= inject_Z (venue_cap false (bond r)))%Q)
                   (rows sample_market)).
  { simpl. constructor; [ discriminate | constructor ]. }
  exists dm, trades, market', p'. split; [ exact Hrun | ].
  exact (day_amounts_reach_minimum _ _ _ _ _ _ _ _ _ _ _ _ Hmin Hcap Hrun).
Defined.

(** ** Spreads after the first day *)

(** The carry-forward of a day multiplies the spread of every row by the
    row's own factor [1 + 0.05 * z].  The factors are the first draws of the
    carry-forward, which starts after the day's price loop and attempts and
    ends the day. *)
Lemma day_spread_noise cfg (investors : Frame Investor)
    (market : Frame MarketRow) date mc tok t p dm trades market' p' :
  _simulate_daily_trading cfg investors market date mc tok t p
  = Ok ((dm, trades, market'), p') ->
  exists q,
    (p + length market <= q)%nat /\
    p' = (q + 2 * length market)%nat /\
    forall i r,
      nth_error (rows market) i = Some r ->
      exists r',
        nth_error (rows market') i = Some r' /\
        bid_ask_spread r'
        = (bid_ask_spread r * (1 + 0.05 * t (q + i)%nat))%Q.
Proof.
  intros H. unfold _simulate_daily_trading in H.
  destruct (reprice_loop_ok mc
              (1 + event_impact mc + market_sentiment mc * 0.01)%Q
              market market t p (incl_refl _)) as [um [Hum Hsame]].
  rewrite (bind_eq _ _ _ _ _ _ Hum) in H.
  apply bind_Ok in H. destruct H as [[um' txs] [q [Hloop H]]].
  cbn [fst snd] in H.
  apply bind_Ok in H. destruct H as [next [q'' [Hnext H]]].
  unfold ret in H. injection H as _ _ H3 H4. subst market' p'.
  destruct (forward_for_each
              (fun _ : Z => trade_once cfg investors date tok)
              (fun _ st => forward_trade_once cfg investors date tok st)
              (py_range (transaction_target um mc tok)) (um, [])
              t t (p + length market)%nat
              (same_draws_from_refl _ t)) as [_ Hpos].
  pose proof (Hpos _ _ Hloop) as Hq.
  apply trade_loop_steps in Hloop. destruct Hloop as [Hvol _].
  assert (Hspread : map bid_ask_spread (rows um')
                    = map bid_ask_spread (rows market)).
  { rewrite (same_but_volume_column bid_ask_spread um um'
               (fun r => eq_refl) Hvol).
    apply (same_but_price_column bid_ask_spread); [ reflexivity | exact Hsame ]. }
  destruct market as [ | [l0 o0] market ].
  { unfold _update_market_for_next_day in Hnext.
    rewrite (bind_raise _ _ _ _ _ (first_is_tokenized_nil _ t q)) in Hnext.
    discriminate. }
  pose proof (update_market_for_next_day_eq l0 o0 market um' t q) as E.
  cbv zeta in E. rewrite E in Hnext.
  assert (Hn : next = carry_rows (is_tokenized (bond o0))
                        ((l0, o0) :: market) um'
                        (map (fun z => 1 + 0.05 * z)%Q
                           (tape_slice t q (length ((l0, o0) :: market))))
                        (map (fun z => 1 + 0.1 * z)%Q
                           (tape_slice t (q + length ((l0, o0) :: market))
                              (length ((l0, o0) :: market)))))
    by congruence.
  assert (Hq'' : q'' = (q + length ((l0, o0) :: market)
                        + length ((l0, o0) :: market))%nat) by congruence.
  clear Hnext E.
  exists q. split; [ exact Hq | ].
  split; [ rewrite Hq''; lia | ].
  intros i r Hr.
  assert (Hi : (i < length ((l0, o0) :: market))%nat).
  { rewrite <- length_rows. apply nth_error_Some. rewrite Hr. discriminate. }
  destruct (rows_nth _ _ _ Hr) as [l Hl].
  assert (Hu : exists u, nth_error (rows um') i = Some u
                         /\ bid_ask_spread u = bid_ask_spread r).
  { pose proof (f_equal (fun xs => nth_error xs i) Hspread) as Hs.
    cbv beta in Hs. rewrite !nth_error_map, Hr in Hs.
    destruct (nth_error (rows um') i) as [ u | ]; [ | discriminate ].
    exists u. split; [ reflexivity | ]. simpl in Hs. congruence. }
  destruct Hu as [u [Hu Hsu]]. destruct (rows_nth _ _ _ Hu) as [l' Hl'].
  exists (carried_row (is_tokenized (bond o0)) r u
            (1 + 0.05 * t (q + i)%nat)%Q
            (1 + 0.1 * t (q + length ((l0, o0) :: market) + i)%nat)%Q).
  split.
  - rewrite Hn. unfold rows. rewrite nth_error_map.
    rewrite (carry_rows_nth _ _ _ _ _ i l r l' u _ _ Hl Hl'
               (tape_slice_nth (fun z => 1 + 0.05 * z)%Q t q _ i Hi)
               (tape_slice_nth (fun z => 1 + 0.1 * z)%Q t _ _ i Hi)).
    reflexivity.
  - unfold carried_row. cbn [bid_ask_spread]. rewrite Hsu. reflexivity.
Qed.

(** C8, as the code has it.  For a positive bond count, the tables that
    [initialize_markets] builds from the generated bonds (wherever on the
    tape its depth draws start) give every traditional row the spread
    [0.005 + 0.002 * maturity_years] and every tokenized row the spread
    [0.001 + 0.001 * maturity_years], and for every traditional and
    tokenized bond with equal maturity the tokenized spread is at most the
    traditional one.  On every day that returns, each venue's spread of a
    row becomes the previous spread times a noise factor [1 + 0.05 * z] of
    the venue's own: the factors of the traditional rows are draws of the
    traditional venue's day and those of the tokenized rows are later draws,
    of the tokenized venue's day. *)
Theorem initial_spread_ordering (cfg : Config) (t : Tape) (p : nat) :
  (0 < num_bonds cfg ->
   exists bonds p1,
    generate_bonds cfg t p = Ok (bonds, p1) /\
    forall p_init, exists traditional tokenized p2,
    initialize_markets bonds t p_init = Ok ((traditional, tokenized), p2) /\
    (forall r, In r (rows traditional) ->
       bid_ask_spread r
       = (0.005 + 0.002 * inject_Z (maturity_years (bond r)))%Q) /\
    (forall r, In r (rows tokenized) ->
       bid_ask_spread r
       = (0.001 + 0.001 * inject_Z (maturity_years (bond r)))%Q) /\
    (forall rt rk,
       In rt (rows traditional) -> In rk (rows tokenized) ->
       maturity_years (bond rk) = maturity_years (bond rt) ->
       (bid_ask_spread rk <= bid_ask_spread rt)%Q)) /\
  (forall (investors : Frame Investor) day s t' q s' q',
      simulate_day cfg investors day s t' q = Ok (s', q') ->
      exists q1 q2,
        (q <= q1)%nat /\
        (q1 + 2 * length (traditional_market s) <= q2)%nat /\
        (q2 + 2 * length (tokenized_market s) = q')%nat /\
        (forall i r,
            nth_error (rows (traditional_market s)) i = Some r ->
            exists r',
              nth_error (rows (traditional_market s')) i = Some r' /\
              bid_ask_spread r'
              = (bid_ask_spread r * (1 + 0.05 * t' (q1 + i)%nat))%Q) /\
        (forall i r,
            nth_error (rows (tokenized_market s)) i = Some r ->
            exists r',
              nth_error (rows (tokenized_market s')) i = Some r' /\
              bid_ask_spread r'
              = (bid_ask_spread r * (1 + 0.05 * t' (q2 + i)%nat))%Q)).
Proof.
  split; [ apply initial_spreads | ].
  intros investors day s t' q s' q' H. unfold simulate_day in H.
  apply bind_Ok in H. destruct H as [mc [p0 [Hmc H]]].
  apply bind_Ok in H. destruct H as [[[dm1 tr1] m1] [p1 [Htrad H]]].
  apply bind_Ok in H. destruct H as [[[dm2 tr2] m2] [p2 [Htok H]]].
  unfold ret in H. injection H as Hs Hq. subst s' q'.
  cbn [traditional_market tokenized_market].
  destruct (forward_update_market_conditions cfg day (sentiment_attr s)
              t' t' q (same_draws_from_refl _ t')) as [_ Hpos].
  pose proof (Hpos _ _ Hmc) as Hp0.
  destruct (day_spread_noise _ _ _ _ _ _ _ _ _ _ _ _ Htrad)
    as [q1 [Hq1 [Hp1 Hrows1]]].
  destruct (day_spread_noise _ _ _ _ _ _ _ _ _ _ _ _ Htok)
    as [q2 [Hq2 [Hp2 Hrows2]]].
  exists q1, q2.
  split; [ lia | ]. split; [ lia | ]. split; [ lia | ].
  split; [ exact Hrows1 | exact Hrows2 ].
Qed.

(** The initial tables of the default configuration, and day 0 of the
    two-day run of one bond and one investor on [diverging_spread_tape]. *)
Lemma initial_spread_ordering_witness :
  0 < num_bonds (mkConfig 100 1000 365 10000 100) /\
  (exists bonds p1 traditional tokenized p2,
    generate_bonds (mkConfig 100 1000 365 10000 100) (fun _ => 1%Q) 0%nat
    = Ok (bonds, p1) /\
    initialize_markets bonds (fun _ => 1%Q) p1
    = Ok ((traditional, tokenized), p2)) /\
  exists investors s0 p0 s1 p1 q1 q2,
    run_simulation_setup (mkConfig 1 1 2 10000 100) diverging_spread_tape 0%nat
    = Ok ((investors, s0), p0) /\
    simulate_day (mkConfig 1 1 2 10000 100) investors 0 s0
      diverging_spread_tape p0 = Ok (s1, p1) /\
    (q1 + 2 * length (traditional_market s0) <= q2)%nat /\
    forall i r,
      nth_error (rows (tokenized_market s0)) i = Some r ->
      exists r',
        nth_error (rows (tokenized_market s1)) i = Some r' /\
        bid_ask_spread r'
        = (bid_ask_spread r * (1 + 0.05 * diverging_spread_tape (q2 + i)%nat))%Q.
Proof.
  assert (HB : 0 < num_bonds (mkConfig 100 1000 365 10000 100))
    by reflexivity.
  split; [ exact HB | ]. split.
  - destruct (proj1 (initial_spread_ordering (mkConfig 100 1000 365 10000 100)
                       (fun _ => 1%Q) 0%nat) HB)
      as [bonds [p1 [Hg Hq]]].
    destruct (Hq p1) as [traditional [tokenized [p2 [Hi _]]]].
    exists bonds, p1, traditional, tokenized, p2.
    split; [ exact Hg | exact Hi ].
  - assert (Hsetup : { r | run_simulation_setup (mkConfig 1 1 2 10000 100)
                             diverging_spread_tape 0%nat = Ok r }).
    { eexists. vm_compute. reflexivity. }
    destruct Hsetup as [[[investors s0] p0] Hsetup].
    assert (Hday : { r | simulate_day (mkConfig 1 1 2 10000 100) investors 0 s0
                           diverging_spread_tape p0 = Ok r }).
    { assert (E : Ok ((investors, s0), p0)
                  = run_simulation_setup (mkConfig 1 1 2 10000 100)
                      diverging_spread_tape 0%nat) by (symmetry; exact Hsetup).
      vm_compute in E. injection E as Ei Es Ep. subst investors s0 p0.
      eexists. vm_compute. reflexivity. }
    destruct Hday as [[s1 p1] Hday].
    destruct (proj2 (initial_spread_ordering (mkConfig 1 1 2 10000 100)
                       (fun _ => 0%Q) 0%nat)
                investors 0 s0 diverging_spread_tape p0 s1 p1 Hday)
      as [q1 [q2 [_ [Hq12 [_ [_ Htok]]]]]].
    exists investors, s0, p0, s1, p1, q1, q2.
    split; [ exact Hsetup | ]. split; [ exact Hday | ].
    split; [ exact Hq12 | exact Htok ].
Defined.
